(** * Network behaviour simulator: connection registry, device nodes, orchestrator

    Shallow embedding of
      - [src/simulation/ipc_manager.py]  (class [IPCManager], dataclass [Connection]),
      - [src/simulation/network_node.py] (class [NetworkNode]),
      - [src/simulation/simulator.py]    (class [NetworkSimulator]),
    together with the properties the design document states about them.

    Conventions of the embedding.
      - A Python [float] is an IEEE binary64 number: Rocq's primitive [float].
      - A Python [int] is a [Z].
      - A Python [dict] whose iteration order is observable (the connection
        table, the node queues, the simulator's node table) is an
        insertion-ordered association list ([dict_get], [dict_set]); a dict
        that is only looked up, updated and counted (routing table, ARP table,
        interface states) is a [gmap].
      - [Connection] objects are mutable and shared: the registry stores the
        same object under the keys (a,b) and (b,a), and every accepted message
        keeps a reference to it.  They live in an object store ([heap]) and
        are named by their index.
      - Locks and log output have no effect on the modelled state and are
        left out.  [time.sleep] with a constant delay only lets time pass
        and is left out; the one call whose delay is data, the latency of a
        connection in [_process_message], is modelled as far as it can
        raise ([sleep_raises]).  Wall-clock timestamps that are only stored
        (in events and in queued messages) are left out as well, and a clock
        reading whose value is used is an explicit argument.
      - Random draws are explicit arguments.
      - Threads: the registry's dispatcher and the per-node delivery threads
        are steps of their own ([_message_processor_step],
        [_node_message_delivery_step]) that a run interleaves with the
        callers' steps, each step atomic.  The orchestrator's methods are
        given as the orchestrator thread executes them.  The nodes' own
        loops are not interleaved with them: the orchestrator never calls
        [register_node], so no message reaches a node's own queue, and a
        loop only updates its node's statistics and sends the periodic
        hello; it touches neither the event log, nor a node's flags, tables
        and interface states, nor the connection table. *)

From Stdlib Require Import Floats ZArith QArith Ascii String.
From stdpp Require Import base option list strings pretty gmap.

Set Warnings "-inexact-float".
Set Default Proof Using "Type".

Local Open Scope Z_scope.
Local Open Scope string_scope.
Local Open Scope list_scope.

(** ** Insertion-ordered dictionaries *)

Section PyDict.
Context {K V : Type} `{EqDecision K}.

(** [d.get(k)] *)
Fixpoint dict_get (d : list (K * V)) (k : K) : option V :=
  match d with
  | [] => None
  | (k', v) :: d' => if decide (k' = k) then Some v else dict_get d' k
  end.

(** [d[k] = v]: an existing key keeps its position, a new key goes last. *)
Fixpoint dict_set (d : list (K * V)) (k : K) (v : V) : list (K * V) :=
  match d with
  | [] => [(k, v)]
  | (k', v') :: d' =>
      if decide (k' = k) then (k', v) :: d' else (k', v') :: dict_set d' k v
  end.

(** [k in d] *)
Definition dict_mem (d : list (K * V)) (k : K) : bool :=
  match dict_get d k with Some _ => true | None => false end.

Definition dict_keys (d : list (K * V)) : list K := d.*1.
Definition dict_values (d : list (K * V)) : list V := d.*2.

End PyDict.

(** ** Messages

    A message is a Python dict from field names to values. *)

Inductive Value :=
| VStr (s : string)
| VInt (z : Z)
| VNone.

Definition Message := list (string * Value).

(** ** The connection registry ([IPCManager]) *)

Record Connection := mkConnection {
  node1 : string;
  node2 : string;
  interface1 : string;
  interface2 : string;
  enabled : bool;
  bandwidth : option string;
  latency : float;
  packet_loss : float
}.

Definition set_enabled (b : bool) (c : Connection) : Connection :=
  mkConnection (node1 c) (node2 c) (interface1 c) (interface2 c)
               b (bandwidth c) (latency c) (packet_loss c).
Definition set_bandwidth (bw : option string) (c : Connection) : Connection :=
  mkConnection (node1 c) (node2 c) (interface1 c) (interface2 c)
               (enabled c) bw (latency c) (packet_loss c).
Definition set_latency (x : float) (c : Connection) : Connection :=
  mkConnection (node1 c) (node2 c) (interface1 c) (interface2 c)
               (enabled c) (bandwidth c) x (packet_loss c).
Definition set_packet_loss (x : float) (c : Connection) : Connection :=
  mkConnection (node1 c) (node2 c) (interface1 c) (interface2 c)
               (enabled c) (bandwidth c) (latency c) x.

Record MessageStats := mkStats {
  sent : Z;
  delivered : Z;
  dropped : Z;
  queued : Z
}.

(** An entry of the processing queue; [ipc_connection] is the reference to
    the [Connection] object the message was accepted on. *)
Record IPCMessage := mkIPCMessage {
  ipc_source : string;
  ipc_target : string;
  ipc_payload : Message;
  ipc_connection : nat
}.

Record IPCManager := mkIPC {
  heap : list Connection;
  connections : list ((string * string) * nat);
  node_queues : list (string * list Message);
  message_stats : MessageStats;
  running : bool;
  message_queue : list IPCMessage
}.

Definition with_heap (h : list Connection) (m : IPCManager) : IPCManager :=
  mkIPC h (connections m) (node_queues m) (message_stats m) (running m) (message_queue m).
Definition with_stats (st : MessageStats) (m : IPCManager) : IPCManager :=
  mkIPC (heap m) (connections m) (node_queues m) st (running m) (message_queue m).
Definition with_node_queues (q : list (string * list Message)) (m : IPCManager) : IPCManager :=
  mkIPC (heap m) (connections m) q (message_stats m) (running m) (message_queue m).
Definition with_message_queue (q : list IPCMessage) (m : IPCManager) : IPCManager :=
  mkIPC (heap m) (connections m) (node_queues m) (message_stats m) (running m) q.

Definition incr_sent (st : MessageStats) : MessageStats :=
  mkStats (sent st + 1) (delivered st) (dropped st) (queued st).
Definition incr_delivered (st : MessageStats) : MessageStats :=
  mkStats (sent st) (delivered st + 1) (dropped st) (queued st).
Definition incr_dropped (st : MessageStats) : MessageStats :=
  mkStats (sent st) (delivered st) (dropped st + 1) (queued st).

(** [IPCManager.__init__] followed by [start]: empty tables, zero counters,
    dispatcher running. *)
Definition IPCManager_init : IPCManager :=
  mkIPC [] [] [] (mkStats 0 0 0 0) true [].

(** Capacity of a node queue: [queue.Queue(maxsize=100)]. *)
Definition node_queue_maxsize : nat := 100.

(** [_ensure_node_queue] *)
Definition _ensure_node_queue (node_name : string) (m : IPCManager) : IPCManager :=
  if dict_mem (node_queues m) node_name then m
  else with_node_queues (dict_set (node_queues m) node_name []) m.

(** Keyword arguments of [create_connection]. *)
Record ConnKwargs := mkKw {
  kw_bandwidth : option string;
  kw_latency : option float;
  kw_packet_loss : option float
}.

Definition no_kwargs : ConnKwargs := mkKw None None None.

(** [create_connection]: one new object, stored under both ordered pairs. *)
Definition create_connection (node1 node2 interface1 interface2 : string)
    (kwargs : ConnKwargs) (m : IPCManager) : IPCManager :=
  let conn_key1 := (node1, node2) in
  let conn_key2 := (node2, node1) in
  let connection :=
    mkConnection node1 node2 interface1 interface2 true
                 (kw_bandwidth kwargs)
                 (default 0.001%float (kw_latency kwargs))
                 (default 0.0%float (kw_packet_loss kwargs)) in
  let r := length (heap m) in
  let m1 :=
    mkIPC (heap m ++ [connection])
          (dict_set (dict_set (connections m) conn_key1 r) conn_key2 r)
          (node_queues m) (message_stats m) (running m) (message_queue m) in
  _ensure_node_queue node2 (_ensure_node_queue node1 m1).

(** [self.connections[key].attr = v] when [key in self.connections]. *)
Definition update_at_key (f : Connection → Connection) (key : string * string)
    (m : IPCManager) : IPCManager :=
  match dict_get (connections m) key with
  | Some r => with_heap (alter f r (heap m)) m
  | None => m
  end.

(** [disable_connection] *)
Definition disable_connection (node1 node2 : string) (m : IPCManager) : IPCManager :=
  update_at_key (set_enabled false) (node2, node1)
    (update_at_key (set_enabled false) (node1, node2) m).

(** [enable_connection] *)
Definition enable_connection (node1 node2 : string) (m : IPCManager) : IPCManager :=
  update_at_key (set_enabled true) (node2, node1)
    (update_at_key (set_enabled true) (node1, node2) m).

(** [for connection in self.connections.values(): connection.attr = v] *)
Definition update_all (f : Connection → Connection) (m : IPCManager) : IPCManager :=
  with_heap (foldl (λ h r, alter f r h) (heap m) (dict_values (connections m))) m.

(** [enable_all_connections] *)
Definition enable_all_connections (m : IPCManager) : IPCManager :=
  update_all (set_enabled true) m.

(** Keyword arguments of [set_connection_properties]; for each, [None] means
    the keyword is absent. *)
Record ConnProps := mkProps {
  p_latency : option float;
  p_packet_loss : option float;
  p_bandwidth : option (option string)
}.

Definition apply_props (p : ConnProps) (c : Connection) : Connection :=
  let c1 := match p_latency p with Some x => set_latency x c | None => c end in
  let c2 := match p_packet_loss p with Some x => set_packet_loss x c1 | None => c1 end in
  match p_bandwidth p with Some bw => set_bandwidth bw c2 | None => c2 end.

(** [set_connection_properties] *)
Definition set_connection_properties (node1 node2 : string) (properties : ConnProps)
    (m : IPCManager) : IPCManager :=
  let conn_key1 := (node1, node2) in
  let conn_key2 := (node2, node1) in
  foldl (λ m' conn_key, update_at_key (apply_props properties) conn_key m')
        m [conn_key1; conn_key2].

(** Python's two-argument [min(a, b)]: [b] if [b < a], else [a]. *)
Definition py_min (a b : float) : float :=
  if PrimFloat.ltb b a then b else a.

(** [simulate_congestion] *)
Definition simulate_congestion (node1 node2 : string) (congestion_level : float)
    (m : IPCManager) : IPCManager :=
  let base_latency := 0.001%float in
  let base_packet_loss := 0.0%float in
  let new_latency := (base_latency * (1 + congestion_level * 10))%float in
  let new_packet_loss := (base_packet_loss + (congestion_level * 0.1))%float in
  set_connection_properties node1 node2
    (mkProps (Some new_latency) (Some (py_min new_packet_loss 0.5%float)) None) m.

(** [clear_congestion] *)
Definition clear_congestion (m : IPCManager) : IPCManager :=
  update_all (λ c, set_packet_loss 0.0%float (set_latency 0.001%float c)) m.

(** [get_connection_info]: the object stored under the ordered pair. *)
Definition get_connection_info (node1 node2 : string) (m : IPCManager) : option Connection :=
  r ← dict_get (connections m) (node1, node2); heap m !! r.

(** [get_neighbors] *)
Definition get_neighbors (node : string) (m : IPCManager) : list string :=
  omap (λ '((source, target), r),
          match heap m !! r with
          | Some connection =>
              if bool_decide (source = node) && enabled connection
              then Some target else None
          | None => None
          end)
       (connections m).

(** [send_message].  The processing queue is [queue.Queue()] with no
    [maxsize], so [put_nowait] always succeeds and the [queue.Full] handler
    is never entered.  The result is the returned boolean and the new state. *)
Definition send_message (source target : string) (message : Message)
    (m : IPCManager) : bool * IPCManager :=
  if negb (running m) then (false, m)
  else
    let conn_key := (source, target) in
    match dict_get (connections m) conn_key with
    | None => (false, with_stats (incr_dropped (message_stats m)) m)
    | Some r =>
        match heap m !! r with
        | None => (false, with_stats (incr_dropped (message_stats m)) m)
        | Some connection =>
            if negb (enabled connection)
            then (false, with_stats (incr_dropped (message_stats m)) m)
            else
              let ipc_message := mkIPCMessage source target message r in
              (true,
               with_stats (incr_sent (message_stats m))
                 (with_message_queue (message_queue m ++ [ipc_message]) m))
        end
    end.

(** [broadcast_from_node]: the neighbour list is computed first, then one
    [send_message] per neighbour, results ignored. *)
Definition broadcast_from_node (source : string) (message : Message)
    (m : IPCManager) : IPCManager :=
  let neighbors := get_neighbors source m in
  foldl (λ m' neighbor, (send_message source neighbor message m').2) m neighbors.

(** [_deliver_message] *)
Definition _deliver_message (target : string) (message : Message)
    (m : IPCManager) : IPCManager :=
  match dict_get (node_queues m) target with
  | None => with_stats (incr_dropped (message_stats m)) m
  | Some target_queue =>
      if (length target_queue <? node_queue_maxsize)%nat
      then with_stats (incr_delivered (message_stats m))
             (with_node_queues
                (dict_set (node_queues m) target (target_queue ++ [message])) m)
      else with_stats (incr_dropped (message_stats m)) m
  end.

(** [time.sleep(secs)] for a positive delay: the delay is converted to a
    number of nanoseconds, and the call raises [OverflowError] when that
    number does not fit a signed 64-bit integer, as it does for an infinite
    delay and for delays of about 9.2e9 seconds and more. *)
Definition sleep_raises (secs : float) : bool :=
  negb (PrimFloat.ltb (secs * 1000000000) 9223372036854775808)%float.

(** [_process_message]; [u] is the value [random.random()] returns if it is
    called.  The latency and loss are read from the connection object at
    processing time.  The result is [None] when [time.sleep] raises. *)
Definition _process_message (u : float) (ipc_message : IPCMessage)
    (m : IPCManager) : option IPCManager :=
  match heap m !! ipc_connection ipc_message with
  | None => Some m
  | Some connection =>
      if PrimFloat.ltb 0 (latency connection) && sleep_raises (latency connection)
      then None
      else if PrimFloat.ltb 0 (packet_loss connection)
              && PrimFloat.ltb u (packet_loss connection)
      then Some (with_stats (incr_dropped (message_stats m)) m)
      else Some (_deliver_message (ipc_target ipc_message)
                                  (ipc_payload ipc_message) m)
  end.

(** One iteration of [_message_processor] that finds a message.  An
    exception raised by [_process_message] is caught and logged by the loop:
    the message has left the processing queue and no counter has moved. *)
Definition _message_processor_step (u : float) (m : IPCManager) : IPCManager :=
  if negb (running m) then m
  else
    match message_queue m with
    | [] => m
    | ipc_message :: rest =>
        let m1 := with_message_queue rest m in
        match _process_message u ipc_message m1 with
        | Some m' => m'
        | None => m1
        end
    end.

(** [register_node], as far as the registry's own state goes. *)
Definition register_node (node_name : string) (m : IPCManager) : IPCManager :=
  _ensure_node_queue node_name m.

(** One iteration of [_node_message_delivery] that finds a message: the head
    of the node's queue is taken out and handed to the node. *)
Definition _node_message_delivery_step (node_name : string)
    (m : IPCManager) : option Message * IPCManager :=
  if negb (running m) then (None, m)
  else
    match dict_get (node_queues m) node_name with
    | Some (message :: rest) =>
        (Some message, with_node_queues (dict_set (node_queues m) node_name rest) m)
    | _ => (None, m)
    end.

(** [stop] *)
Definition ipc_stop (m : IPCManager) : IPCManager :=
  mkIPC (heap m) (connections m) (node_queues m) (message_stats m) false (message_queue m).

(** [cleanup] *)
Definition ipc_cleanup (m : IPCManager) : IPCManager :=
  let m' := ipc_stop m in
  mkIPC (heap m') [] [] (message_stats m') (running m') [].

(** Operations on the connection table, for arbitrary call sequences. *)
Inductive RegistryOp :=
| OpCreate (node1 node2 interface1 interface2 : string) (kwargs : ConnKwargs)
| OpDisable (node1 node2 : string)
| OpEnable (node1 node2 : string)
| OpEnableAll
| OpSetProperties (node1 node2 : string) (properties : ConnProps)
| OpCongestion (node1 node2 : string) (congestion_level : float)
| OpClearCongestion.

Definition apply_op (m : IPCManager) (op : RegistryOp) : IPCManager :=
  match op with
  | OpCreate a b i1 i2 kw => create_connection a b i1 i2 kw m
  | OpDisable a b => disable_connection a b m
  | OpEnable a b => enable_connection a b m
  | OpEnableAll => enable_all_connections m
  | OpSetProperties a b p => set_connection_properties a b p m
  | OpCongestion a b l => simulate_congestion a b l m
  | OpClearCongestion => clear_congestion m
  end.

Definition run_ops (ops : list RegistryOp) (m : IPCManager) : IPCManager :=
  foldl apply_op m ops.

(** Message traffic: senders, the dispatcher and the per-node delivery
    threads, interleaved in any order. *)
Inductive TrafficStep :=
| StepSend (source target : string) (message : Message)
| StepDispatch (u : float)
| StepNodeGet (node_name : string)
| StepRegistry (op : RegistryOp).

Definition traffic_step (m : IPCManager) (st : TrafficStep) : IPCManager :=
  match st with
  | StepSend s t msg => (send_message s t msg m).2
  | StepDispatch u => _message_processor_step u m
  | StepNodeGet n => (_node_message_delivery_step n m).2
  | StepRegistry op => apply_op m op
  end.

Definition run_traffic (steps : list TrafficStep) (m : IPCManager) : IPCManager :=
  foldl traffic_step m steps.


(** The dispatcher iteration on [m] loses its message to an exception. *)
Definition lost_in_sleep_step (u : float) (m : IPCManager) : bool :=
  running m &&
  match message_queue m with
  | ipc_message :: rest =>
      match _process_message u ipc_message (with_message_queue rest m) with
      | Some _ => false
      | None => true
      end
  | [] => false
  end.

(** Number of dispatcher iterations of a run that lost their message in
    this way (such a message is counted neither as delivered nor as
    dropped). *)
Fixpoint lost_in_sleep (steps : list TrafficStep) (m : IPCManager) : Z :=
  match steps with
  | [] => 0
  | st :: steps' =>
      (match st with
       | StepDispatch u => if lost_in_sleep_step u m then 1 else 0
       | _ => 0
       end) + lost_in_sleep steps' (traffic_step m st)
  end.

(** A latency the dispatcher can sleep for. *)
Definition latency_accepted (l : float) : bool :=
  negb (PrimFloat.ltb 0 l && sleep_raises l).


(** ** Device descriptors ([core/config_parser.py], the fields the simulation reads) *)

Record Interface := mkInterface {
  if_name : string;
  ip_address : option string;
  subnet_mask : option string;
  if_enabled : bool
}.

Record RoutingProtocol := mkRoutingProtocol {
  protocol : string;
  process_id : option string;
  networks : list string;
  area : option string
}.

Record NetworkDevice := mkDevice {
  name : string;
  device_type : string;
  interfaces : list Interface;
  routing_protocols : list RoutingProtocol
}.

(** ** Strings *)

(** Truth value of an [Optional[str]]: [None] and the empty string are false. *)
Definition truthy (o : option string) : bool :=
  match o with
  | Some s => negb (bool_decide (s = ""))
  | None => false
  end.

(** [s.split(sep)] for a one-character separator. *)
Fixpoint py_split (sep : ascii) (s : string) : list string :=
  match s with
  | EmptyString => [EmptyString]
  | String c s' =>
      if bool_decide (c = sep) then EmptyString :: py_split sep s'
      else match py_split sep s' with
           | [] => [String c EmptyString]
           | p :: ps => String c p :: ps
           end
  end.

(** [sep.join(parts)] *)
Fixpoint py_join (sep : string) (parts : list string) : string :=
  match parts with
  | [] => ""
  | [p] => p
  | p :: ps => p ++ sep ++ py_join sep ps
  end.

(** [parts[-1] = x] on a non-empty list. *)
Fixpoint set_last (x : string) (parts : list string) : list string :=
  match parts with
  | [] => []
  | [_] => [x]
  | p :: ps => p :: set_last x ps
  end.

(** [int(t)] for a clock reading [t] in seconds: truncation toward zero. *)
Definition py_int (t : Q) : Z := Z.quot (Qnum t) (Z.pos (Qden t)).

(** ** Device nodes ([NetworkNode]) *)

Record NodeStatistics := mkNodeStats {
  packets_sent : Z;
  packets_received : Z;
  hello_packets_sent : Z;
  arp_requests_sent : Z;
  routing_updates : Z;
  uptime : float;
  last_activity : float
}.

Record NetworkNode := mkNode {
  device : NetworkDevice;
  operational : bool;
  powered_on : bool;
  paused : bool;
  thread_alive : bool;
  stop_event : bool;
  node_message_queue : list Message;
  arp_table : gmap string string;
  routing_table : gmap string string;
  interface_states : gmap string bool;
  statistics : NodeStatistics
}.

Definition with_operational (b : bool) (n : NetworkNode) : NetworkNode :=
  mkNode (device n) b (powered_on n) (paused n) (thread_alive n) (stop_event n)
         (node_message_queue n) (arp_table n) (routing_table n)
         (interface_states n) (statistics n).
Definition with_powered_on (b : bool) (n : NetworkNode) : NetworkNode :=
  mkNode (device n) (operational n) b (paused n) (thread_alive n) (stop_event n)
         (node_message_queue n) (arp_table n) (routing_table n)
         (interface_states n) (statistics n).
Definition with_paused (b : bool) (n : NetworkNode) : NetworkNode :=
  mkNode (device n) (operational n) (powered_on n) b (thread_alive n) (stop_event n)
         (node_message_queue n) (arp_table n) (routing_table n)
         (interface_states n) (statistics n).
Definition with_thread (alive stop : bool) (n : NetworkNode) : NetworkNode :=
  mkNode (device n) (operational n) (powered_on n) (paused n) alive stop
         (node_message_queue n) (arp_table n) (routing_table n)
         (interface_states n) (statistics n).
Definition with_arp_table (t : gmap string string) (n : NetworkNode) : NetworkNode :=
  mkNode (device n) (operational n) (powered_on n) (paused n) (thread_alive n)
         (stop_event n) (node_message_queue n) t (routing_table n)
         (interface_states n) (statistics n).
Definition with_routing_table (t : gmap string string) (n : NetworkNode) : NetworkNode :=
  mkNode (device n) (operational n) (powered_on n) (paused n) (thread_alive n)
         (stop_event n) (node_message_queue n) (arp_table n) t
         (interface_states n) (statistics n).
Definition with_interface_states (t : gmap string bool) (n : NetworkNode) : NetworkNode :=
  mkNode (device n) (operational n) (powered_on n) (paused n) (thread_alive n)
         (stop_event n) (node_message_queue n) (arp_table n) (routing_table n)
         t (statistics n).
Definition with_statistics (st : NodeStatistics) (n : NetworkNode) : NetworkNode :=
  mkNode (device n) (operational n) (powered_on n) (paused n) (thread_alive n)
         (stop_event n) (node_message_queue n) (arp_table n) (routing_table n)
         (interface_states n) st.

Definition incr_packets_sent (st : NodeStatistics) : NodeStatistics :=
  mkNodeStats (packets_sent st + 1) (packets_received st) (hello_packets_sent st)
              (arp_requests_sent st) (routing_updates st) (uptime st) (last_activity st).
Definition incr_hello_packets_sent (st : NodeStatistics) : NodeStatistics :=
  mkNodeStats (packets_sent st) (packets_received st) (hello_packets_sent st + 1)
              (arp_requests_sent st) (routing_updates st) (uptime st) (last_activity st).
Definition incr_arp_requests_sent (st : NodeStatistics) : NodeStatistics :=
  mkNodeStats (packets_sent st) (packets_received st) (hello_packets_sent st)
              (arp_requests_sent st + 1) (routing_updates st) (uptime st) (last_activity st).
Definition incr_routing_updates (st : NodeStatistics) : NodeStatistics :=
  mkNodeStats (packets_sent st) (packets_received st) (hello_packets_sent st)
              (arp_requests_sent st) (routing_updates st + 1) (uptime st) (last_activity st).

(** [NetworkNode.__init__] *)
Definition NetworkNode_init (device : NetworkDevice) : NetworkNode :=
  mkNode device false false false false false [] ∅ ∅
         (foldl (λ states interface, <[if_name interface := if_enabled interface]> states)
                ∅ (interfaces device))
         (mkNodeStats 0 0 0 0 0 0%float 0%float).

(** [start]: nothing if the thread is alive, else a fresh thread. *)
Definition node_start (n : NetworkNode) : NetworkNode :=
  if thread_alive n then n else with_thread true false n.

(** [stop]: the loop is signalled and joined, then both flags are reset. *)
Definition node_stop (n : NetworkNode) : NetworkNode :=
  with_powered_on false (with_operational false (with_thread false true n)).

Definition pause (n : NetworkNode) : NetworkNode := with_paused true n.
Definition resume (n : NetworkNode) : NetworkNode := with_paused false n.

(** [power_on] *)
Definition power_on (n : NetworkNode) : NetworkNode :=
  let n1 := with_powered_on true n in
  let states :=
    foldl (λ states interface,
             if if_enabled interface then <[if_name interface := true]> states
             else states)
          (interface_states n1) (interfaces (device n1)) in
  with_operational true (with_interface_states states n1).

(** [set_operational_state] *)
Definition set_operational_state (b : bool) (n : NetworkNode) : NetworkNode :=
  with_operational b n.

(** [is_operational], [get_interface_states], [get_routing_table], [get_arp_table] *)
Definition is_operational (n : NetworkNode) : bool := operational n.
Definition get_interface_states (n : NetworkNode) : gmap string bool := interface_states n.
Definition get_routing_table (n : NetworkNode) : gmap string string := routing_table n.
Definition get_arp_table (n : NetworkNode) : gmap string string := arp_table n.

(** [_get_gateway_ip] *)
Definition _get_gateway_ip (interface : Interface) : string :=
  if truthy (ip_address interface) && truthy (subnet_mask interface) then
    let ip_parts := py_split "."%char (default "" (ip_address interface)) in
    py_join "." (set_last "1" ip_parts)
  else "0.0.0.0".

(** [_broadcast_message] *)
Definition _broadcast_message (message : Message) (n : NetworkNode)
    (ipc : IPCManager) : NetworkNode * IPCManager :=
  let ipc' := broadcast_from_node (name (device n)) message ipc in
  (with_statistics (incr_packets_sent (statistics n)) n, ipc').

(** [_send_message_to] *)
Definition _send_message_to (target : string) (message : Message) (n : NetworkNode)
    (ipc : IPCManager) : NetworkNode * IPCManager :=
  let ipc' := (send_message (name (device n)) target message ipc).2 in
  (with_statistics (incr_packets_sent (statistics n)) n, ipc').

(** [perform_arp_discovery] *)
Definition perform_arp_discovery (n : NetworkNode) (ipc : IPCManager)
    : NetworkNode * IPCManager :=
  if negb (operational n) then (n, ipc)
  else
    foldl (λ '(n', ipc') interface,
             if truthy (ip_address interface)
                && default false (interface_states n' !! if_name interface)
             then
               let arp_message :=
                 [("type", VStr "arp_request");
                  ("source", VStr (name (device n')));
                  ("source_ip", VStr (default "" (ip_address interface)));
                  ("target_ip", VStr (_get_gateway_ip interface));
                  ("interface", VStr (if_name interface))] in
               let '(n'', ipc'') := _broadcast_message arp_message n' ipc' in
               (with_statistics (incr_arp_requests_sent (statistics n'')) n'', ipc'')
             else (n', ipc'))
          (n, ipc) (interfaces (device n)).

(** [_flush_interface_routes]: the body is [pass]. *)
Definition _flush_interface_routes (interface_name : string) (n : NetworkNode)
    : NetworkNode := n.

(** [simulate_device_failure] *)
Definition simulate_device_failure (n : NetworkNode) : NetworkNode :=
  let n1 := with_powered_on false (with_operational false n) in
  let n2 := with_routing_table ∅ (with_arp_table ∅ n1) in
  with_interface_states
    (foldl (λ states interface_name, <[interface_name := false]> states)
           (interface_states n2) (fmap fst (map_to_list (interface_states n2))))
    n2.

(** [simulate_interface_down] *)
Definition simulate_interface_down (interface_name : string) (n : NetworkNode)
    : NetworkNode :=
  match interface_states n !! interface_name with
  | Some _ =>
      _flush_interface_routes interface_name
        (with_interface_states (<[interface_name := false]> (interface_states n)) n)
  | None => n
  end.

(** [update_routing_table] *)
Definition update_routing_table (n : NetworkNode) : NetworkNode :=
  if negb (operational n) || negb (bool_decide (device_type (device n) = "router"))
  then n
  else
    let table :=
      foldl (λ table rp,
               foldl (λ table' network, <[network := "directly_connected"]> table')
                     table (networks rp))
            (routing_table n) (routing_protocols (device n)) in
    with_statistics (incr_routing_updates (statistics n)) (with_routing_table table n).

Section Environment.
(** Python's built-in [hash] on strings (salted per process). *)
Variable py_hash : string → Z.

(** [_get_router_id] *)
Definition _get_router_id (n : NetworkNode) : string :=
  match filter (λ interface, truthy (ip_address interface) = true)
               (interfaces (device n)) with
  | interface :: _ => default "" (ip_address interface)
  | [] => "192.168.1." ++ pretty (py_hash (name (device n)) `mod` 254 + 1)
  end.

(** [send_ospf_hello] *)
Definition send_ospf_hello (n : NetworkNode) (ipc : IPCManager)
    : NetworkNode * IPCManager :=
  if negb (operational n) || negb (bool_decide (device_type (device n) = "router"))
  then (n, ipc)
  else
    let ospf_processes :=
      filter (λ rp, protocol rp = "ospf") (routing_protocols (device n)) in
    foldl (λ '(n', ipc') ospf_process,
             let hello_message :=
               [("type", VStr "ospf_hello");
                ("source", VStr (name (device n')));
                ("process_id", from_option VStr VNone (process_id ospf_process));
                ("area", VStr (if truthy (area ospf_process)
                               then default "" (area ospf_process) else "0"));
                ("router_id", VStr (_get_router_id n'))] in
             let '(n'', ipc'') := _broadcast_message hello_message n' ipc' in
             (with_statistics (incr_hello_packets_sent (statistics n'')) n'', ipc''))
          (n, ipc) ospf_processes.

(** [_trigger_ospf_reconvergence]; [now] is the reading of [time.time()]. *)
Definition _trigger_ospf_reconvergence (now : Q) (n : NetworkNode) (ipc : IPCManager)
    : NetworkNode * IPCManager :=
  let lsa_message :=
    [("type", VStr "ospf_lsa");
     ("source", VStr (name (device n)));
     ("router_id", VStr (_get_router_id n));
     ("sequence", VInt (py_int now))] in
  _broadcast_message lsa_message n ipc.

(** [handle_link_failure] *)
Definition handle_link_failure (now : Q) (neighbor : string) (n : NetworkNode)
    (ipc : IPCManager) : NetworkNode * IPCManager :=
  let routes_to_remove :=
    omap (λ '(network, next_hop),
            if bool_decide (next_hop = neighbor) then Some network else None)
         (map_to_list (routing_table n)) in
  let table := foldl (λ table network, delete network table)
                     (routing_table n) routes_to_remove in
  let n1 := with_routing_table table n in
  if bool_decide (device_type (device n1) = "router")
  then _trigger_ospf_reconvergence now n1 ipc
  else (n1, ipc).

(** [reconverge_routing] *)
Definition reconverge_routing (n : NetworkNode) (ipc : IPCManager)
    : NetworkNode * IPCManager :=
  if negb (bool_decide (device_type (device n) = "router")) then (n, ipc)
  else
    let '(n1, ipc1) := send_ospf_hello n ipc in
    (update_routing_table n1, ipc1).

(** [simulate_interface_change] *)
Definition simulate_interface_change (n : NetworkNode) (ipc : IPCManager)
    : NetworkNode * IPCManager :=
  match interfaces (device n) with
  | [] => (n, ipc)
  | interface :: _ =>
      let current_state := default true (interface_states n !! if_name interface) in
      let n1 :=
        with_interface_states
          (<[if_name interface := negb current_state]> (interface_states n)) n in
      if negb current_state then perform_arp_discovery n1 ipc
      else (_flush_interface_routes (if_name interface) n1, ipc)
  end.
End Environment.

(** ** The orchestrator ([NetworkSimulator]) *)

Record NetworkLink := mkLink {
  source_device : string;
  target_device : string;
  source_interface : string;
  target_interface : string
}.

Record NetworkTopology := mkTopology {
  links : list NetworkLink
}.

Record Event := mkEvent {
  ev_type : string;
  ev_message : string;
  ev_device : option string
}.

Record NetworkSimulator := mkSim {
  nodes : list (string * NetworkNode);
  ipc_manager : option IPCManager;
  simulation_running : bool;
  simulation_paused : bool;
  events : list Event
}.

(** [NetworkSimulator.__init__] *)
Definition NetworkSimulator_init : NetworkSimulator :=
  mkSim [] None false false [].

Inductive exn :=
| ValueError (msg : string)
| AttributeError (msg : string).

(** Result of a method that may raise: the returned value and the state, or
    the exception and the state at the point where it was raised. *)
Inductive outcome (A : Type) :=
| Done (a : A) (s : NetworkSimulator)
| Raised (e : exn) (s : NetworkSimulator).
Arguments Done {A} a s.
Arguments Raised {A} e s.

Definition bind {A B : Type} (o : outcome A) (k : A → NetworkSimulator → outcome B)
    : outcome B :=
  match o with
  | Done a s => k a s
  | Raised e s => Raised e s
  end.

Notation "o >>> k" := (bind o (λ _, k)) (at level 50, left associativity).

Definition state_of {A : Type} (o : outcome A) : NetworkSimulator :=
  match o with Done _ s => s | Raised _ s => s end.

(** [_log_event] *)
Definition _log_event (event_type message : string) (device : option string)
    (s : NetworkSimulator) : NetworkSimulator :=
  mkSim (nodes s) (ipc_manager s) (simulation_running s) (simulation_paused s)
        (events s ++ [mkEvent event_type message device]).

(** A step that uses [self.ipc_manager]; every node holds the registry it
    was built with, which is the orchestrator's, so node methods get it from
    here too.  Without a registry the attribute access raises. *)
Definition live (k : list (string * NetworkNode) → IPCManager → list Event →
                     list (string * NetworkNode) * IPCManager * list Event)
    (s : NetworkSimulator) : outcome unit :=
  match ipc_manager s with
  | Some ipc =>
      let '(ns, ipc', evs) := k (nodes s) ipc (events s) in
      Done () (mkSim ns (Some ipc') (simulation_running s) (simulation_paused s) evs)
  | None => Raised (AttributeError "'NoneType' object has no attribute") s
  end.

(** [for node in selected: body(node)], where [selected] was computed from
    [self.nodes.values()] before the loop: [sel] marks the selected positions. *)
Fixpoint for_nodes (sel : list bool)
    (body : NetworkNode → IPCManager → list Event → NetworkNode * IPCManager * list Event)
    (ns : list (string * NetworkNode)) (ipc : IPCManager) (evs : list Event)
    : list (string * NetworkNode) * IPCManager * list Event :=
  match ns, sel with
  | (k, n) :: ns', b :: sel' =>
      let '(n', ipc', evs') := if b then body n ipc evs else (n, ipc, evs) in
      let '(ns'', ipc'', evs'') := for_nodes sel' body ns' ipc' evs' in
      ((k, n') :: ns'', ipc'', evs'')
  | _, _ => (ns, ipc, evs)
  end.

Definition all_nodes (ns : list (string * NetworkNode)) : list bool :=
  fmap (λ _, true) ns.

Definition of_type (device_type' : string) (ns : list (string * NetworkNode)) : list bool :=
  fmap (λ kn, bool_decide (device_type (device kn.2) = device_type')) ns.

(** [_initialize_simulation] *)
Definition _initialize_simulation (topology : NetworkTopology)
    (devices : list NetworkDevice) (s : NetworkSimulator) : NetworkSimulator :=
  let ipc0 := IPCManager_init in
  let nodes1 :=
    foldl (λ ns device, dict_set ns (name device) (NetworkNode_init device))
          (nodes s) devices in
  let ipc1 :=
    foldl (λ ipc link,
             match dict_get nodes1 (source_device link),
                   dict_get nodes1 (target_device link) with
             | Some _, Some _ =>
                 create_connection (source_device link) (target_device link)
                                   (source_interface link) (target_interface link)
                                   no_kwargs ipc
             | _, _ => ipc
             end)
          ipc0 (links topology) in
  let nodes2 := fmap (λ kn, (kn.1, node_start kn.2)) nodes1 in
  _log_event "simulation_started" "Simulation environment initialized" None
    (mkSim nodes2 (Some ipc1) true (simulation_paused s) (events s)).

(** [_cleanup_simulation] *)
Definition _cleanup_simulation (s : NetworkSimulator) : NetworkSimulator :=
  mkSim [] (ipc_cleanup <$> ipc_manager s) false (simulation_paused s) [].

(** [pause_simulation], [resume_simulation] *)
Definition pause_simulation (s : NetworkSimulator) : NetworkSimulator :=
  mkSim (fmap (λ kn, (kn.1, pause kn.2)) (nodes s)) (ipc_manager s)
        (simulation_running s) true (events s).
Definition resume_simulation (s : NetworkSimulator) : NetworkSimulator :=
  mkSim (fmap (λ kn, (kn.1, resume kn.2)) (nodes s)) (ipc_manager s)
        (simulation_running s) false (events s).

(** What [get_statistics] of a node returns. *)
Record NodeStatisticsView := mkNodeStatsView {
  v_packets_sent : Z;
  v_packets_received : Z;
  v_hello_packets_sent : Z;
  v_arp_requests_sent : Z;
  v_routing_updates : Z;
  v_uptime : float;
  v_operational : bool;
  v_interfaces_up : Z
}.

Definition node_get_statistics (n : NetworkNode) : NodeStatisticsView :=
  let st := statistics n in
  mkNodeStatsView (packets_sent st) (packets_received st) (hello_packets_sent st)
    (arp_requests_sent st) (routing_updates st) (uptime st) (operational n)
    (Z.of_nat (length (filter (λ kv, kv.2 = true) (map_to_list (interface_states n))))).

Record SimStatistics := mkSimStats {
  total_events : Z;
  nodes_simulated : Z;
  event_types : list (string * Z);
  node_statistics : list (string * NodeStatisticsView)
}.

(** [_collect_statistics] *)
Definition _collect_statistics (s : NetworkSimulator) : SimStatistics :=
  mkSimStats
    (Z.of_nat (length (events s)))
    (Z.of_nat (length (nodes s)))
    (foldl (λ counts event,
              dict_set counts (ev_type event)
                       (default 0 (dict_get counts (ev_type event)) + 1))
           [] (events s))
    (fmap (λ kn, (kn.1, node_get_statistics kn.2)) (nodes s)).

Record NodeState := mkNodeState {
  st_operational : bool;
  st_interfaces_up : gmap string bool;
  st_routing_table_size : Z;
  st_arp_table_size : Z
}.

(** [_collect_node_states] *)
Definition _collect_node_states (s : NetworkSimulator) : list (string * NodeState) :=
  fmap (λ kn,
         (kn.1,
          mkNodeState (is_operational kn.2) (get_interface_states kn.2)
                      (Z.of_nat (size (get_routing_table kn.2)))
                      (Z.of_nat (size (get_arp_table kn.2)))))
      (nodes s).

(** [SimulationResult] (the wall-clock [duration] is left out). *)
Record SimulationResult := mkResult {
  res_scenario : string;
  res_events : list Event;
  res_statistics : SimStatistics;
  res_node_states : list (string * NodeState)
}.

Section Orchestrator.
Variable py_hash : string → Z.
(** [random.sample(names, 2)] and [random.choice] (as the chosen index
    into a list of the given length). *)
Variable random_sample2 : list string → string * string.
Variable random_choice : nat → nat.
(** [clock k]: the reading of [time.time()] taken by the [k]-th link-state
    announcement of a scenario. *)
Variable clock : nat → Q.

(** [_simulate_device_startup] *)
Definition _simulate_device_startup : NetworkSimulator → outcome unit :=
  live (λ ns ipc evs,
    let startup_order := ["router"; "switch"; "firewall"] in
    foldl (λ '(ns', ipc', evs') device_type',
             for_nodes (of_type device_type' ns')
               (λ node ipc'' evs'',
                  (power_on node, ipc'',
                   evs'' ++ [mkEvent "device_startup"
                               ("Device " ++ name (device node) ++ " starting up")
                               (Some (name (device node)))]))
               ns' ipc' evs')
          (ns, ipc, evs) startup_order).

(** [_simulate_arp_discovery] *)
Definition _simulate_arp_discovery : NetworkSimulator → outcome unit :=
  live (λ ns ipc evs,
    for_nodes (all_nodes ns)
      (λ node ipc' evs',
         let evs'' :=
           evs' ++ [mkEvent "arp_discovery"
                      ("Device " ++ name (device node) ++ " performing ARP discovery")
                      (Some (name (device node)))] in
         let '(node', ipc'') := perform_arp_discovery node ipc' in
         (node', ipc'', evs''))
      ns ipc evs).

(** [_simulate_routing_convergence] *)
Definition _simulate_routing_convergence : NetworkSimulator → outcome unit :=
  live (λ ns ipc evs,
    let router_nodes := of_type "router" ns in
    let '(ns1, ipc1, evs1) :=
      for_nodes router_nodes
        (λ node ipc' evs',
           if existsb (λ rp, bool_decide (protocol rp = "ospf"))
                      (routing_protocols (device node))
           then
             let evs'' :=
               evs' ++ [mkEvent "ospf_hello"
                          ("Router " ++ name (device node) ++ " sending OSPF hello packets")
                          (Some (name (device node)))] in
             let '(node', ipc'') := send_ospf_hello py_hash node ipc' in
             (node', ipc'', evs'')
           else (node, ipc', evs'))
        ns ipc evs in
    for_nodes router_nodes
      (λ node ipc' evs',
         (update_routing_table node, ipc',
          evs' ++ [mkEvent "routing_table_update"
                     ("Router " ++ name (device node) ++ " updating routing table")
                     (Some (name (device node)))]))
      ns1 ipc1 evs1).

(** [_simulate_network_stabilization] *)
Definition _simulate_network_stabilization (s : NetworkSimulator) : outcome unit :=
  let s1 := _log_event "network_stable" "Network reached stable state" None s in
  Done () (mkSim (fmap (λ kn, (kn.1, set_operational_state true kn.2)) (nodes s1))
                 (ipc_manager s1) (simulation_running s1) (simulation_paused s1)
                 (events s1)).

(** [self.nodes[key].method(...)] when [key in self.nodes]. *)
Definition at_node (key : string)
    (body : NetworkNode → IPCManager → NetworkNode * IPCManager)
    (ns : list (string * NetworkNode)) (ipc : IPCManager)
    : list (string * NetworkNode) * IPCManager :=
  match dict_get ns key with
  | Some node => let '(node', ipc') := body node ipc in (dict_set ns key node', ipc')
  | None => (ns, ipc)
  end.

(** [_simulate_link_failures] *)
Definition _simulate_link_failures : NetworkSimulator → outcome unit :=
  live (λ ns ipc evs,
    let available_nodes := dict_keys ns in
    if (2 <=? length available_nodes)%nat then
      let '(node1, node2) := random_sample2 available_nodes in
      let evs1 :=
        evs ++ [mkEvent "link_failure"
                  ("Link failure between " ++ node1 ++ " and " ++ node2) None] in
      let ipc1 := disable_connection node1 node2 ipc in
      let '(ns2, ipc2) :=
        at_node node1 (handle_link_failure py_hash (clock 0) node2) ns ipc1 in
      let '(ns3, ipc3) :=
        at_node node2 (handle_link_failure py_hash (clock 1) node1) ns2 ipc2 in
      (ns3, ipc3, evs1)
    else (ns, ipc, evs)).

(** [_simulate_network_recovery] *)
Definition _simulate_network_recovery (s : NetworkSimulator) : outcome unit :=
  let s1 := _log_event "recovery_start" "Starting network recovery" None s in
  live (λ ns ipc evs,
          for_nodes (of_type "router" ns)
            (λ node ipc' evs',
               let '(node', ipc'') := reconverge_routing py_hash node ipc' in
               (node', ipc'', evs'))
            ns (enable_all_connections ipc) evs) s1 >>>
  (λ s2, Done () (_log_event "recovery_complete" "Network recovery completed" None s2)).

(** [_simulate_configuration_changes] *)
Definition _simulate_configuration_changes : NetworkSimulator → outcome unit :=
  live (λ ns ipc evs,
    let routers :=
      filter (λ i, default false (of_type "router" ns !! i) = true)
             (seq 0 (length ns)) in
    match routers !! random_choice (length routers) with
    | Some i =>
        match ns !! i with
        | Some (key, router) =>
            let evs1 :=
              evs ++ [mkEvent "config_change"
                        ("Configuration change on " ++ name (device router))
                        (Some (name (device router)))] in
            let '(router', ipc') := simulate_interface_change router ipc in
            (<[i := (key, router')]> ns, ipc', evs1)
        | None => (ns, ipc, evs)
        end
    | None => (ns, ipc, evs)
    end).

Definition phase_start (message : string) (s : NetworkSimulator) : outcome unit :=
  Done () (_log_event "phase_start" message None s).

(** [_run_day1_scenario] *)
Definition _run_day1_scenario (s : NetworkSimulator) : outcome unit :=
  phase_start "Phase 1: Device power-on sequence" s >>>
  _simulate_device_startup >>>
  phase_start "Phase 2: ARP and neighbor discovery" >>>
  _simulate_arp_discovery >>>
  phase_start "Phase 3: Routing protocol convergence" >>>
  _simulate_routing_convergence >>>
  phase_start "Phase 4: Network stabilization" >>>
  _simulate_network_stabilization.

(** [_run_day2_scenario] *)
Definition _run_day2_scenario (s : NetworkSimulator) : outcome unit :=
  _simulate_network_stabilization s >>>
  phase_start "Phase 1: Normal network operation" >>>
  phase_start "Phase 2: Link failure simulation" >>>
  _simulate_link_failures >>>
  phase_start "Phase 3: Network recovery" >>>
  _simulate_network_recovery >>>
  phase_start "Phase 4: Configuration change impact" >>>
  _simulate_configuration_changes.

(** The [try] block of [run_simulation]. *)
Definition run_simulation_try (topology : NetworkTopology)
    (devices : list NetworkDevice) (scenario : string) (s : NetworkSimulator)
    : outcome SimulationResult :=
  let s1 := _initialize_simulation topology devices s in
  (if bool_decide (scenario = "day1") then _run_day1_scenario s1
   else if bool_decide (scenario = "day2") then _run_day2_scenario s1
   else Raised (ValueError ("Unknown scenario: " ++ scenario)) s1) >>>
  (λ s2, Done (mkResult scenario (events s2) (_collect_statistics s2)
                        (_collect_node_states s2)) s2).

(** [run_simulation]: the [try] block, then [_cleanup_simulation] in the
    [finally] clause on either exit. *)
Definition run_simulation (topology : NetworkTopology)
    (devices : list NetworkDevice) (scenario : string) (s : NetworkSimulator)
    : outcome SimulationResult :=
  match run_simulation_try topology devices scenario s with
  | Done result s' => Done result (_cleanup_simulation s')
  | Raised e s' => Raised e (_cleanup_simulation s')
  end.

(** [inject_fault]; [neighbor] and [interface] are the keyword arguments
    of those names, [now] the clock reading a link-state announcement takes. *)
Definition inject_fault (now : Q) (fault_type target : string)
    (neighbor interface : option string) (s : NetworkSimulator) : outcome unit :=
  let s1 :=
    _log_event "fault_injection"
      ("Injecting " ++ fault_type ++ " fault on " ++ target) None s in
  if bool_decide (fault_type = "link_failure") && dict_mem (nodes s1) target then
    if truthy neighbor then
      live (λ ns ipc evs,
              let neighbor' := default "" neighbor in
              let '(ns', ipc') :=
                at_node target (handle_link_failure py_hash now neighbor')
                        ns (disable_connection target neighbor' ipc) in
              (ns', ipc', evs)) s1
    else Done () s1
  else if bool_decide (fault_type = "device_failure") && dict_mem (nodes s1) target then
    match dict_get (nodes s1) target with
    | Some node =>
        Done () (mkSim (dict_set (nodes s1) target (simulate_device_failure node))
                       (ipc_manager s1) (simulation_running s1)
                       (simulation_paused s1) (events s1))
    | None => Done () s1
    end
  else if bool_decide (fault_type = "interface_down") && dict_mem (nodes s1) target then
    if truthy interface then
      match dict_get (nodes s1) target with
      | Some node =>
          Done () (mkSim (dict_set (nodes s1) target
                            (simulate_interface_down (default "" interface) node))
                         (ipc_manager s1) (simulation_running s1)
                         (simulation_paused s1) (events s1))
      | None => Done () s1
      end
    else Done () s1
  else Done () s1.
End Orchestrator.

(** ** Statements about the registry *)

(** Representation invariant: the two ordered pairs of a link name the same
    object, and every name in the table is allocated. *)
Definition registry_inv (m : IPCManager) : Prop :=
  (∀ a b, dict_get (connections m) (a, b) = dict_get (connections m) (b, a)) ∧
  (∀ key r, dict_get (connections m) key = Some r → (r < length (heap m))%nat).

(** An enabled connection leads from [source] to [target]. *)
Definition connection_enabled (source target : string) (m : IPCManager) : bool :=
  match get_connection_info source target m with
  | Some connection => enabled connection
  | None => false
  end.

(** The inbound queue of [target] exists and is at capacity. *)
Definition node_queue_full (target : string) (m : IPCManager) : bool :=
  match dict_get (node_queues m) target with
  | Some q => (node_queue_maxsize <=? length q)%nat
  | None => false
  end.

(** The design document's reading of [send]: refused, with one drop counted,
    exactly when no enabled connection leads to the target or the target's
    inbound queue is full. *)
Definition send_refused_iff_no_link_or_full (source target : string)
    (message : Message) (m : IPCManager) : Prop :=
  let r := send_message source target message m in
  (r.1 = false ∧ dropped (message_stats r.2) = dropped (message_stats m) + 1) ↔
  (connection_enabled source target m = false ∨ node_queue_full target m = true).


(** A link A-B, then 100 messages sent over it and dispatched, none taken
    out by B: the inbound queue of B is at capacity. *)
Definition traffic_filling_B : list TrafficStep :=
  StepRegistry (OpCreate "A" "B" "eth0" "eth0" no_kwargs)
  :: concat (replicate 100 [StepSend "A" "B" []; StepDispatch 0%float]).



(** The design document's formulas for a congestion level [L]: latency
    [0.001 * (1 + 10 * L)] and loss [min(L * 0.1, 0.5)]. *)
Definition congested_latency (L : float) : float := (0.001 * (1 + 10 * L))%float.
Definition congested_loss (L : float) : float := py_min (L * 0.1)%float 0.5%float.

(** No ordered pair occurs twice in the connection table. *)
Definition connections_nodup (m : IPCManager) : Prop :=
  NoDup (dict_keys (connections m)).

(** ** Statements about nodes *)

(** A router with two addressed interfaces and one OSPF process announcing
    the network of the first. *)
Definition router_R1 : NetworkDevice :=
  mkDevice "R1" "router"
    [mkInterface "Gi0/0" (Some "10.0.0.2") (Some "255.255.255.0") true;
     mkInterface "Gi0/1" (Some "10.0.1.2") (Some "255.255.255.0") true]
    [mkRoutingProtocol "ospf" (Some "1") ["10.0.0.0"] (Some "0")].

(** [router_R1] powered on with its routing table filled in. *)
Definition node_R1_converged : NetworkNode :=
  update_routing_table (power_on (NetworkNode_init router_R1)).

(** ** Statements about the orchestrator *)

(** The devices of a node table, in table order. *)
Definition devices_of (ns : list (string * NetworkNode)) : list NetworkDevice :=
  (λ kn, device kn.2) <$> ns.

Definition is_type (device_type' : string) (d : NetworkDevice) : bool :=
  bool_decide (device_type d = device_type').

Definition has_ospf (d : NetworkDevice) : bool :=
  existsb (λ rp, bool_decide (protocol rp = "ospf")) (routing_protocols d).

(** One event per device that satisfies [p], in device order. *)
Definition events_where (p : NetworkDevice → bool) (ev : NetworkDevice → Event)
    (devices : list NetworkDevice) : list Event :=
  concat ((λ d, if p d then [ev d] else []) <$> devices).

Definition ev_device_startup (d : NetworkDevice) : Event :=
  mkEvent "device_startup" ("Device " ++ name d ++ " starting up") (Some (name d)).
Definition ev_arp_discovery (d : NetworkDevice) : Event :=
  mkEvent "arp_discovery" ("Device " ++ name d ++ " performing ARP discovery")
          (Some (name d)).
Definition ev_ospf_hello (d : NetworkDevice) : Event :=
  mkEvent "ospf_hello" ("Router " ++ name d ++ " sending OSPF hello packets")
          (Some (name d)).
Definition ev_routing_table_update (d : NetworkDevice) : Event :=
  mkEvent "routing_table_update" ("Router " ++ name d ++ " updating routing table")
          (Some (name d)).

(** The event log of a day1 run over [devices]. *)
Definition day1_events (devices : list NetworkDevice) : list Event :=
  [mkEvent "simulation_started" "Simulation environment initialized" None;
   mkEvent "phase_start" "Phase 1: Device power-on sequence" None]
  ++ events_where (is_type "router") ev_device_startup devices
  ++ events_where (is_type "switch") ev_device_startup devices
  ++ events_where (is_type "firewall") ev_device_startup devices
  ++ [mkEvent "phase_start" "Phase 2: ARP and neighbor discovery" None]
  ++ events_where (λ _, true) ev_arp_discovery devices
  ++ [mkEvent "phase_start" "Phase 3: Routing protocol convergence" None]
  ++ events_where (λ d, is_type "router" d && has_ospf d) ev_ospf_hello devices
  ++ events_where (is_type "router") ev_routing_table_update devices
  ++ [mkEvent "phase_start" "Phase 4: Network stabilization" None;
      mkEvent "network_stable" "Network reached stable state" None].

(** The design document's reading of an unknown scenario name: the error is
    raised while the orchestrator is still as it was, with no node created
    or started and no registry or connection set up. *)
Definition raises_before_start (outcome_of_try : outcome SimulationResult)
    (s : NetworkSimulator) : Prop :=
  ∃ e s', outcome_of_try = Raised e s' ∧
          nodes s' = nodes s ∧ ipc_manager s' = ipc_manager s.

(** A switch and a pc, and with [router_R1] the fully linked topology. *)
Definition switch_S1 : NetworkDevice :=
  mkDevice "S1" "switch"
    [mkInterface "Fa0/1" None None true; mkInterface "Fa0/2" None None true] [].
Definition pc_PC1 : NetworkDevice :=
  mkDevice "PC1" "pc"
    [mkInterface "eth0" (Some "10.0.0.10") (Some "255.255.255.0") true;
     mkInterface "eth1" (Some "10.0.1.10") (Some "255.255.255.0") true] [].
Definition three_devices : list NetworkDevice := [router_R1; switch_S1; pc_PC1].
Definition full_mesh : NetworkTopology :=
  mkTopology [mkLink "R1" "S1" "Gi0/0" "Fa0/1";
              mkLink "S1" "PC1" "Fa0/2" "eth0";
              mkLink "R1" "PC1" "Gi0/1" "eth1"].

(** A fixed environment for concrete runs. *)
Definition hash0 (_ : string) : Z := 0.
Definition sample0 (names : list string) : string * string :=
  (default "" (names !! 0%nat), default "" (names !! 1%nat)).
Definition choice0 (_ : nat) : nat := 0%nat.
Definition clock0 (_ : nat) : Q := 1700000000%Q.

(** What a phase does to the orchestrator, as far as the log and the
    identity of the nodes go. *)
Definition phase_appends (evs : list Event) (s s' : NetworkSimulator) : Prop :=
  is_Some (ipc_manager s') ∧
  (nodes s').*1 = (nodes s).*1 ∧
  devices_of (nodes s') = devices_of (nodes s) ∧
  simulation_paused s' = simulation_paused s ∧
  events s' = events s ++ evs.

(** Number of devices that satisfy [p]. *)
Definition count_where (p : NetworkDevice → bool) (devices : list NetworkDevice) : nat :=
  length (filter (λ d, p d = true) devices).

(** The orchestrator right after [_initialize_simulation] on the three
    devices and the full mesh. *)
Definition sim_three : NetworkSimulator :=
  _initialize_simulation full_mesh three_devices NetworkSimulator_init.

(** A registry with the single link A-B. *)
Definition registry_AB : IPCManager :=
  create_connection "A" "B" "eth0" "eth0" no_kwargs IPCManager_init.

(** ** Further statements about the registry *)

(** Two entries of the connection table name the same object only when they
    are the two ordered pairs of one link. *)
Definition refs_separate (m : IPCManager) : Prop :=
  ∀ k1 k2 r,
    dict_get (connections m) k1 = Some r → dict_get (connections m) k2 = Some r →
    k2 = k1 ∨ k2 = (k1.2, k1.1).

(** What every registry reached from a fresh one satisfies. *)
Definition registry_wf (m : IPCManager) : Prop :=
  registry_inv m ∧ connections_nodup m ∧ refs_separate m ∧ running m = true.

(** The queued message goes to [target] over a connection that loses
    nothing and whose latency the dispatcher can sleep for. *)
Definition lossless_to (target : string) (m : IPCManager) (x : IPCMessage) : bool :=
  bool_decide (ipc_target x = target)
  && match heap m !! ipc_connection x with
     | Some connection =>
         negb (PrimFloat.ltb 0 (packet_loss connection))
         && latency_accepted (latency connection)
     | None => false
     end.

(** The dispatcher run once per draw. *)
Definition dispatch_all (us : list float) (m : IPCManager) : IPCManager :=
  foldl (λ m' u, _message_processor_step u m') m us.

(** ** The registry, continued: [get_all_connections], [get_statistics] *)

(** [tuple(sorted([a, b]))]: strings compare by code point, and the sort is
    stable. *)
Definition sorted_pair (a b : string) : string * string :=
  if String.ltb b a then (b, a) else (a, b).

(** [get_all_connections]: the objects of the table keyed by their sorted
    endpoints, a later object replacing an earlier one with the same key. *)
Definition get_all_connections (m : IPCManager) : list Connection :=
  let unique_connections :=
    foldl (λ unique r,
             match heap m !! r with
             | Some connection =>
                 dict_set unique (sorted_pair (node1 connection) (node2 connection))
                          connection
             | None => unique
             end)
          [] (dict_values (connections m)) in
  dict_values unique_connections.

(** What [get_statistics] returns. *)
Record IPCStatistics := mkIPCStatistics {
  stat_sent : Z;
  stat_delivered : Z;
  stat_dropped : Z;
  stat_queued : Z;
  stat_active_connections : Z;
  stat_enabled_connections : Z;
  stat_registered_nodes : Z;
  stat_queued_messages : Z
}.

(** [sum(...)] over a list of integers. *)
Definition py_sum (zs : list Z) : Z := foldl Z.add 0 zs.

(** [get_statistics] *)
Definition get_statistics (m : IPCManager) : IPCStatistics :=
  let stats := message_stats m in
  mkIPCStatistics
    (sent stats) (delivered stats) (dropped stats) (queued stats)
    (Z.of_nat (length (get_all_connections m)))
    (Z.of_nat (length (filter (λ c, enabled c = true)
                              (omap (λ r, heap m !! r) (dict_values (connections m)))))
     `div` 2)
    (Z.of_nat (length (node_queues m)))
    (py_sum ((λ q, Z.of_nat (length q)) <$> dict_values (node_queues m))).

(** No inbound queue holds more messages than its capacity. *)
Definition queues_bounded (m : IPCManager) : Prop :=
  Forall (λ kq, (length kq.2 ≤ node_queue_maxsize)%nat) (node_queues m).

(** The object under an ordered pair has that pair, in one order or the
    other, as its endpoints. *)
Definition endpoints_match (m : IPCManager) : Prop :=
  ∀ x y r c,
    dict_get (connections m) (x, y) = Some r → heap m !! r = Some c →
    (node1 c = x ∧ node2 c = y) ∨ (node1 c = y ∧ node2 c = x).

(** The sorted endpoints of a connection. *)
Definition link_key (c : Connection) : string * string :=
  sorted_pair (node1 c) (node2 c).

(** The link A-B with two messages accepted from A and not yet dispatched. *)
Definition registry_AB_two_queued : IPCManager :=
  run_traffic [StepSend "A" "B" [("type", VStr "ping")];
               StepSend "A" "B" [("type", VStr "ospf_hello")]] registry_AB.

(** ** Further statements about nodes *)

(** The interfaces [perform_arp_discovery] sends a request for: those with
    an address whose state is up. *)
Definition arp_interfaces (n : NetworkNode) : list Interface :=
  filter (λ interface,
            truthy (ip_address interface)
            && default false (interface_states n !! if_name interface) = true)
         (interfaces (device n)).

(** The networks named by the routing protocols of a device. *)
Definition announced_networks (d : NetworkDevice) : list string :=
  concat (networks <$> routing_protocols d).

(** The OSPF processes of a device. *)
Definition ospf_processes_of (d : NetworkDevice) : list RoutingProtocol :=
  filter (λ rp, protocol rp = "ospf") (routing_protocols d).

(** Two nodes that differ in their statistics at most. *)
Definition same_tables (n n' : NetworkNode) : Prop :=
  device n' = device n ∧ operational n' = operational n ∧
  powered_on n' = powered_on n ∧ interface_states n' = interface_states n ∧
  arp_table n' = arp_table n ∧ routing_table n' = routing_table n.

(** The interfaces of a device that carry the name [x]. *)
Definition interfaces_named (x : string) (d : NetworkDevice) : list Interface :=
  filter (λ interface, if_name interface = x) (interfaces d).

(** The request [perform_arp_discovery] builds for an interface of the
    device named [source]. *)
Definition arp_request_for (source : string) (interface : Interface) : Message :=
  [("type", VStr "arp_request");
   ("source", VStr source);
   ("source_ip", VStr (default "" (ip_address interface)));
   ("target_ip", VStr (_get_gateway_ip interface));
   ("interface", VStr (if_name interface))].

(** The hello [send_ospf_hello] builds for an OSPF process. *)
Definition ospf_hello_for (source router_id : string) (ospf_process : RoutingProtocol)
    : Message :=
  [("type", VStr "ospf_hello");
   ("source", VStr source);
   ("process_id", from_option VStr VNone (process_id ospf_process));
   ("area", VStr (if truthy (area ospf_process)
                  then default "" (area ospf_process) else "0"));
   ("router_id", VStr router_id)].

(** Target and payload of the queue entries that broadcasting [messages]
    one after the other to [neighbors] appends. *)
Definition broadcasts (neighbors : list string) (messages : list Message)
    : list (string * Message) :=
  concat ((λ message, (λ t, (t, message)) <$> neighbors) <$> messages).

(** The registry [m'] is [m] after [source] has broadcast [messages]: one
    queue entry per message and neighbour, each counted as sent, and nothing
    else changed. *)
Definition registry_after_broadcasts (source : string) (messages : list Message)
    (m m' : IPCManager) : Prop :=
  let neighbors := get_neighbors source m in
  heap m' = heap m ∧ connections m' = connections m ∧ running m' = running m ∧
  node_queues m' = node_queues m ∧
  sent (message_stats m')
  = sent (message_stats m) + Z.of_nat (length messages * length neighbors) ∧
  dropped (message_stats m') = dropped (message_stats m) ∧
  delivered (message_stats m') = delivered (message_stats m) ∧
  ∃ new, message_queue m' = message_queue m ++ new ∧
         (λ x, (ipc_target x, ipc_payload x)) <$> new = broadcasts neighbors messages ∧
         Forall (λ x, ipc_source x = source) new.

(** The character [c] occurs in [s]. *)
Fixpoint contains (c : ascii) (s : string) : bool :=
  match s with
  | EmptyString => false
  | String c' s' => bool_decide (c' = c) || contains c s'
  end.

(** An interface with its address replaced. *)
Definition with_ip_address (ip : option string) (interface : Interface) : Interface :=
  mkInterface (if_name interface) ip (subnet_mask interface) (if_enabled interface).

(** ** Further statements about the orchestrator *)

(** Number of logged events of a kind. *)
Definition count_events (kind : string) (evs : list Event) : Z :=
  Z.of_nat (length (filter (λ event, ev_type event = kind) evs)).

(** The link-state announcement [_trigger_ospf_reconvergence] builds. *)
Definition lsa_for (source router_id : string) (now : Q) : Message :=
  [("type", VStr "ospf_lsa");
   ("source", VStr source);
   ("router_id", VStr router_id);
   ("sequence", VInt (py_int now))].

(** The event [inject_fault] logs first. *)
Definition ev_fault_injection (fault_type target : string) : Event :=
  mkEvent "fault_injection" ("Injecting " ++ fault_type ++ " fault on " ++ target) None.

(** The three links of [full_mesh], as registry operations. *)
Definition full_mesh_steps : list TrafficStep :=
  [StepRegistry (OpCreate "R1" "S1" "Gi0/0" "Fa0/1" no_kwargs);
   StepRegistry (OpCreate "S1" "PC1" "Fa0/2" "eth0" no_kwargs);
   StepRegistry (OpCreate "R1" "PC1" "Gi0/1" "eth1" no_kwargs)].

(** The event [_simulate_link_failures] logs for the sampled pair. *)
Definition ev_link_failure (pair : string * string) : Event :=
  mkEvent "link_failure" ("Link failure between " ++ pair.1 ++ " and " ++ pair.2) None.

Definition link_failure_events (random_sample2 : list string → string * string)
    (names : list string) : list Event :=
  if (2 <=? length names)%nat then [ev_link_failure (random_sample2 names)] else [].

(** The event [_simulate_configuration_changes] logs for the chosen router. *)
Definition ev_config_change (d : NetworkDevice) : Event :=
  mkEvent "config_change" ("Configuration change on " ++ name d) (Some (name d)).

(** Positions of the routers among [devices], and the event for the one
    [random_choice] picks. *)
Definition router_positions (devices : list NetworkDevice) : list nat :=
  filter (λ i, default false ((is_type "router" <$> devices) !! i) = true)
         (seq 0 (length devices)).

Definition config_change_events (random_choice : nat → nat)
    (devices : list NetworkDevice) : list Event :=
  match router_positions devices !! random_choice (length (router_positions devices)) with
  | Some i =>
      match devices !! i with
      | Some d => [ev_config_change d]
      | None => []
      end
  | None => []
  end.

(** The event log of a day2 run over [devices]. *)
Definition day2_events (random_sample2 : list string → string * string)
    (random_choice : nat → nat) (devices : list NetworkDevice) : list Event :=
  [mkEvent "simulation_started" "Simulation environment initialized" None;
   mkEvent "network_stable" "Network reached stable state" None;
   mkEvent "phase_start" "Phase 1: Normal network operation" None;
   mkEvent "phase_start" "Phase 2: Link failure simulation" None]
  ++ link_failure_events random_sample2 (name <$> devices)
  ++ [mkEvent "phase_start" "Phase 3: Network recovery" None;
      mkEvent "recovery_start" "Starting network recovery" None;
      mkEvent "recovery_complete" "Network recovery completed" None;
      mkEvent "phase_start" "Phase 4: Configuration change impact" None]
  ++ config_change_events random_choice devices.

(** [random.choice] returns an element of a non-empty sequence. *)
Definition choice_in_range (random_choice : nat → nat) : Prop :=
  ∀ k, (0 < k)%nat → (random_choice k < k)%nat.

(** Interface states of the node built for a device, and after [power_on]. *)
Definition init_states (d : NetworkDevice) : gmap string bool :=
  interface_states (NetworkNode_init d).
Definition up_states (d : NetworkDevice) : gmap string bool :=
  interface_states (power_on (NetworkNode_init d)).

(** The device is of one of the kinds [types]. *)
Definition of_kinds (types : list string) (d : NetworkDevice) : bool :=
  existsb (λ t, is_type t d) types.

(** The kinds [_simulate_device_startup] powers on. *)
Definition starts_up (d : NetworkDevice) : bool :=
  of_kinds ["router"; "switch"; "firewall"] d.

(** The routing table [update_routing_table] builds from an empty one. *)
Definition connected_routes (d : NetworkDevice) : gmap string string :=
  foldl (λ table rp,
           foldl (λ table' network, <[network := "directly_connected"]> table')
                 table (networks rp))
        ∅ (routing_protocols d).

(** What a node shows of its device: the operational flag, the interface
    states and the routing table are those given for the device, and the
    address table is empty. *)
Definition shows (op : NetworkDevice → bool) (states : NetworkDevice → gmap string bool)
    (routes : NetworkDevice → gmap string string) (n : NetworkNode) : Prop :=
  operational n = op (device n) ∧ interface_states n = states (device n) ∧
  routing_table n = routes (device n) ∧ arp_table n = ∅.

Definition states_after (types : list string) (d : NetworkDevice) : gmap string bool :=
  if of_kinds types d then up_states d else init_states d.

Definition routes_after (d : NetworkDevice) : gmap string string :=
  if is_type "router" d then connected_routes d else ∅.

(** The state a day1 run reports for a device. *)
Definition day1_node_state (d : NetworkDevice) : NodeState :=
  mkNodeState true
    (if starts_up d then up_states d else init_states d)
    (if is_type "router" d
     then Z.of_nat (length (remove_dups (announced_networks d))) else 0)
    0.

(** ** Interface hardware addresses ([_get_interface_mac]) *)

Definition hex_digit (d : Z) : ascii :=
  match d with
  | 0 => "0" | 1 => "1" | 2 => "2" | 3 => "3" | 4 => "4" | 5 => "5" | 6 => "6"
  | 7 => "7" | 8 => "8" | 9 => "9" | 10 => "a" | 11 => "b" | 12 => "c"
  | 13 => "d" | 14 => "e" | 15 => "f" | _ => "?"
  end%char.

(** The hexadecimal digits of [z >= 0], most significant first. *)
Fixpoint hex_of (fuel : nat) (z : Z) : string :=
  match fuel with
  | O => ""
  | S fuel' =>
      if (z <? 16)%Z then String (hex_digit z) ""
      else hex_of fuel' (z `div` 16) +:+ String (hex_digit (z `mod` 16)) ""
  end.

Definition py_hex (z : Z) : string := hex_of (S (Z.to_nat (Z.log2 z))) z.

Fixpoint zeros (k : nat) : string :=
  match k with
  | O => ""
  | S k' => String "0" (zeros k')
  end.

Definition zfill (width : nat) (s : string) : string :=
  zeros (width - String.length s) +:+ s.

(** [format(z, "06x")]: lower-case hexadecimal, padded with zeros after the
    sign to a width of six. *)
Definition format_06x (z : Z) : string :=
  if (z <? 0)%Z then "-" +:+ zfill 5 (py_hex (- z)) else zfill 6 (py_hex z).

(** [_get_interface_mac] *)
Definition _get_interface_mac (py_hash : string → Z) (interface_name : string)
    (n : NetworkNode) : string :=
  let device_hash := py_hash (name (device n) +:+ ":" +:+ interface_name) in
  let mac_suffix := format_06x (device_hash `mod` 16777215) in
  "00:50:56:" +:+ substring 0 2 mac_suffix +:+ ":" +:+ substring 2 2 mac_suffix
  +:+ ":" +:+ substring 4 2 mac_suffix.

(** Reading hexadecimal digits back. *)
Definition hex_digit_value (c : ascii) : Z :=
  match c with
  | "0" => 0 | "1" => 1 | "2" => 2 | "3" => 3 | "4" => 4 | "5" => 5 | "6" => 6
  | "7" => 7 | "8" => 8 | "9" => 9 | "a" => 10 | "b" => 11 | "c" => 12
  | "d" => 13 | "e" => 14 | "f" => 15 | _ => 0
  end%char.

Fixpoint hex_value_from (acc : Z) (s : string) : Z :=
  match s with
  | EmptyString => acc
  | String c s' => hex_value_from (16 * acc + hex_digit_value c) s'
  end.

Definition hex_value (s : string) : Z := hex_value_from 0 s.

(** The number written in the last three groups of a hardware address. *)
Definition mac_value (mac : string) : Z :=
  hex_value (substring 9 2 mac +:+ substring 12 2 mac +:+ substring 15 2 mac).

(** ** Delivery to a registered node *)

(** [receive_message]: the node's own queue has no bound, so the message is
    always taken. *)
Definition receive_message (message : Message) (n : NetworkNode) : NetworkNode :=
  mkNode (device n) (operational n) (powered_on n) (paused n) (thread_alive n)
         (stop_event n) (node_message_queue n ++ [message]) (arp_table n)
         (routing_table n) (interface_states n) (statistics n).

(** One iteration of the delivery thread [register_node] starts for a node:
    a message taken from the inbound queue is handed to the node. *)
Definition deliver_to_node (node_name : string) (n : NetworkNode) (m : IPCManager)
    : NetworkNode * IPCManager :=
  match _node_message_delivery_step node_name m with
  | (Some message, m') => (receive_message message n, m')
  | (None, m') => (n, m')
  end.

Fixpoint deliver_to_node_n (k : nat) (node_name : string) (n : NetworkNode)
    (m : IPCManager) : NetworkNode * IPCManager :=
  match k with
  | O => (n, m)
  | S k' =>
      let '(n', m') := deliver_to_node node_name n m in
      deliver_to_node_n k' node_name n' m'
  end.

(** The link A-B after two messages from A were accepted and dispatched. *)
Definition registry_AB_two_delivered : IPCManager :=
  dispatch_all [0%float; 0%float] registry_AB_two_queued.

(** The orchestrator over the three devices with the link R1-S1 disabled. *)
Definition sim_three_link_down : NetworkSimulator :=
  mkSim (nodes sim_three)
        (Some (run_traffic (full_mesh_steps ++ [StepRegistry (OpDisable "R1" "S1")])
                           IPCManager_init))
        true false (events sim_three).

(** ** Statements about link-state announcements *)

(** The [sequence] fields of queued messages, in queue order. *)
Definition lsa_sequences (xs : list IPCMessage) : list Z :=
  omap (λ x, match dict_get (ipc_payload x) "sequence" with
             | Some (VInt z) => Some z
             | _ => None
             end) xs.

(** What a call appended to the processing queue. *)
Definition newly_queued (before after : IPCManager) : list IPCMessage :=
  drop (length (message_queue before)) (message_queue after).

(** The design document's reading of the sequence number: of two
    announcements a device makes one after the other, the later carries
    the larger number. *)
Definition sequence_numbers_increase (py_hash : string → Z) (n : NetworkNode)
    (ipc : IPCManager) : Prop :=
  ∀ (now later : Q) (neighbor neighbor' : string), (now < later)%Q →
    let r := handle_link_failure py_hash now neighbor n ipc in
    let r' := handle_link_failure py_hash later neighbor' r.1 r.2 in
    ∀ s1 s2 : Z, s1 ∈ lsa_sequences (newly_queued ipc r.2) →
                 s2 ∈ lsa_sequences (newly_queued r.2 r'.2) → (s1 < s2)%Z.

(** * Properties *)

(** ** Dictionaries *)

Section PyDictFacts.
Context {K V : Type} `{EqDecision K}.
Implicit Types (d : list (K * V)) (k : K) (v : V).

Lemma dict_get_set d k k' v :
  dict_get (dict_set d k v) k' = if decide (k = k') then Some v else dict_get d k'.
Proof.
  induction d as [|[k0 v0] d IH]; simpl.
  - destruct (decide (k = k')); reflexivity.
  - destruct (decide (k0 = k)) as [->|Hk]; simpl.
    + destruct (decide (k = k')); reflexivity.
    + rewrite IH. destruct (decide (k0 = k')) as [->|Hk'].
      * by rewrite decide_False.
      * reflexivity.
Qed.

Lemma dict_get_set_eq d k v : dict_get (dict_set d k v) k = Some v.
Proof. rewrite dict_get_set. by rewrite decide_True. Qed.

Lemma dict_get_set_ne d k k' v :
  k ≠ k' → dict_get (dict_set d k v) k' = dict_get d k'.
Proof. intros. rewrite dict_get_set. by rewrite decide_False. Qed.

Lemma dict_mem_true d k : dict_mem d k = true ↔ is_Some (dict_get d k).
Proof.
  unfold dict_mem. destruct (dict_get d k); split; intros Hs; eauto;
    first [done | by destruct Hs].
Qed.

Lemma dict_mem_false d k : dict_mem d k = false ↔ dict_get d k = None.
Proof. unfold dict_mem. destruct (dict_get d k); split; intros; done. Qed.

Lemma dict_values_elem d v : v ∈ dict_values d → ∃ k, (k, v) ∈ d.
Proof.
  unfold dict_values. intros ([k v'] & -> & Hin)%list_elem_of_fmap. eauto.
Qed.

Lemma dict_get_elem d k v : dict_get d k = Some v → (k, v) ∈ d.
Proof.
  induction d as [|[k0 v0] d IH]; simpl; [done|].
  destruct (decide (k0 = k)) as [->|].
  - intros [= ->]. apply list_elem_of_here.
  - intros. apply list_elem_of_further. auto.
Qed.

Lemma dict_set_length_mem d k v :
  dict_mem d k = true → length (dict_set d k v) = length d.
Proof.
  unfold dict_mem. induction d as [|[k0 v0] d IH]; simpl; [done|].
  destruct (decide (k0 = k)); simpl; [done|]. intros. by rewrite IH.
Qed.
Lemma dict_get_Some_values d k v : dict_get d k = Some v → v ∈ dict_values d.
Proof.
  intros Hk%dict_get_elem. unfold dict_values.
  apply list_elem_of_fmap. by exists (k, v).
Qed.
End PyDictFacts.

(** ** The connection table: both directions share one object *)

Lemma ensure_node_queue_heap node_name m :
  heap (_ensure_node_queue node_name m) = heap m.
Proof. unfold _ensure_node_queue. by destruct (dict_mem _ _). Qed.

Lemma ensure_node_queue_connections node_name m :
  connections (_ensure_node_queue node_name m) = connections m.
Proof. unfold _ensure_node_queue. by destruct (dict_mem _ _). Qed.

Lemma ensure_node_queue_stats node_name m :
  message_stats (_ensure_node_queue node_name m) = message_stats m.
Proof. unfold _ensure_node_queue. by destruct (dict_mem _ _). Qed.

Lemma ensure_node_queue_message_queue node_name m :
  message_queue (_ensure_node_queue node_name m) = message_queue m.
Proof. unfold _ensure_node_queue. by destruct (dict_mem _ _). Qed.

Lemma ensure_node_queue_running node_name m :
  running (_ensure_node_queue node_name m) = running m.
Proof. unfold _ensure_node_queue. by destruct (dict_mem _ _). Qed.

Lemma create_connection_heap a b i1 i2 kw m :
  heap (create_connection a b i1 i2 kw m) =
  heap m ++ [mkConnection a b i1 i2 true (kw_bandwidth kw)
               (default 0.001%float (kw_latency kw))
               (default 0.0%float (kw_packet_loss kw))].
Proof. unfold create_connection. by rewrite !ensure_node_queue_heap. Qed.

Lemma create_connection_connections a b i1 i2 kw m :
  connections (create_connection a b i1 i2 kw m) =
  dict_set (dict_set (connections m) (a, b) (length (heap m))) (b, a) (length (heap m)).
Proof. unfold create_connection. by rewrite !ensure_node_queue_connections. Qed.

Lemma update_at_key_connections f key m :
  connections (update_at_key f key m) = connections m.
Proof. unfold update_at_key. by destruct (dict_get _ _). Qed.

Lemma update_at_key_heap_length f key m :
  length (heap (update_at_key f key m)) = length (heap m).
Proof.
  unfold update_at_key. destruct (dict_get _ _); simpl; [|done].
  apply length_alter.
Qed.

Lemma foldl_alter_length (f : Connection → Connection) (rs : list nat) (h : list Connection) :
  length (foldl (λ h r, alter f r h) h rs) = length h.
Proof.
  revert h. induction rs as [|r rs IH]; intros h; simpl; [done|].
  rewrite IH. apply length_alter.
Qed.

Lemma update_all_connections f m : connections (update_all f m) = connections m.
Proof. reflexivity. Qed.

Lemma update_all_heap_length f m : length (heap (update_all f m)) = length (heap m).
Proof. unfold update_all. simpl. apply foldl_alter_length. Qed.

Lemma set_connection_properties_connections a b p m :
  connections (set_connection_properties a b p m) = connections m.
Proof.
  unfold set_connection_properties. simpl. by rewrite !update_at_key_connections.
Qed.

Lemma set_connection_properties_heap_length a b p m :
  length (heap (set_connection_properties a b p m)) = length (heap m).
Proof.
  unfold set_connection_properties. simpl. by rewrite !update_at_key_heap_length.
Qed.

(** An operation that leaves the table alone and keeps every object
    allocated preserves the invariant. *)
Lemma registry_inv_same_table m m' :
  connections m' = connections m →
  length (heap m') = length (heap m) →
  registry_inv m → registry_inv m'.
Proof.
  intros Hc Hl [Hsym Hall]. split.
  - intros a b. rewrite Hc. apply Hsym.
  - intros key r. rewrite Hc, Hl. apply Hall.
Qed.

Lemma registry_inv_init : registry_inv IPCManager_init.
Proof. split; intros; simpl in *; done. Qed.

Lemma registry_inv_create a b i1 i2 kw m :
  registry_inv m → registry_inv (create_connection a b i1 i2 kw m).
Proof.
  intros [Hsym Hall]. split.
  - intros x y. rewrite create_connection_connections, !dict_get_set.
    repeat case_decide; simplify_eq; first [done | apply Hsym].
  - intros key r. rewrite create_connection_connections, create_connection_heap.
    rewrite length_app. simpl. rewrite !dict_get_set.
    repeat case_decide; simplify_eq; intros Hr; simplify_eq;
      first [lia | apply Hall in Hr; lia].
Qed.

Lemma registry_inv_apply_op m op : registry_inv m → registry_inv (apply_op m op).
Proof.
  destruct op; simpl.
  - apply registry_inv_create.
  - apply registry_inv_same_table; unfold disable_connection.
    + by rewrite !update_at_key_connections.
    + by rewrite !update_at_key_heap_length.
  - apply registry_inv_same_table; unfold enable_connection.
    + by rewrite !update_at_key_connections.
    + by rewrite !update_at_key_heap_length.
  - apply registry_inv_same_table; [done | apply update_all_heap_length].
  - apply registry_inv_same_table;
      [apply set_connection_properties_connections
      | apply set_connection_properties_heap_length].
  - apply registry_inv_same_table; unfold simulate_congestion;
      [apply set_connection_properties_connections
      | apply set_connection_properties_heap_length].
  - apply registry_inv_same_table; [done | apply update_all_heap_length].
Qed.

Lemma registry_inv_run_ops ops m : registry_inv m → registry_inv (run_ops ops m).
Proof.
  revert m. induction ops as [|op ops IH]; intros m Hm; simpl; [done|].
  apply IH, registry_inv_apply_op, Hm.
Qed.

(** Under the invariant, a key of the table names an object. *)
Lemma registry_inv_info m a b :
  registry_inv m →
  dict_mem (connections m) (a, b) = true →
  ∃ r c, dict_get (connections m) (a, b) = Some r ∧
         dict_get (connections m) (b, a) = Some r ∧
         heap m !! r = Some c ∧
         get_connection_info a b m = Some c ∧
         get_connection_info b a m = Some c.
Proof.
  intros [Hsym Hall] [r Hr]%dict_mem_true.
  destruct (lookup_lt_is_Some_2 (heap m) r) as [c Hc]; [by eapply Hall|].
  exists r, c. unfold get_connection_info. rewrite <- (Hsym a b), Hr. simpl. auto.
Qed.

(** C1.  After any sequence of registry operations, starting from a fresh
    registry, the connection table has an entry for (A,B) exactly when it
    has one for (B,A); and when it has, the two entries are the same object,
    so their [enabled], [latency] and [packet_loss] fields are equal. *)
Theorem connection_entries_symmetric (ops : list RegistryOp) (A B : string) :
  let m := run_ops ops IPCManager_init in
  (dict_mem (connections m) (A, B) = true ↔ dict_mem (connections m) (B, A) = true) ∧
  (dict_mem (connections m) (A, B) = true →
   ∃ c1 c2,
     get_connection_info A B m = Some c1 ∧
     get_connection_info B A m = Some c2 ∧
     enabled c1 = enabled c2 ∧
     latency c1 = latency c2 ∧
     packet_loss c1 = packet_loss c2).
Proof.
  intros m.
  assert (Hinv : registry_inv m) by apply registry_inv_run_ops, registry_inv_init.
  split.
  - unfold dict_mem. by rewrite (proj1 Hinv A B).
  - intros Hmem. destruct (registry_inv_info m A B Hinv Hmem) as (r & c & _ & _ & _ & H1 & H2).
    exists c, c. auto.
Qed.

(** ** Sending: what [send_message] looks at and what it changes *)

Lemma send_message_cases source target message m :
  let r := send_message source target message m in
  (running m = false ∧ r = (false, m)) ∨
  (running m = true ∧ connection_enabled source target m = false ∧
   r = (false, with_stats (incr_dropped (message_stats m)) m)) ∨
  (running m = true ∧ connection_enabled source target m = true ∧
   ∃ ref connection,
     dict_get (connections m) (source, target) = Some ref ∧
     heap m !! ref = Some connection ∧
     r = (true,
          with_stats (incr_sent (message_stats m))
            (with_message_queue
               (message_queue m ++ [mkIPCMessage source target message ref]) m))).
Proof.
  unfold send_message, connection_enabled, get_connection_info.
  destruct (running m); simpl; [|by left]. right.
  destruct (dict_get (connections m) (source, target)) as [ref|]; simpl; [|by left].
  destruct (heap m !! ref) as [connection|] eqn:Hc; simpl; [|by left].
  destruct (enabled connection); simpl; [right | by left].
  split; [done|]. split; [done|]. by exists ref, connection.
Qed.

Lemma send_message_heap source target message m :
  heap (send_message source target message m).2 = heap m.
Proof.
  destruct (send_message_cases source target message m)
    as [[_ ->] | [(_ & _ & ->) | (_ & _ & ref & c & _ & _ & ->)]]; reflexivity.
Qed.

Lemma send_message_connections source target message m :
  connections (send_message source target message m).2 = connections m.
Proof.
  destruct (send_message_cases source target message m)
    as [[_ ->] | [(_ & _ & ->) | (_ & _ & ref & c & _ & _ & ->)]]; reflexivity.
Qed.

(** C3 (as amended).  [send_message] returns false exactly when the registry
    is stopped or no enabled connection leads from source to target, and it
    counts a drop exactly when the registry runs and no enabled connection
    leads from source to target.  Otherwise it returns true, counts the
    message as sent and appends it to the processing queue.  In every case
    the node queues and the delivered counter are left as they were: nothing
    is delivered within the call, and the fill of the target's inbound queue
    is not looked at. *)
Theorem send_message_spec (source target : string) (message : Message) (m : IPCManager) :
  let r := send_message source target message m in
  (r.1 = false ↔ running m = false ∨ connection_enabled source target m = false) ∧
  dropped (message_stats r.2) =
    (if running m && negb (connection_enabled source target m)
     then dropped (message_stats m) + 1 else dropped (message_stats m)) ∧
  (if r.1
   then sent (message_stats r.2) = sent (message_stats m) + 1 ∧
        ∃ ref, dict_get (connections m) (source, target) = Some ref ∧
               message_queue r.2 =
                 message_queue m ++ [mkIPCMessage source target message ref]
   else sent (message_stats r.2) = sent (message_stats m) ∧
        message_queue r.2 = message_queue m) ∧
  node_queues r.2 = node_queues m ∧
  delivered (message_stats r.2) = delivered (message_stats m) ∧
  heap r.2 = heap m ∧ connections r.2 = connections m.
Proof.
  intros r. subst r.
  destruct (send_message_cases source target message m)
    as [[Hrun ->] | [(Hrun & Hen & ->) | (Hrun & Hen & ref & c & Hk & Hc & ->)]];
    rewrite Hrun; try rewrite Hen; simpl.
  - repeat split; auto. 
  - repeat split; auto.
  - repeat split; try done.
    + intros [?|?]; done.
    + by exists ref.
Qed.

(** C3 (counterexample).  With the link A-B enabled and the inbound queue of
    B at capacity, [send_message] still returns true and counts no drop. *)
Lemma send_accepted_although_queue_full :
  ¬ send_refused_iff_no_link_or_full "A" "B" []
      (run_traffic traffic_filling_B IPCManager_init).
Proof.
  intros [_ Hfull].
  destruct Hfull as [Hfalse _].
  - right. vm_compute. reflexivity.
  - vm_compute in Hfalse. discriminate.
Qed.

(** ** The counters of the registry *)


Lemma apply_op_message_queue m op : message_queue (apply_op m op) = message_queue m.
Proof.
  destruct op; simpl; try reflexivity.
  - unfold create_connection. by rewrite !ensure_node_queue_message_queue.
  - unfold disable_connection, update_at_key. by repeat case_match.
  - unfold enable_connection, update_at_key. by repeat case_match.
  - unfold set_connection_properties, update_at_key. simpl. by repeat case_match.
  - unfold simulate_congestion, set_connection_properties, update_at_key. simpl.
    by repeat case_match.
Qed.

Lemma apply_op_running m op : running (apply_op m op) = running m.
Proof.
  destruct op; simpl; try reflexivity.
  - unfold create_connection. by rewrite !ensure_node_queue_running.
  - unfold disable_connection, update_at_key. by repeat case_match.
  - unfold enable_connection, update_at_key. by repeat case_match.
  - unfold set_connection_properties, update_at_key. simpl. by repeat case_match.
  - unfold simulate_congestion, set_connection_properties, update_at_key. simpl.
    by repeat case_match.
Qed.




(** What every dispatcher iteration leaves alone. *)
Lemma message_processor_step_frame u m :
  heap (_message_processor_step u m) = heap m ∧
  connections (_message_processor_step u m) = connections m ∧
  running (_message_processor_step u m) = running m ∧
  sent (message_stats (_message_processor_step u m)) = sent (message_stats m).
Proof.
  unfold _message_processor_step. destruct (running m) eqn:Hrun; [|done]. simpl.
  destruct (message_queue m) as [|x rest]; [done|].
  unfold _process_message. simpl.
  destruct (heap m !! ipc_connection x) as [c|]; [|done].
  destruct (_ && _); [done|]. destruct (_ && _); [done|].
  unfold _deliver_message. simpl.
  destruct (dict_get (node_queues m) (ipc_target x)) as [q|]; [|done].
  by destruct (length q <? node_queue_maxsize)%nat.
Qed.









(** A message lost in the dispatcher: over a link created with an infinite
    latency, [time.sleep] raises after the message has left the processing
    queue, and the message stays counted as sent and as nothing else. *)
Example sleep_overflow_loses_message :
  let steps :=
    [StepRegistry (OpCreate "A" "B" "e0" "e0" (mkKw None (Some infinity) None));
     StepSend "A" "B" []; StepDispatch 0.5] in
  let m := run_traffic steps IPCManager_init in
  message_queue m = [] ∧ sent (message_stats m) = 1 ∧
  delivered (message_stats m) = 0 ∧ dropped (message_stats m) = 0 ∧
  lost_in_sleep steps IPCManager_init = 1.
Proof. vm_compute. by repeat split. Qed.


(** ** Congestion *)

(** Binary64 multiplication commutes. *)
Lemma float_mul_comm (x y : float) : (x * y)%float = (y * x)%float.
Proof.
  apply Prim2SF_inj. rewrite !mul_spec. unfold SF64mul, SFmul.
  destruct (Prim2SF x) as [sx|sx| |sx mx ex], (Prim2SF y) as [sy|sy| |sy my ey];
    try reflexivity; rewrite ?(xorb_comm sx sy); try reflexivity.
  by rewrite (Pos.mul_comm mx my), (Z.add_comm ex ey).
Qed.

(** Adding to a positive zero gives the other operand back, except that a
    negative zero becomes positive. *)
Lemma float_add_zero_l (x : float) :
  Prim2SF x ≠ S754_zero true → (0 + x)%float = x.
Proof.
  intros Hx. apply Prim2SF_inj. rewrite add_spec.
  change (Prim2SF 0) with (S754_zero false). unfold SF64add, SFadd.
  destruct (Prim2SF x) as [[|]| | |]; try reflexivity. done.
Qed.

(** The product of a level that is at least zero, and not the negative
    zero, with 0.1 is not the negative zero. *)
Lemma level_loss_not_neg_zero (L : float) :
  (0 <=? L)%float = true → L ≠ neg_zero →
  Prim2SF (L * 0.1)%float ≠ S754_zero true.
Proof.
  intros Hle Hnz. rewrite leb_spec in Hle. rewrite mul_spec.
  change (Prim2SF 0) with (S754_zero false) in Hle.
  assert (Hz : Prim2SF L ≠ S754_zero true).
  { intros HL. apply Hnz, Prim2SF_inj. by rewrite HL. }
  destruct (Prim2SF 0.1%float) as [| | |s1 m1 e1] eqn:E1; try discriminate E1.
  assert (s1 = false) as -> by (vm_compute in E1; congruence).
  unfold SF64mul, SFmul.
  destruct (Prim2SF L) as [[|]|s| |[|] m e]; try done.
  unfold binary_round_aux. simpl xorb.
  repeat match goal with
         | |- context [let '(_, _) := ?x in _] => destruct x
         end.
  destruct (shr_m _); [done | | done]. by destruct (Z.leb _ _).
Qed.

Lemma apply_props_latency p c x :
  p_latency p = Some x → latency (apply_props p c) = x.
Proof. unfold apply_props. intros ->. by repeat case_match. Qed.

Lemma apply_props_packet_loss p c y :
  p_packet_loss p = Some y → packet_loss (apply_props p c) = y.
Proof. unfold apply_props. intros ->. by repeat case_match. Qed.

Lemma apply_props_enabled p c : enabled (apply_props p c) = enabled c.
Proof. unfold apply_props. by repeat case_match. Qed.

Lemma update_at_key_info f key X Y m :
  get_connection_info X Y (update_at_key f key m) =
  match dict_get (connections m) key with
  | Some r =>
      if decide (dict_get (connections m) (X, Y) = Some r)
      then f <$> get_connection_info X Y m
      else get_connection_info X Y m
  | None => get_connection_info X Y m
  end.
Proof.
  unfold update_at_key, get_connection_info.
  destruct (dict_get (connections m) key) as [r|]; simpl; [|done].
  destruct (dict_get (connections m) (X, Y)) as [r'|]; simpl.
  - case_decide as Hr.
    + injection Hr as ->. apply list_lookup_alter_eq.
    + apply list_lookup_alter_ne. congruence.
  - reflexivity.
Qed.

(** Both ordered pairs of the link end up with the properties applied (once
    or twice) to the object they name. *)
Lemma set_connection_properties_info a b p X Y m c :
  (X, Y) = (a, b) ∨ (X, Y) = (b, a) →
  get_connection_info X Y m = Some c →
  ∃ c', get_connection_info X Y (set_connection_properties a b p m) = Some c' ∧
        (c' = apply_props p c ∨ c' = apply_props p (apply_props p c)).
Proof.
  intros Hkey Hc. unfold set_connection_properties. simpl.
  rewrite update_at_key_info, update_at_key_connections, update_at_key_info, Hc.
  assert (∃ r, dict_get (connections m) (X, Y) = Some r) as [r Hr].
  { unfold get_connection_info in Hc.
    destruct (dict_get (connections m) (X, Y)) as [r|]; [eauto | done]. }
  destruct Hkey as [[= -> ->] | [= -> ->]]; rewrite Hr.
  - rewrite decide_True by done. simpl.
    destruct (dict_get (connections m) (b, a)) as [r'|]; [|eauto].
    case_decide; simpl; eauto.
  - destruct (dict_get (connections m) (a, b)) as [r'|].
    + rewrite (decide_True (P := Some r = Some r)) by done.
      destruct (decide (Some r = Some r')); simpl; eauto.
    + rewrite decide_True by done. simpl. eauto.
Qed.

Lemma foldl_alter_lookup (f : Connection → Connection) (P : Connection → Prop)
    (rs : list nat) (h : list Connection) (r : nat) (c' : Connection) :
  (∀ c, P (f c)) →
  foldl (λ h r, alter f r h) h rs !! r = Some c' →
  r ∈ rs ∨ (∃ c, h !! r = Some c ∧ P c) →
  P c'.
Proof.
  intros Hf. revert h. induction rs as [|r0 rs IH]; intros h Hres Hr; simpl in *.
  - destruct Hr as [Hr | (c & Hc & HP)]; [by apply elem_of_nil in Hr|].
    congruence.
  - apply (IH _ Hres).
    assert (is_Some (h !! r)) as [c Hc].
    { apply lookup_lt_is_Some. apply lookup_lt_Some in Hres.
      by rewrite foldl_alter_length, length_alter in Hres. }
    destruct (decide (r = r0)) as [->|Hne].
    + right. exists (f c). by rewrite list_lookup_alter_eq, Hc.
    + destruct Hr as [Hr | (c0 & Hc0 & HP)].
      * apply elem_of_cons in Hr as [?|Hr]; [done | by left].
      * right. exists c0. by rewrite list_lookup_alter_ne.
Qed.

Lemma update_all_info f (P : Connection → Prop) X Y m c' :
  (∀ c, P (f c)) →
  get_connection_info X Y (update_all f m) = Some c' → P c'.
Proof.
  intros Hf. unfold get_connection_info. rewrite update_all_connections.
  destruct (dict_get (connections m) (X, Y)) as [r|] eqn:Hr; simpl; [|done].
  intros Hc. eapply foldl_alter_lookup; [exact Hf | exact Hc |].
  left. by eapply dict_get_Some_values.
Qed.

(** A loop over [connections.values()] that applies an idempotent update
    to each object changes exactly the objects the table refers to, each
    as one application does, however often the loop meets it. *)
Lemma foldl_alter_lookup_exact (f : Connection → Connection) (rs : list nat)
    (h : list Connection) (r : nat) :
  (∀ c, f (f c) = f c) →
  foldl (λ h r, alter f r h) h rs !! r
  = if decide (r ∈ rs) then f <$> h !! r else h !! r.
Proof.
  intros Hf. revert h. induction rs as [|r0 rs IH]; intros h; cbn [foldl].
  - rewrite decide_False; [done | apply not_elem_of_nil].
  - rewrite IH. destruct (decide (r = r0)) as [->|Hne].
    + rewrite list_lookup_alter_eq. rewrite (decide_True (P := r0 ∈ r0 :: rs)) by left.
      case_decide; [|done]. destruct (h !! r0); simpl; [by rewrite Hf | done].
    + rewrite list_lookup_alter_ne by done.
      destruct (decide (r ∈ rs)) as [Hin|Hin].
      * rewrite decide_True; [done | by right].
      * rewrite decide_False; [done|]. by intros [?|?]%elem_of_cons.
Qed.

Lemma update_all_info_exact f X Y m :
  (∀ c, f (f c) = f c) →
  get_connection_info X Y (update_all f m) = f <$> get_connection_info X Y m.
Proof.
  intros Hf. unfold get_connection_info. rewrite update_all_connections.
  destruct (dict_get (connections m) (X, Y)) as [r|] eqn:Hr; simpl; [|done].
  rewrite foldl_alter_lookup_exact by done.
  rewrite decide_True; [done | by eapply dict_get_Some_values].
Qed.

(** C8.  On an existing connection (A,B), [simulate_congestion A B L] sets
    the latency to [0.001 * (1 + 10 * L)] and the packet loss to
    [min(0.0 + L * 0.1, 0.5)], which is [min(L * 0.1, 0.5)] for every level
    [L >= 0] other than the negative zero (there the sum turns the zero
    positive); the [enabled] flag is kept.  At level 1.0 the
    latency is 11 times the 1 ms base and the loss is 0.1.  A following
    [clear_congestion] keeps the table of connections as it is and turns
    every connection of it into the same connection with latency 0.001 and
    loss 0.0; so every connection then has latency 0.001 and loss 0.0, and
    the connection (A,B) is among them, its [enabled] flag as before. *)
Theorem simulate_congestion_spec (A B : string) (L : float) (m : IPCManager)
    (c : Connection) :
  get_connection_info A B m = Some c →
  let m' := simulate_congestion A B L m in
  (∃ c', get_connection_info A B m' = Some c' ∧
         latency c' = congested_latency L ∧
         packet_loss c' = py_min (0 + L * 0.1)%float 0.5%float ∧
         ((0 <=? L)%float = true → L ≠ neg_zero →
          packet_loss c' = congested_loss L) ∧
         (L = 1%float →
          latency c' = (11 * 0.001)%float ∧ packet_loss c' = 0.1%float) ∧
         enabled c' = enabled c) ∧
  (∀ X Y cx, get_connection_info X Y (clear_congestion m') = Some cx →
             latency cx = 0.001%float ∧ packet_loss cx = 0.0%float) ∧
  connections (clear_congestion m') = connections m' ∧
  (∀ X Y, get_connection_info X Y (clear_congestion m')
          = (λ cx, set_packet_loss 0.0%float (set_latency 0.001%float cx))
              <$> get_connection_info X Y m') ∧
  (∃ c'', get_connection_info A B (clear_congestion m') = Some c'' ∧
          latency c'' = 0.001%float ∧ packet_loss c'' = 0.0%float ∧
          enabled c'' = enabled c).
Proof.
  intros Hc m'.
  assert (Hclear : ∀ X Y, get_connection_info X Y (clear_congestion m')
            = (λ cx, set_packet_loss 0.0%float (set_latency 0.001%float cx))
                <$> get_connection_info X Y m').
  { intros X Y. unfold clear_congestion. apply update_all_info_exact.
    by intros c0. }
  assert (Hcong : ∃ c', get_connection_info A B m' = Some c' ∧
                        enabled c' = enabled c).
  { destruct (set_connection_properties_info A B
                (mkProps (Some (0.001 * (1 + L * 10))%float)
                         (Some (py_min (0.0 + L * 0.1)%float 0.5%float)) None)
                A B m c (or_introl eq_refl) Hc) as (c' & Hc' & Hshape).
    exists c'. split; [exact Hc'|].
    destruct Hshape as [-> | ->]; by rewrite ?apply_props_enabled. }
  split; [|split; [|split; [|split]]].
  - destruct (set_connection_properties_info A B
                (mkProps (Some (0.001 * (1 + L * 10))%float)
                         (Some (py_min (0.0 + L * 0.1)%float 0.5%float)) None)
                A B m c (or_introl eq_refl) Hc) as (c' & Hc' & Hshape).
    exists c'. split; [exact Hc'|].
    assert (Hlat : latency c' = (0.001 * (1 + L * 10))%float).
    { destruct Hshape as [-> | ->]; by apply apply_props_latency. }
    assert (Hloss : packet_loss c' = py_min (0.0 + L * 0.1)%float 0.5%float).
    { destruct Hshape as [-> | ->]; by apply apply_props_packet_loss. }
    assert (Hen : enabled c' = enabled c).
    { destruct Hshape as [-> | ->]; by rewrite ?apply_props_enabled. }
    repeat split.
    + rewrite Hlat. unfold congested_latency. by rewrite (float_mul_comm L 10).
    + exact Hloss.
    + intros Hle Hnz. rewrite Hloss. unfold congested_loss.
      by rewrite float_add_zero_l by by apply level_loss_not_neg_zero.
    + subst L. rewrite Hlat. vm_compute. reflexivity.
    + subst L. rewrite Hloss. vm_compute. reflexivity.
    + exact Hen.
  - intros X Y cx. unfold clear_congestion.
    apply (update_all_info _ (λ c0, latency c0 = 0.001%float ∧ packet_loss c0 = 0.0%float)).
    intros c0. by split.
  - unfold clear_congestion. apply update_all_connections.
  - exact Hclear.
  - destruct Hcong as (c' & Hc' & Hen). rewrite Hclear, Hc'. simpl.
    eexists. split; [reflexivity|]. by repeat split.
Qed.

(** ** Interface faults *)

Lemma perform_arp_discovery_routing_table n ipc :
  routing_table (perform_arp_discovery n ipc).1 = routing_table n.
Proof.
  unfold perform_arp_discovery. destruct (operational n); simpl; [|done].
  generalize (interfaces (device n)). intros ifs. revert n ipc.
  induction ifs as [|i ifs IH]; intros n ipc; simpl; [done|].
  destruct (_ && _); simpl; by rewrite IH.
Qed.

(** C5 (what the code does).  [simulate_interface_down] on a known interface
    marks it down, and [simulate_interface_change] flips the first
    interface; neither changes the routing table, because
    [_flush_interface_routes] does nothing. *)
Theorem interface_down_keeps_routes (interface_name : string) (n : NetworkNode)
    (ipc : IPCManager) :
  routing_table (simulate_interface_down interface_name n) = routing_table n ∧
  (is_Some (interface_states n !! interface_name) →
   interface_states (simulate_interface_down interface_name n) !! interface_name
   = Some false) ∧
  routing_table (simulate_interface_change n ipc).1 = routing_table n.
Proof.
  split; [|split].
  - unfold simulate_interface_down. by destruct (interface_states n !! interface_name).
  - intros [b Hb]. unfold simulate_interface_down. rewrite Hb. simpl.
    apply lookup_insert_eq.
  - unfold simulate_interface_change. destruct (interfaces (device n)); [done|].
    destruct (negb _); [|done].
    by rewrite perform_arp_discovery_routing_table.
Qed.

(** C5 (failing input).  The route to 10.0.0.0, the network of Gi0/0, is
    still in the table of R1 after Gi0/0 was taken down. *)
Lemma interface_down_route_remains :
  routing_table node_R1_converged !! "10.0.0.0" = Some "directly_connected" ∧
  interface_states (simulate_interface_down "Gi0/0" node_R1_converged) !! "Gi0/0"
  = Some false ∧
  routing_table (simulate_interface_down "Gi0/0" node_R1_converged) !! "10.0.0.0"
  = Some "directly_connected" ∧
  routing_table (simulate_interface_change node_R1_converged IPCManager_init).1
    !! "10.0.0.0" = Some "directly_connected".
Proof. repeat split; vm_compute; reflexivity. Qed.

(** ** Link failure *)

Lemma foldl_delete_lookup (ks : list string) (t : gmap string string) (i : string) :
  foldl (λ t k, delete k t) t ks !! i = if decide (i ∈ ks) then None else t !! i.
Proof.
  revert t. induction ks as [|k ks IH]; intros t; cbn [foldl].
  - rewrite decide_False; [done | apply not_elem_of_nil].
  - rewrite IH. destruct (decide (i = k)) as [->|Hne].
    + rewrite lookup_delete_eq. rewrite (decide_True (P := k ∈ k :: ks)); [|left].
      by case_decide.
    + rewrite lookup_delete_ne by done.
      destruct (decide (i ∈ ks)) as [Hin|Hin].
      * rewrite decide_True; [done | by right].
      * rewrite decide_False; [done|]. intros [?|?]%elem_of_cons; done.
Qed.

Lemma routes_to_remove_elem (t : gmap string string) (neighbor network : string) :
  network ∈ omap (λ '(network, next_hop),
                    if bool_decide (next_hop = neighbor) then Some network else None)
                 (map_to_list t)
  ↔ t !! network = Some neighbor.
Proof.
  rewrite list_elem_of_omap. split.
  - intros ([k v] & Hin & Hsome). apply elem_of_map_to_list in Hin.
    case_bool_decide; simplify_eq. done.
  - intros Hl. exists (network, neighbor). split.
    + by apply elem_of_map_to_list.
    + by rewrite bool_decide_true.
Qed.

(** Truncation toward zero is monotone. *)
Lemma py_int_mono (t1 t2 : Q) : (t1 <= t2)%Q → (py_int t1 <= py_int t2)%Z.
Proof.
  destruct t1 as [a1 d1], t2 as [a2 d2]. unfold Qle, py_int. simpl. intros Hle.
  pose proof (Z.quot_rem' a1 (Z.pos d1)) as E1.
  pose proof (Z.quot_rem' a2 (Z.pos d2)) as E2.
  pose proof (Pos2Z.is_pos d1) as Hd1. pose proof (Pos2Z.is_pos d2) as Hd2.
  revert Hle E1 E2 Hd1 Hd2.
  generalize (Z.pos d1) (Z.pos d2). intros D1 D2 Hle E1 E2 Hd1 Hd2.
  destruct (Z.le_gt_cases 0 a1) as [Ha1|Ha1], (Z.le_gt_cases 0 a2) as [Ha2|Ha2].
  - pose proof (Z.rem_bound_pos_pos a1 D1 Hd1 Ha1) as B1.
    pose proof (Z.rem_bound_pos_pos a2 D2 Hd2 Ha2) as B2.
    revert E1 E2 B1 B2.
    generalize (Z.quot a1 D1) (Z.rem a1 D1) (Z.quot a2 D2) (Z.rem a2 D2).
    intros q1 r1 q2 r2 E1 E2 B1 B2.
    destruct (Z.le_gt_cases q1 q2) as [?|Hgt]; [done|]. exfalso.
    assert (D1 * (q2 + 1) <= D1 * q1)%Z by (apply Z.mul_le_mono_nonneg_l; lia).
    assert (D1 * (q2 + 1) <= a1)%Z by lia.
    assert (a2 < D2 * (q2 + 1))%Z by lia.
    assert (D2 * (D1 * (q2 + 1)) <= D2 * a1)%Z by (apply Z.mul_le_mono_nonneg_l; lia).
    assert (D1 * a2 < D1 * (D2 * (q2 + 1)))%Z by (apply Z.mul_lt_mono_pos_l; lia).
    lia.
  - exfalso. nia.
  - pose proof (Z.rem_bound_pos_neg a1 D1 Hd1 ltac:(lia)) as B1.
    pose proof (Z.rem_bound_pos_pos a2 D2 Hd2 Ha2) as B2.
    revert E1 E2 B1 B2.
    generalize (Z.quot a1 D1) (Z.rem a1 D1) (Z.quot a2 D2) (Z.rem a2 D2).
    intros q1 r1 q2 r2 E1 E2 B1 B2.
    assert (q1 <= 0)%Z by nia. assert (0 <= q2)%Z by nia. lia.
  - pose proof (Z.rem_bound_pos_neg a1 D1 Hd1 ltac:(lia)) as B1.
    pose proof (Z.rem_bound_pos_neg a2 D2 Hd2 ltac:(lia)) as B2.
    revert E1 E2 B1 B2.
    generalize (Z.quot a1 D1) (Z.rem a1 D1) (Z.quot a2 D2) (Z.rem a2 D2).
    intros q1 r1 q2 r2 E1 E2 B1 B2.
    destruct (Z.le_gt_cases q1 q2) as [?|Hgt]; [done|]. exfalso.
    assert (D1 * q2 <= D1 * (q1 - 1))%Z by (apply Z.mul_le_mono_nonneg_l; lia).
    assert (D1 * q2 < a1)%Z by lia.
    assert (a2 <= D2 * q2)%Z by lia.
    assert (D2 * (D1 * q2) < D2 * a1)%Z by (apply Z.mul_lt_mono_pos_l; lia).
    assert (D1 * a2 <= D1 * (D2 * q2))%Z by (apply Z.mul_le_mono_nonneg_l; lia).
    lia.
Qed.

Section PyDictNoDup.
Context {K V : Type} `{EqDecision K}.
Implicit Types (d : list (K * V)) (k : K) (v : V).

Lemma dict_elem_get d k v : NoDup (dict_keys d) → (k, v) ∈ d → dict_get d k = Some v.
Proof.
  unfold dict_keys. induction d as [|[k0 v0] d IH]; simpl.
  - intros _ Hin. by apply elem_of_nil in Hin.
  - intros [Hk0 Hnd]%NoDup_cons [Heq|Hin]%elem_of_cons.
    + injection Heq as -> ->. by rewrite decide_True.
    + rewrite decide_False; [by apply IH|].
      intros ->. apply Hk0. apply list_elem_of_fmap. by exists (k, v).
Qed.

Lemma dict_keys_set d k v :
  dict_keys (dict_set d k v) = if dict_mem d k then dict_keys d else dict_keys d ++ [k].
Proof.
  unfold dict_keys, dict_mem. induction d as [|[k0 v0] d IH]; simpl; [done|].
  destruct (decide (k0 = k)); simpl; [done|].
  change (list_fmap (K * V)%type K fst (dict_set d k v)) with ((dict_set d k v).*1).
  rewrite IH. by destruct (dict_get d k).
Qed.

Lemma dict_set_nodup d k v : NoDup (dict_keys d) → NoDup (dict_keys (dict_set d k v)).
Proof.
  intros Hnd. rewrite dict_keys_set. destruct (dict_mem d k) eqn:Hmem; [done|].
  apply NoDup_app. split; [done|]. split; [|apply NoDup_singleton].
  intros x Hx ->%list_elem_of_singleton.
  apply dict_mem_false in Hmem. unfold dict_keys in Hx.
  apply list_elem_of_fmap in Hx as ([k' v'] & -> & Hin). simpl in *.
  by rewrite (dict_elem_get d k' v' Hnd Hin) in Hmem.
Qed.
End PyDictNoDup.

Lemma connections_nodup_apply_op m op :
  connections_nodup m → connections_nodup (apply_op m op).
Proof.
  unfold connections_nodup. destruct op; unfold apply_op; intros Hnd.
  - rewrite create_connection_connections. by do 2 apply dict_set_nodup.
  - unfold disable_connection. by rewrite !update_at_key_connections.
  - unfold enable_connection. by rewrite !update_at_key_connections.
  - done.
  - by rewrite set_connection_properties_connections.
  - unfold simulate_congestion. by rewrite set_connection_properties_connections.
  - done.
Qed.

Lemma connections_nodup_run_ops ops :
  connections_nodup (run_ops ops IPCManager_init).
Proof.
  assert (∀ m, connections_nodup m → connections_nodup (run_ops ops m)) as Hgen.
  { induction ops as [|op ops IH]; intros m Hm; simpl; [done|].
    apply IH, connections_nodup_apply_op, Hm. }
  apply Hgen. constructor.
Qed.

(** Every neighbour [get_neighbors] lists is reached by an enabled connection. *)
Lemma get_neighbors_enabled source target m :
  connections_nodup m →
  target ∈ get_neighbors source m → connection_enabled source target m = true.
Proof.
  intros Hnd. unfold get_neighbors. rewrite list_elem_of_omap.
  intros ([[s t] r] & Hin & Hsome).
  destruct (heap m !! r) as [c|] eqn:Hc; [|done].
  destruct (bool_decide (s = source)) eqn:Hs; simpl in Hsome; [|done].
  destruct (enabled c) eqn:Hen; [|done]. injection Hsome as ->.
  apply bool_decide_eq_true in Hs as ->.
  unfold connection_enabled, get_connection_info.
  rewrite (dict_elem_get _ _ _ Hnd Hin). simpl. by rewrite Hc.
Qed.

Lemma connection_enabled_send source target s t message m :
  connection_enabled source target (send_message s t message m).2
  = connection_enabled source target m.
Proof.
  unfold connection_enabled, get_connection_info.
  by rewrite send_message_heap, send_message_connections.
Qed.

(** Sending to targets that are all reached by an enabled connection puts
    one message per target on the processing queue, in order. *)
Lemma foldl_send_queue source message (targets : list string) m :
  running m = true →
  Forall (λ t, connection_enabled source t m = true) targets →
  let m' := foldl (λ m' t, (send_message source t message m').2) m targets in
  ∃ new, message_queue m' = message_queue m ++ new ∧
         fmap ipc_target new = targets ∧
         Forall (λ x, ipc_source x = source ∧ ipc_payload x = message) new.
Proof.
  revert m. induction targets as [|t ts IH]; intros m Hrun Hall; simpl.
  - exists []. by rewrite app_nil_r.
  - apply Forall_cons in Hall as [Ht Hts].
    destruct (send_message_cases source t message m)
      as [[Hr _] | [(_ & Hen & _) | (_ & _ & ref & c & Hk & Hc & Heq)]];
      [congruence.. |].
    destruct (IH (send_message source t message m).2) as (new & Hq & Htg & Hpay).
    + rewrite Heq. exact Hrun.
    + eapply Forall_impl; [exact Hts|]. intros t' Ht'. simpl in Ht'.
      by rewrite connection_enabled_send.
    + exists (mkIPCMessage source t message ref :: new). split; [|split].
      * rewrite Hq, Heq. simpl. by rewrite <- app_assoc.
      * rewrite fmap_cons. simpl. by rewrite Htg.
      * by constructor.
Qed.

Lemma broadcast_from_node_queue source message m :
  running m = true → connections_nodup m →
  ∃ new, message_queue (broadcast_from_node source message m) = message_queue m ++ new ∧
         fmap ipc_target new = get_neighbors source m ∧
         Forall (λ x, ipc_source x = source ∧ ipc_payload x = message) new.
Proof.
  intros Hrun Hnd. unfold broadcast_from_node.
  apply foldl_send_queue; [done|].
  apply Forall_forall. intros t Ht. by apply get_neighbors_enabled.
Qed.

(** Truncation does not tell two readings of the same second apart. *)
Lemma py_int_same_second (t1 t2 : Q) :
  (0 <= t1)%Q → (t1 <= t2)%Q → (t2 < inject_Z (py_int t1 + 1))%Q →
  py_int t2 = py_int t1.
Proof.
  intros H0 Hle Hlt. pose proof (py_int_mono t1 t2 Hle) as Hmono.
  apply Z.le_antisymm; [|exact Hmono].
  assert (H2 : (0 <= t2)%Q) by (eapply Qle_trans; eassumption).
  revert Hlt. generalize (py_int t1). intros N Hlt.
  destruct t2 as [a2 d2]. unfold py_int, Qlt, Qle, inject_Z in *. simpl in *.
  assert (Z.quot a2 (Z.pos d2) < N + 1)%Z; [|lia].
  apply Z.quot_lt_upper_bound; lia.
Qed.

(** Whatever a broadcast appends to the processing queue carries the
    message that was broadcast. *)
Lemma foldl_send_payloads source message (targets : list string) m :
  ∃ new,
    message_queue (foldl (λ m' t, (send_message source t message m').2) m targets)
    = message_queue m ++ new ∧
    Forall (λ x, ipc_payload x = message) new.
Proof.
  revert m. induction targets as [|t ts IH]; intros m; cbn [foldl].
  - exists []. by rewrite app_nil_r.
  - destruct (IH (send_message source t message m).2) as (new & Hq & Hpay).
    destruct (send_message_cases source t message m)
      as [[_ Heq] | [(_ & _ & Heq) | (_ & _ & ref & c & _ & _ & Heq)]];
      rewrite Heq in Hq; rewrite Heq; simpl in *.
    + by exists new.
    + by exists new.
    + exists (mkIPCMessage source t message ref :: new). split.
      * by rewrite Hq, <- app_assoc.
      * by constructor.
Qed.

(** Every message a broadcast queues carries the [sequence] of the message
    that was broadcast. *)
Lemma broadcast_sequences source (message : Message) (z : Z) m :
  dict_get message "sequence" = Some (VInt z) →
  lsa_sequences (newly_queued m (broadcast_from_node source message m))
  = (λ _, z) <$> newly_queued m (broadcast_from_node source message m).
Proof.
  intros Hseq. unfold newly_queued, broadcast_from_node.
  destruct (foldl_send_payloads source message (get_neighbors source m) m)
    as (new & -> & Hpay).
  rewrite drop_app_length. clear -Hpay Hseq.
  induction Hpay as [|x new Hx _ IH]; [done|].
  unfold lsa_sequences in *. rewrite fmap_cons. cbn [omap list_omap].
  rewrite Hx, Hseq. simpl. by rewrite IH.
Qed.

(** Every message [handle_link_failure] queues carries the clock reading,
    truncated, as its [sequence]. *)
Lemma handle_link_failure_sequences (py_hash : string → Z) (now : Q)
    (neighbor : string) (n : NetworkNode) (ipc : IPCManager) :
  let r := handle_link_failure py_hash now neighbor n ipc in
  lsa_sequences (newly_queued ipc r.2)
  = (λ _, py_int now) <$> newly_queued ipc r.2.
Proof.
  unfold handle_link_failure. cbv zeta.
  destruct (bool_decide _).
  - unfold _trigger_ospf_reconvergence, _broadcast_message. cbn [snd].
    by apply broadcast_sequences.
  - unfold newly_queued. cbn [snd]. by rewrite drop_all.
Qed.

(** C6 (counterexample).  A router with two neighbours handles two link
    failures within one second: the announcements of the second call carry
    the same sequence number as those of the first. *)
Lemma same_second_same_sequence :
  ¬ sequence_numbers_increase hash0 node_R1_converged
      (run_traffic full_mesh_steps IPCManager_init).
Proof.
  intros Hinc.
  specialize (Hinc (17000000001 # 10) (17000000009 # 10) "S1" "PC1" eq_refl
                   1700000000 1700000000).
  rewrite !handle_link_failure_sequences in Hinc.
  assert (Hlt : (1700000000 < 1700000000)%Z); [|lia].
  apply Hinc; vm_compute; apply list_elem_of_here.
Qed.

(** C6 (as amended).  [handle_link_failure neighbor] removes from the
    routing table exactly the entries whose next hop is [neighbor] and
    leaves every other entry as it was.  A router then broadcasts one
    link-state message ([type] "ospf_lsa") through the registry, carrying
    as [sequence] the clock reading truncated to whole seconds: on a
    running registry one copy per enabled neighbour is queued.  Any other
    device sends nothing.  Of two calls one after the other, every message
    the first queues carries the truncated first reading and every message
    the second queues the truncated second reading: the later number is
    not smaller when the clock did not go back, and it is the same number
    when both readings fall in the same second. *)
Theorem handle_link_failure_spec (py_hash : string → Z) (now : Q) (neighbor : string)
    (n : NetworkNode) (ipc : IPCManager) :
  let r := handle_link_failure py_hash now neighbor n ipc in
  (∀ network,
     routing_table r.1 !! network =
     if decide (routing_table n !! network = Some neighbor)
     then None else routing_table n !! network) ∧
  (if bool_decide (device_type (device n) = "router") then
     ∃ lsa_message,
       dict_get lsa_message "type" = Some (VStr "ospf_lsa") ∧
       dict_get lsa_message "source" = Some (VStr (name (device n))) ∧
       dict_get lsa_message "sequence" = Some (VInt (py_int now)) ∧
       r.2 = broadcast_from_node (name (device n)) lsa_message ipc ∧
       (running ipc = true → connections_nodup ipc →
        ∃ new, message_queue r.2 = message_queue ipc ++ new ∧
               fmap ipc_target new = get_neighbors (name (device n)) ipc ∧
               Forall (λ x, ipc_source x = name (device n) ∧
                            ipc_payload x = lsa_message) new)
   else r.2 = ipc) ∧
  (∀ (later : Q) (neighbor' : string),
     let r' := handle_link_failure py_hash later neighbor' r.1 r.2 in
     lsa_sequences (newly_queued ipc r.2)
     = (λ _, py_int now) <$> newly_queued ipc r.2 ∧
     lsa_sequences (newly_queued r.2 r'.2)
     = (λ _, py_int later) <$> newly_queued r.2 r'.2 ∧
     ∀ s1 s2 : Z,
       s1 ∈ lsa_sequences (newly_queued ipc r.2) →
       s2 ∈ lsa_sequences (newly_queued r.2 r'.2) →
       ((now <= later)%Q → (s1 <= s2)%Z) ∧
       ((0 <= now)%Q → (now <= later)%Q →
        (later < inject_Z (py_int now + 1))%Q → s1 = s2)).
Proof.
  intros r. subst r. split; [|split].
  - intros network. unfold handle_link_failure.
    assert (∀ table n0,
              routing_table
                (if bool_decide (device_type (device (with_routing_table table n0)) = "router")
                 then _trigger_ospf_reconvergence py_hash now (with_routing_table table n0) ipc
                 else (with_routing_table table n0, ipc)).1 = table) as Hrt.
    { intros table n0. by destruct (bool_decide _). }
    rewrite Hrt, foldl_delete_lookup.
    destruct (decide (routing_table n !! network = Some neighbor)) as [Hl|Hl].
    + rewrite decide_True; [done | by apply routes_to_remove_elem].
    + rewrite decide_False; [done | by rewrite routes_to_remove_elem].
  - unfold handle_link_failure. simpl.
    destruct (bool_decide (device_type (device n) = "router")); [|done].
    exists [("type", VStr "ospf_lsa");
            ("source", VStr (name (device n)));
            ("router_id", VStr (_get_router_id py_hash n));
            ("sequence", VInt (py_int now))].
    split; [reflexivity|]. split; [reflexivity|]. split; [reflexivity|].
    split; [reflexivity|]. intros Hrun Hnd.
    by apply broadcast_from_node_queue.
  - intros later neighbor' r'. subst r'.
    pose proof (handle_link_failure_sequences py_hash now neighbor n ipc) as H1.
    pose proof (handle_link_failure_sequences py_hash later neighbor'
                  (handle_link_failure py_hash now neighbor n ipc).1
                  (handle_link_failure py_hash now neighbor n ipc).2) as H2.
    cbv zeta in H1, H2. split; [exact H1|]. split; [exact H2|].
    intros s1 s2. rewrite H1, H2.
    intros (x1 & -> & _)%list_elem_of_fmap (x2 & -> & _)%list_elem_of_fmap.
    split.
    + apply py_int_mono.
    + intros H0 Hle Hlt. symmetry. by apply py_int_same_second.
Qed.

(** ** Fault injection *)

Lemma foldl_insert_false_lookup (ks : list string) (t : gmap string bool) (i : string) :
  foldl (λ states k, <[k := false]> states) t ks !! i
  = if decide (i ∈ ks) then Some false else t !! i.
Proof.
  revert t. induction ks as [|k ks IH]; intros t; cbn [foldl].
  - rewrite decide_False; [done | apply not_elem_of_nil].
  - rewrite IH. destruct (decide (i ∈ ks)) as [Hin|Hin].
    + rewrite decide_True; [done | by right].
    + destruct (decide (i = k)) as [->|Hne].
      * rewrite lookup_insert_eq. rewrite decide_True; [done | left].
      * rewrite lookup_insert_ne by done.
        rewrite decide_False; [done|]. intros [?|?]%elem_of_cons; done.
Qed.

Lemma simulate_device_failure_spec (n : NetworkNode) :
  let n' := simulate_device_failure n in
  device n' = device n ∧
  operational n' = false ∧ powered_on n' = false ∧
  routing_table n' = ∅ ∧ arp_table n' = ∅ ∧
  (∀ i, interface_states n' !! i = (λ _, false) <$> interface_states n !! i).
Proof.
  simpl. repeat split. intros i. rewrite foldl_insert_false_lookup.
  destruct (interface_states n !! i) as [b|] eqn:Hi; simpl.
  - rewrite decide_True; [done|]. apply list_elem_of_fmap. exists (i, b).
    split; [done|]. by apply elem_of_map_to_list.
  - rewrite decide_False; [done|]. intros ([i' b] & -> & Hin)%list_elem_of_fmap.
    apply elem_of_map_to_list in Hin. simpl in Hi. congruence.
Qed.

(** C7.  Injecting [device_failure] on a registered device succeeds and
    leaves that device not operational, with empty routing and ARP tables
    and every one of its interfaces down.  Every other entry of the node
    table, the order of the table and the registry are unchanged. *)
Theorem inject_device_failure_spec (py_hash : string → Z) (now : Q) (target : string)
    (neighbor interface : option string) (s : NetworkSimulator) (node : NetworkNode) :
  dict_get (nodes s) target = Some node →
  ∃ s' node',
    inject_fault py_hash now "device_failure" target neighbor interface s = Done () s' ∧
    dict_get (nodes s') target = Some node' ∧
    operational node' = false ∧
    routing_table node' = ∅ ∧
    arp_table node' = ∅ ∧
    (∀ i, interface_states node' !! i = (λ _, false) <$> interface_states node !! i) ∧
    (∀ other, other ≠ target → dict_get (nodes s') other = dict_get (nodes s) other) ∧
    dict_keys (nodes s') = dict_keys (nodes s) ∧
    ipc_manager s' = ipc_manager s.
Proof.
  intros Hnode.
  assert (Hmem : dict_mem (nodes s) target = true).
  { apply dict_mem_true. by rewrite Hnode. }
  destruct (simulate_device_failure_spec node) as (_ & Hop & _ & Hrt & Harp & Hifs).
  eexists _, (simulate_device_failure node).
  split.
  { unfold inject_fault.
    replace (bool_decide ("device_failure" = "link_failure")) with false by done.
    replace (bool_decide ("device_failure" = "device_failure")) with true by done.
    cbn [andb _log_event nodes]. rewrite Hmem, Hnode. reflexivity. }
  cbn [nodes ipc_manager _log_event].
  split; [apply dict_get_set_eq|].
  do 4 (split; [assumption|]).
  split; [intros other Hne; by apply dict_get_set_ne|].
  split; [|done].
  rewrite dict_keys_set. by rewrite Hmem.
Qed.

(** C10.  When the fault kind is none of [link_failure], [device_failure],
    [interface_down], or when the target is not a registered node,
    [inject_fault] returns normally after appending exactly one
    [fault_injection] event; the node table and the registry are unchanged. *)
Theorem inject_fault_only_logs (py_hash : string → Z) (now : Q)
    (fault_type target : string) (neighbor interface : option string)
    (s : NetworkSimulator) :
  (fault_type ≠ "link_failure" ∧ fault_type ≠ "device_failure" ∧
   fault_type ≠ "interface_down") ∨ dict_mem (nodes s) target = false →
  ∃ ev,
    inject_fault py_hash now fault_type target neighbor interface s
    = Done () (mkSim (nodes s) (ipc_manager s) (simulation_running s)
                     (simulation_paused s) (events s ++ [ev])) ∧
    ev_type ev = "fault_injection".
Proof.
  intros Hcase.
  exists (mkEvent "fault_injection"
            ("Injecting " ++ fault_type ++ " fault on " ++ target) None).
  split; [|reflexivity].
  unfold inject_fault. cbn [_log_event nodes].
  destruct Hcase as [(H1 & H2 & H3) | Hmem].
  - rewrite !bool_decide_false by done. reflexivity.
  - rewrite Hmem, !andb_false_r. reflexivity.
Qed.

(** ** Scenario day1 *)

Lemma perform_arp_discovery_device n ipc :
  device (perform_arp_discovery n ipc).1 = device n.
Proof.
  unfold perform_arp_discovery. destruct (operational n); simpl; [|done].
  generalize (interfaces (device n)). intros ifs. revert n ipc.
  induction ifs as [|i ifs IH]; intros n ipc; simpl; [done|].
  destruct (_ && _); simpl; by rewrite IH.
Qed.

Lemma send_ospf_hello_device py_hash n ipc :
  device (send_ospf_hello py_hash n ipc).1 = device n.
Proof.
  unfold send_ospf_hello. destruct (_ || _); simpl; [done|].
  generalize (filter (λ rp, protocol rp = "ospf") (routing_protocols (device n))).
  intros rps. revert n ipc.
  induction rps as [|rp rps IH]; intros n ipc; simpl; [done|]. by rewrite IH.
Qed.

Lemma update_routing_table_device n : device (update_routing_table n) = device n.
Proof. unfold update_routing_table. by destruct (_ || _). Qed.

(** A loop over the selected nodes whose body keeps the device and appends
    events that depend on the device only. *)
Lemma for_nodes_by_device (p : NetworkDevice → bool) (evd : NetworkDevice → list Event)
    body ns ipc evs :
  (∀ n ipc evs, ∃ n' ipc',
      body n ipc evs = (n', ipc', evs ++ evd (device n)) ∧ device n' = device n) →
  ∃ ns' ipc',
    for_nodes ((λ kn, p (device kn.2)) <$> ns) body ns ipc evs
    = (ns', ipc', evs ++ concat ((λ d, if p d then evd d else []) <$> devices_of ns)) ∧
    ns'.*1 = ns.*1 ∧ devices_of ns' = devices_of ns.
Proof.
  intros Hbody. revert ipc evs.
  induction ns as [|[k n] ns IH]; intros ipc evs.
  - exists [], ipc. simpl. by rewrite app_nil_r.
  - rewrite fmap_cons. cbn [for_nodes snd]. unfold devices_of. rewrite fmap_cons.
    cbn [snd concat fmap list_fmap]. fold (devices_of ns).
    destruct (p (device n)).
    + destruct (Hbody n ipc evs) as (n' & ipc' & -> & Hdev).
      destruct (IH ipc' (evs ++ evd (device n))) as (ns' & ipc'' & -> & Hk & Hd).
      exists ((k, n') :: ns'), ipc''. split; [|split].
      * by rewrite <- app_assoc.
      * rewrite !fmap_cons. by f_equal.
      * unfold devices_of in *. rewrite !fmap_cons. by f_equal.
    + destruct (IH ipc evs) as (ns' & ipc'' & -> & Hk & Hd).
      exists ((k, n) :: ns'), ipc''. split; [|split].
      * done.
      * rewrite !fmap_cons. by f_equal.
      * unfold devices_of in *. rewrite !fmap_cons. by f_equal.
Qed.

Lemma events_where_singletons (p : NetworkDevice → bool) (ev : NetworkDevice → Event)
    (devices : list NetworkDevice) :
  concat ((λ d, if p d then [ev d] else []) <$> devices) = events_where p ev devices.
Proof. reflexivity. Qed.

Lemma events_where_and (p q : NetworkDevice → bool) (ev : NetworkDevice → Event)
    (devices : list NetworkDevice) :
  concat ((λ d, if p d then (if q d then [ev d] else []) else []) <$> devices)
  = events_where (λ d, p d && q d) ev devices.
Proof.
  unfold events_where. induction devices as [|d ds IH]; [done|].
  rewrite !fmap_cons. simpl. rewrite IH. by destruct (p d), (q d).
Qed.

Lemma phase_appends_trans evs1 evs2 s1 s2 s3 :
  phase_appends evs1 s1 s2 → phase_appends evs2 s2 s3 →
  phase_appends (evs1 ++ evs2) s1 s3.
Proof.
  intros (_ & Hk1 & Hd1 & Hp1 & He1) (Hi & Hk2 & Hd2 & Hp2 & He2).
  split; [done|]. split; [congruence|]. split; [congruence|]. split; [congruence|].
  by rewrite He2, He1, app_assoc.
Qed.

Lemma phase_start_appends message s :
  is_Some (ipc_manager s) →
  ∃ s', phase_start message s = Done () s' ∧
        phase_appends [mkEvent "phase_start" message None] s s'.
Proof. intros Hi. eexists. split; [reflexivity|]. by repeat split. Qed.

Lemma live_appends k new s :
  is_Some (ipc_manager s) →
  (∀ ipc, ∃ ns' ipc',
      k (nodes s) ipc (events s) = (ns', ipc', events s ++ new) ∧
      ns'.*1 = (nodes s).*1 ∧ devices_of ns' = devices_of (nodes s)) →
  ∃ s', live k s = Done () s' ∧ phase_appends new s s'.
Proof.
  intros [ipc Hipc] Hk. unfold live. rewrite Hipc.
  destruct (Hk ipc) as (ns' & ipc' & -> & Hkeys & Hdevs).
  eexists. split; [reflexivity|]. by repeat split.
Qed.

Lemma of_type_is_type t ns :
  of_type t ns = (λ kn, is_type t (device kn.2)) <$> ns.
Proof. reflexivity. Qed.

Lemma all_nodes_true ns :
  all_nodes ns = (λ kn, (λ _ : NetworkDevice, true) (device kn.2)) <$> ns.
Proof. reflexivity. Qed.

(** Runs the innermost loop of the goal with [for_nodes_by_device]. *)
Ltac run_for_nodes p evd Hbody ns' ipc' Hk Hd :=
  rewrite ?of_type_is_type, ?all_nodes_true;
  match goal with
  | |- context [for_nodes _ ?body ?ns ?ipc ?evs] =>
      destruct (for_nodes_by_device p evd body ns ipc evs Hbody)
        as (ns' & ipc' & -> & Hk & Hd)
  end;
  cbv beta iota.

Section Day1.
Variable py_hash : string → Z.

Lemma device_startup_appends s :
  is_Some (ipc_manager s) →
  ∃ s', _simulate_device_startup s = Done () s' ∧
        phase_appends
          (events_where (is_type "router") ev_device_startup (devices_of (nodes s))
           ++ events_where (is_type "switch") ev_device_startup (devices_of (nodes s))
           ++ events_where (is_type "firewall") ev_device_startup (devices_of (nodes s)))
          s s'.
Proof.
  intros Hipc. apply live_appends; [done|]. intros ipc. cbn [foldl].
  set (body := λ (node : NetworkNode) (ipc'' : IPCManager) (evs'' : list Event),
         (power_on node, ipc'',
          evs'' ++ [mkEvent "device_startup"
                      ("Device " ++ name (device node) ++ " starting up")
                      (Some (name (device node)))])).
  assert (Hbody : ∀ n ipc evs, ∃ n' ipc',
             body n ipc evs = (n', ipc', evs ++ [ev_device_startup (device n)])
             ∧ device n' = device n).
  { intros n ipc0 evs. by exists (power_on n), ipc0. }
  run_for_nodes (is_type "router") (λ d, [ev_device_startup d]) Hbody ns1 ipc1 Hk1 Hd1.
  run_for_nodes (is_type "switch") (λ d, [ev_device_startup d]) Hbody ns2 ipc2 Hk2 Hd2.
  run_for_nodes (is_type "firewall") (λ d, [ev_device_startup d]) Hbody ns3 ipc3 Hk3 Hd3.
  exists ns3, ipc3. split; [|split; congruence].
  rewrite !events_where_singletons, Hd2, Hd1. by rewrite <- !app_assoc.
Qed.

Lemma arp_discovery_appends s :
  is_Some (ipc_manager s) →
  ∃ s', _simulate_arp_discovery s = Done () s' ∧
        phase_appends (events_where (λ _, true) ev_arp_discovery (devices_of (nodes s)))
                      s s'.
Proof.
  intros Hipc. apply live_appends; [done|]. intros ipc.
  match goal with |- context [for_nodes _ ?b] => set (body := b) end.
  assert (Hbody : ∀ n ipc evs, ∃ n' ipc',
             body n ipc evs = (n', ipc', evs ++ [ev_arp_discovery (device n)])
             ∧ device n' = device n).
  { intros n ipc0 evs. subst body. cbv beta zeta.
    pose proof (perform_arp_discovery_device n ipc0) as Hdev.
    destruct (perform_arp_discovery n ipc0) as [n' ipc']. by exists n', ipc'. }
  run_for_nodes (λ _ : NetworkDevice, true) (λ d, [ev_arp_discovery d]) Hbody
                ns1 ipc1 Hk1 Hd1.
  by exists ns1, ipc1.
Qed.

Lemma routing_convergence_appends s :
  is_Some (ipc_manager s) →
  ∃ s', _simulate_routing_convergence py_hash s = Done () s' ∧
        phase_appends
          (events_where (λ d, is_type "router" d && has_ospf d) ev_ospf_hello
                        (devices_of (nodes s))
           ++ events_where (is_type "router") ev_routing_table_update
                           (devices_of (nodes s)))
          s s'.
Proof.
  intros Hipc. apply live_appends; [done|]. intros ipc. cbv zeta.
  rewrite of_type_is_type.
  match goal with |- context [for_nodes _ ?b (nodes s) ipc (events s)] =>
    set (hello := b) end.
  assert (Hhello : ∀ n ipc evs, ∃ n' ipc',
             hello n ipc evs
             = (n', ipc', evs ++ (if has_ospf (device n)
                                  then [ev_ospf_hello (device n)] else []))
             ∧ device n' = device n).
  { intros n ipc0 evs. subst hello. cbv beta zeta. fold (has_ospf (device n)).
    destruct (has_ospf (device n)).
    - pose proof (send_ospf_hello_device py_hash n ipc0) as Hdev.
      destruct (send_ospf_hello py_hash n ipc0) as [n' ipc']. by exists n', ipc'.
    - exists n, ipc0. by rewrite app_nil_r. }
  assert (Hsel : ∀ ns1, devices_of ns1 = devices_of (nodes s) →
                 (λ kn, is_type "router" (device kn.2)) <$> nodes s
                 = (λ kn, is_type "router" (device kn.2)) <$> ns1).
  { intros ns1 Hd1.
    change ((λ kn, is_type "router" (device kn.2)) <$> nodes s)
      with ((λ kn, is_type "router" ((λ kn, device kn.2) kn)) <$> nodes s).
    change ((λ kn, is_type "router" (device kn.2)) <$> ns1)
      with ((λ kn, is_type "router" ((λ kn, device kn.2) kn)) <$> ns1).
    rewrite !(list_fmap_compose (λ kn : string * NetworkNode, device kn.2)
                                (is_type "router")).
    fold (devices_of ns1). fold (devices_of (nodes s)). by rewrite Hd1. }
  destruct (for_nodes_by_device (is_type "router")
              (λ d, if has_ospf d then [ev_ospf_hello d] else [])
              hello (nodes s) ipc (events s) Hhello) as (ns1 & ipc1 & -> & Hk1 & Hd1).
  cbv beta iota. rewrite (Hsel ns1 Hd1).
  match goal with |- context [for_nodes _ ?b ns1 ipc1 ?evs] =>
    set (update := b); set (evs1 := evs) end.
  assert (Hupdate : ∀ n ipc evs, ∃ n' ipc',
             update n ipc evs = (n', ipc', evs ++ [ev_routing_table_update (device n)])
             ∧ device n' = device n).
  { intros n ipc0 evs. exists (update_routing_table n), ipc0.
    split; [done | apply update_routing_table_device]. }
  destruct (for_nodes_by_device (is_type "router") (λ d, [ev_routing_table_update d])
              update ns1 ipc1 evs1 Hupdate) as (ns2 & ipc2 & -> & Hk2 & Hd2).
  exists ns2, ipc2. split; [|split; congruence].
  subst evs1. rewrite events_where_and, events_where_singletons, Hd1.
  by rewrite <- app_assoc.
Qed.
End Day1.

Section PyDictFresh.
Context {K V : Type} `{EqDecision K}.

Lemma dict_set_fresh (d : list (K * V)) k v :
  k ∉ dict_keys d → dict_set d k v = d ++ [(k, v)].
Proof.
  unfold dict_keys. induction d as [|[k0 v0] d IH]; simpl; [done|].
  intros Hk. apply not_elem_of_cons in Hk as [Hne Hk].
  rewrite decide_False by done. by rewrite IH.
Qed.

Lemma foldl_dict_set_fresh {A} (key : A → K) (val : A → V) (xs : list A)
    (d : list (K * V)) :
  NoDup (dict_keys d ++ (key <$> xs)) →
  foldl (λ d' x, dict_set d' (key x) (val x)) d xs
  = d ++ ((λ x, (key x, val x)) <$> xs).
Proof.
  revert d. induction xs as [|x xs IH]; intros d Hnd; simpl.
  - by rewrite app_nil_r.
  - rewrite fmap_cons in Hnd.
    assert (key x ∉ dict_keys d) as Hfresh.
    { apply NoDup_app in Hnd as (_ & Hdis & _). intros Hin.
      apply (Hdis _ Hin). left. }
    rewrite dict_set_fresh by done. rewrite IH.
    + by rewrite <- app_assoc.
    + unfold dict_keys. rewrite fmap_app. simpl. rewrite <- app_assoc. exact Hnd.
Qed.
End PyDictFresh.

Lemma initialize_simulation_fresh topology devices s :
  nodes s = [] → NoDup (name <$> devices) →
  let s1 := _initialize_simulation topology devices s in
  is_Some (ipc_manager s1) ∧
  nodes s1 = (λ d, (name d, node_start (NetworkNode_init d))) <$> devices ∧
  simulation_paused s1 = simulation_paused s ∧
  events s1 = events s ++ [mkEvent "simulation_started"
                             "Simulation environment initialized" None].
Proof.
  intros Hnodes Hnd. unfold _initialize_simulation. cbn [_log_event ipc_manager nodes
    events simulation_paused]. rewrite Hnodes.
  split; [done|]. split; [|done].
  rewrite (foldl_dict_set_fresh name NetworkNode_init devices []) by done.
  rewrite app_nil_l, <- list_fmap_compose. reflexivity.
Qed.

Lemma network_stabilization_appends s :
  is_Some (ipc_manager s) →
  ∃ s', _simulate_network_stabilization s = Done () s' ∧
        phase_appends [mkEvent "network_stable" "Network reached stable state" None]
                      s s' ∧
        Forall (λ kn, operational kn.2 = true) (nodes s').
Proof.
  intros Hipc. eexists. split; [reflexivity|]. cbn [_log_event nodes]. split.
  - split; [done|]. cbn [nodes events simulation_paused].
    unfold devices_of. rewrite <- !list_fmap_compose. by repeat split.
  - cbn [nodes]. apply Forall_fmap, Forall_true. done.
Qed.

Section Day1Run.
Variable py_hash : string → Z.
Variable random_sample2 : list string → string * string.
Variable random_choice : nat → nat.
Variable clock : nat → Q.

Lemma run_day1_scenario_appends s :
  is_Some (ipc_manager s) →
  ∃ s', _run_day1_scenario py_hash s = Done () s' ∧
        phase_appends
          ([mkEvent "phase_start" "Phase 1: Device power-on sequence" None]
           ++ (events_where (is_type "router") ev_device_startup (devices_of (nodes s))
               ++ events_where (is_type "switch") ev_device_startup (devices_of (nodes s))
               ++ events_where (is_type "firewall") ev_device_startup
                               (devices_of (nodes s)))
           ++ [mkEvent "phase_start" "Phase 2: ARP and neighbor discovery" None]
           ++ events_where (λ _, true) ev_arp_discovery (devices_of (nodes s))
           ++ [mkEvent "phase_start" "Phase 3: Routing protocol convergence" None]
           ++ (events_where (λ d, is_type "router" d && has_ospf d) ev_ospf_hello
                            (devices_of (nodes s))
               ++ events_where (is_type "router") ev_routing_table_update
                               (devices_of (nodes s)))
           ++ [mkEvent "phase_start" "Phase 4: Network stabilization" None]
           ++ [mkEvent "network_stable" "Network reached stable state" None])
          s s' ∧
        Forall (λ kn, operational kn.2 = true) (nodes s').
Proof.
  intros H0. unfold _run_day1_scenario.
  destruct (phase_start_appends "Phase 1: Device power-on sequence" s H0)
    as (s1 & -> & A1). cbn [bind].
  destruct (device_startup_appends s1 (proj1 A1)) as (s2 & -> & A2). cbn [bind].
  destruct (phase_start_appends "Phase 2: ARP and neighbor discovery" s2 (proj1 A2))
    as (s3 & -> & A3). cbn [bind].
  destruct (arp_discovery_appends s3 (proj1 A3)) as (s4 & -> & A4). cbn [bind].
  destruct (phase_start_appends "Phase 3: Routing protocol convergence" s4 (proj1 A4))
    as (s5 & -> & A5). cbn [bind].
  destruct (routing_convergence_appends py_hash s5 (proj1 A5)) as (s6 & -> & A6).
  cbn [bind].
  destruct (phase_start_appends "Phase 4: Network stabilization" s6 (proj1 A6))
    as (s7 & -> & A7). cbn [bind].
  destruct (network_stabilization_appends s7 (proj1 A7)) as (s8 & -> & A8 & Hop).
  exists s8. split; [done|]. split; [|done].
  assert (D1 : devices_of (nodes s1) = devices_of (nodes s)) by apply A1.
  assert (D2 : devices_of (nodes s2) = devices_of (nodes s))
    by (rewrite <- D1; apply A2).
  assert (D3 : devices_of (nodes s3) = devices_of (nodes s))
    by (rewrite <- D2; apply A3).
  assert (D4 : devices_of (nodes s4) = devices_of (nodes s))
    by (rewrite <- D3; apply A4).
  assert (D5 : devices_of (nodes s5) = devices_of (nodes s))
    by (rewrite <- D4; apply A5).
  rewrite D1 in A2. rewrite D3 in A4. rewrite D5 in A6.
  eapply phase_appends_trans; [exact A1|].
  eapply phase_appends_trans; [exact A2|].
  eapply phase_appends_trans; [exact A3|].
  eapply phase_appends_trans; [exact A4|].
  eapply phase_appends_trans; [exact A5|].
  eapply phase_appends_trans; [exact A6|].
  eapply phase_appends_trans; [exact A7|]. exact A8.
Qed.

(** A day1 run over devices with distinct names, on an orchestrator with no
    nodes and an empty log: the result carries exactly [day1_events] and
    reports every device operational. *)
Lemma run_simulation_day1 topology devices s :
  nodes s = [] → events s = [] → NoDup (name <$> devices) →
  ∃ result s',
    run_simulation py_hash random_sample2 random_choice clock
                   topology devices "day1" s = Done result s' ∧
    res_scenario result = "day1" ∧
    res_events result = day1_events devices ∧
    (λ kn, (kn.1, st_operational kn.2)) <$> res_node_states result
    = (λ d, (name d, true)) <$> devices.
Proof.
  intros Hnodes Hevents Hnd.
  destruct (initialize_simulation_fresh topology devices s Hnodes Hnd)
    as (Hipc & Hns & _ & Hev).
  destruct (run_day1_scenario_appends _ Hipc) as (s2 & Hrun & Happ & Hop).
  unfold run_simulation, run_simulation_try.
  replace (bool_decide ("day1" = "day1")) with true by done.
  rewrite Hrun. cbn [bind].
  eexists _, _. split; [reflexivity|]. cbn [res_scenario res_events res_node_states].
  destruct Happ as (_ & Hkeys & Hdevs & _ & Hevs).
  assert (Hd : devices_of (nodes (_initialize_simulation topology devices s)) = devices).
  { rewrite Hns. unfold devices_of. rewrite <- list_fmap_compose.
    rewrite <- (list_fmap_id devices) at 2. apply list_fmap_ext. intros _ d _.
    unfold node_start, NetworkNode_init. reflexivity. }
  split; [done|]. split.
  - rewrite Hevs, Hev, Hevents, Hd. unfold day1_events.
    rewrite <- !app_assoc. reflexivity.
  - unfold _collect_node_states. rewrite <- list_fmap_compose.
    transitivity ((λ k, (k, true)) <$> (nodes s2).*1).
    + rewrite <- list_fmap_compose. apply Forall_fmap_ext_1.
      eapply Forall_impl; [exact Hop|]. intros [k n] Hn. simpl in *.
      unfold is_operational. by rewrite Hn.
    + rewrite Hkeys, Hns, <- !list_fmap_compose. reflexivity.
Qed.
End Day1Run.

Lemma events_where_kinds p ev (kind : string) devices :
  (∀ d, ev_type (ev d) = kind) →
  ev_type <$> events_where p ev devices = replicate (count_where p devices) kind.
Proof.
  intros Hkind. unfold events_where, count_where.
  induction devices as [|d ds IH]; [done|].
  rewrite fmap_cons. cbn [concat]. rewrite fmap_app, IH, filter_cons.
  destruct (p d) eqn:Hp.
  - rewrite decide_True by done. simpl. by rewrite Hkind.
  - rewrite decide_False by done. done.
Qed.

Lemma day1_events_kinds devices :
  ev_type <$> day1_events devices
  = ["simulation_started"; "phase_start"]
    ++ replicate (count_where (is_type "router") devices) "device_startup"
    ++ replicate (count_where (is_type "switch") devices) "device_startup"
    ++ replicate (count_where (is_type "firewall") devices) "device_startup"
    ++ ["phase_start"]
    ++ replicate (count_where (λ _, true) devices) "arp_discovery"
    ++ ["phase_start"]
    ++ replicate (count_where (λ d, is_type "router" d && has_ospf d) devices) "ospf_hello"
    ++ replicate (count_where (is_type "router") devices) "routing_table_update"
    ++ ["phase_start"; "network_stable"].
Proof.
  unfold day1_events. rewrite !fmap_app.
  rewrite !(events_where_kinds _ ev_device_startup "device_startup") by done.
  rewrite (events_where_kinds _ ev_arp_discovery "arp_discovery") by done.
  rewrite (events_where_kinds _ ev_ospf_hello "ospf_hello") by done.
  rewrite (events_where_kinds _ ev_routing_table_update "routing_table_update") by done.
  reflexivity.
Qed.

Lemma count_where_perm p devices devices' :
  devices ≡ₚ devices' → count_where p devices = count_where p devices'.
Proof. intros Hp. unfold count_where. by rewrite Hp. Qed.

(** C9.  Scenario day1 on a fresh orchestrator, over one router, one switch
    and one pc with distinct names (given in any order, with any set of
    links, the full mesh included): the run returns normally, the kinds of
    the logged events are, in order, [simulation_started]; [phase_start],
    two [device_startup] (router, switch); [phase_start], three
    [arp_discovery]; [phase_start], an [ospf_hello] if the router runs OSPF,
    [routing_table_update]; [phase_start], [network_stable].  The result
    has one state per device and each reports [operational = true]. *)
Theorem day1_three_devices (py_hash : string → Z)
    (random_sample2 : list string → string * string) (random_choice : nat → nat)
    (clock : nat → Q) (topology : NetworkTopology)
    (r sw pc : NetworkDevice) (devices : list NetworkDevice) :
  device_type r = "router" → device_type sw = "switch" → device_type pc = "pc" →
  NoDup [name r; name sw; name pc] →
  devices ≡ₚ [r; sw; pc] →
  ∃ result s',
    run_simulation py_hash random_sample2 random_choice clock
                   topology devices "day1" NetworkSimulator_init = Done result s' ∧
    ev_type <$> res_events result
    = ["simulation_started";
       "phase_start"; "device_startup"; "device_startup";
       "phase_start"; "arp_discovery"; "arp_discovery"; "arp_discovery";
       "phase_start"]
      ++ (if has_ospf r then ["ospf_hello"] else [])
      ++ ["routing_table_update"; "phase_start"; "network_stable"] ∧
    (res_node_states result).*1 = name <$> devices ∧
    Forall (λ kn, st_operational kn.2 = true) (res_node_states result).
Proof.
  intros Hr Hsw Hpc Hnd Hperm.
  assert (Hnd' : NoDup (name <$> devices)) by (by rewrite Hperm).
  destruct (run_simulation_day1 py_hash random_sample2 random_choice clock
              topology devices NetworkSimulator_init eq_refl eq_refl Hnd')
    as (result & s' & Hrun & _ & Hev & Hst).
  exists result, s'. split; [exact Hrun|]. split; [|split].
  - rewrite Hev, day1_events_kinds, !(count_where_perm _ _ _ Hperm).
    unfold count_where, is_type. rewrite !filter_cons, !filter_nil. simpl.
    rewrite Hr, Hsw, Hpc. simpl. by destruct (has_ospf r).
  - apply (f_equal (fmap fst)) in Hst. rewrite <- !list_fmap_compose in Hst.
    exact Hst.
  - apply (f_equal (fmap snd)) in Hst. rewrite <- !list_fmap_compose in Hst.
    apply Forall_fmap with (f := λ kn : string * NodeState, st_operational kn.2)
                           (P := λ b : bool, b = true).
    change (fmap (snd ∘ _) (res_node_states result))
      with ((λ kn : string * NodeState, st_operational kn.2) <$> res_node_states result)
      in Hst.
    rewrite Hst. apply Forall_fmap, Forall_true. done.
Qed.

(** ** Unknown scenario *)

Lemma dict_get_fmap_values {A B : Type} (f : A → B) (d : list (string * A)) (k : string) :
  dict_get ((λ kn, (kn.1, f kn.2)) <$> d) k = f <$> dict_get d k.
Proof.
  induction d as [|[k0 v0] d IH]; [done|].
  rewrite fmap_cons. simpl. destruct (decide (k0 = k)); [done | exact IH].
Qed.

Lemma foldl_dict_set_is_Some {A V : Type} (key : A → string) (val : A → V)
    (xs : list A) (d : list (string * V)) (k : string) :
  is_Some (dict_get d k) ∨ k ∈ key <$> xs →
  is_Some (dict_get (foldl (λ d' x, dict_set d' (key x) (val x)) d xs) k).
Proof.
  revert d. induction xs as [|x xs IH]; intros d; cbn [foldl].
  - intros [?|Hin]; [done | by apply elem_of_nil in Hin].
  - intros Hk. apply IH. rewrite dict_get_set.
    destruct (decide (key x = k)) as [Heq|Hne]; [left; eauto|].
    rewrite fmap_cons in Hk.
    destruct Hk as [?|[?|?]%elem_of_cons]; [by left | congruence | by right].
Qed.

Lemma thread_alive_node_start n : thread_alive (node_start n) = true.
Proof. unfold node_start. by destruct (thread_alive n) eqn:E. Qed.

Lemma create_connection_mem a b i1 i2 kw m key :
  dict_mem (connections (create_connection a b i1 i2 kw m)) key
  = dict_mem (connections m) key || bool_decide (key = (a, b)) || bool_decide (key = (b, a)).
Proof.
  rewrite create_connection_connections. unfold dict_mem. rewrite !dict_get_set.
  destruct (dict_get (connections m) key);
    repeat case_decide; repeat case_bool_decide; simplify_eq; done.
Qed.

Lemma create_connection_running a b i1 i2 kw m :
  running (create_connection a b i1 i2 kw m) = running m.
Proof. unfold create_connection. by rewrite !ensure_node_queue_running. Qed.

Lemma foldl_links_registered (ns : list (string * NetworkNode)) (ls : list NetworkLink)
    (ipc : IPCManager) :
  let step := λ ipc link,
    match dict_get ns (source_device link), dict_get ns (target_device link) with
    | Some _, Some _ =>
        create_connection (source_device link) (target_device link)
                          (source_interface link) (target_interface link) no_kwargs ipc
    | _, _ => ipc
    end in
  running (foldl step ipc ls) = running ipc ∧
  (∀ key, dict_mem (connections ipc) key = true →
          dict_mem (connections (foldl step ipc ls)) key = true) ∧
  (∀ l, l ∈ ls →
        dict_mem ns (source_device l) = true → dict_mem ns (target_device l) = true →
        dict_mem (connections (foldl step ipc ls))
                 (source_device l, target_device l) = true ∧
        dict_mem (connections (foldl step ipc ls))
                 (target_device l, source_device l) = true).
Proof.
  intros step. revert ipc. induction ls as [|l0 ls IH]; intros ipc; cbn [foldl].
  - split; [done|]. split; [done|]. intros l Hin. by apply elem_of_nil in Hin.
  - destruct (IH (step ipc l0)) as (Hrun & Hkeep & Hnew).
    assert (Hstep : ∀ key, dict_mem (connections ipc) key = true →
                           dict_mem (connections (step ipc l0)) key = true).
    { intros key Hkey. unfold step.
      destruct (dict_get ns (source_device l0)), (dict_get ns (target_device l0));
        try done.
      by rewrite create_connection_mem, Hkey. }
    split; [|split].
    + rewrite Hrun. unfold step.
      destruct (dict_get ns (source_device l0)), (dict_get ns (target_device l0));
        try done.
      apply create_connection_running.
    + intros key Hkey. by apply Hkeep, Hstep.
    + intros l [->|Hin]%elem_of_cons Hs Ht; [|by apply Hnew].
      unfold dict_mem in Hs, Ht.
      split; apply Hkeep; unfold step;
        destruct (dict_get ns (source_device l0)), (dict_get ns (target_device l0));
        try done; rewrite create_connection_mem.
      * rewrite (bool_decide_true (_ = (source_device l0, target_device l0))) by done.
        by rewrite orb_true_r.
      * rewrite (bool_decide_true (_ = (target_device l0, source_device l0))) by done.
        by rewrite orb_true_r.
Qed.

Lemma initialize_simulation_spec topology devices s :
  let s1 := _initialize_simulation topology devices s in
  (∀ d, d ∈ devices →
        ∃ n, dict_get (nodes s1) (name d) = Some n ∧ thread_alive n = true) ∧
  (∃ ipc, ipc_manager s1 = Some ipc ∧ running ipc = true ∧
          ∀ l, l ∈ links topology →
               dict_mem (nodes s1) (source_device l) = true →
               dict_mem (nodes s1) (target_device l) = true →
               dict_mem (connections ipc) (source_device l, target_device l) = true ∧
               dict_mem (connections ipc) (target_device l, source_device l) = true) ∧
  simulation_running s1 = true ∧
  events s1 = events s ++ [mkEvent "simulation_started"
                             "Simulation environment initialized" None].
Proof.
  unfold _initialize_simulation. cbn [_log_event nodes ipc_manager events simulation_running].
  set (nodes1 := foldl (λ ns device, dict_set ns (name device) (NetworkNode_init device))
                       (nodes s) devices).
  split; [|split; [|done]].
  - intros d Hd. rewrite dict_get_fmap_values.
    destruct (foldl_dict_set_is_Some name NetworkNode_init devices (nodes s) (name d))
      as [n Hn].
    { right. by apply list_elem_of_fmap_2. }
    fold nodes1 in Hn. rewrite Hn. exists (node_start n).
    split; [done | apply thread_alive_node_start].
  - eexists. split; [reflexivity|].
    pose proof (foldl_links_registered nodes1 (links topology) IPCManager_init)
      as (Hrun & _ & Hreg).
    split; [exact Hrun|].
    intros l Hl Hs Ht. apply Hreg; [done | |].
    + unfold dict_mem in *. rewrite dict_get_fmap_values in Hs.
      by destruct (dict_get nodes1 (source_device l)).
    + unfold dict_mem in *. rewrite dict_get_fmap_values in Ht.
      by destruct (dict_get nodes1 (target_device l)).
Qed.

Lemma run_simulation_try_unknown py_hash random_sample2 random_choice clock
    topology devices scenario s :
  scenario ≠ "day1" → scenario ≠ "day2" →
  run_simulation_try py_hash random_sample2 random_choice clock
                     topology devices scenario s
  = Raised (ValueError ("Unknown scenario: " ++ scenario))
           (_initialize_simulation topology devices s).
Proof.
  intros H1 H2. unfold run_simulation_try.
  rewrite !bool_decide_false by done. reflexivity.
Qed.

(** C2 (counterexample).  With scenario "day3" the error is raised only
    after the registry exists and the nodes have been created: the state at
    the point of the raise is not the state before the call. *)
Lemma unknown_scenario_initializes_first :
  ¬ raises_before_start
      (run_simulation_try hash0 sample0 choice0 clock0
                          full_mesh three_devices "day3" NetworkSimulator_init)
      NetworkSimulator_init.
Proof.
  intros (e & s' & Hraise & Hnodes & Hipc).
  rewrite run_simulation_try_unknown in Hraise by done.
  injection Hraise as _ <-. discriminate Hipc.
Qed.

(** C2 (as amended).  With a scenario name other than "day1" and "day2",
    [run_simulation] raises [ValueError] after [_initialize_simulation] has
    run and before any scenario phase: at the point of the raise the
    registry is running, every device has a node whose thread is started,
    every link between known devices is registered in both directions, and
    the log holds [simulation_started] and nothing after it.  The [finally]
    clause then tears the run down: the exception leaves [run_simulation]
    with no nodes, an empty log, and the registry stopped with empty
    tables. *)
Theorem unknown_scenario_raises_after_initialization (py_hash : string → Z)
    (random_sample2 : list string → string * string) (random_choice : nat → nat)
    (clock : nat → Q) (topology : NetworkTopology) (devices : list NetworkDevice)
    (scenario : string) (s : NetworkSimulator) :
  scenario ≠ "day1" → scenario ≠ "day2" →
  let s1 := _initialize_simulation topology devices s in
  let error := ValueError ("Unknown scenario: " ++ scenario) in
  run_simulation_try py_hash random_sample2 random_choice clock
                     topology devices scenario s = Raised error s1 ∧
  run_simulation py_hash random_sample2 random_choice clock
                 topology devices scenario s = Raised error (_cleanup_simulation s1) ∧
  (∀ d, d ∈ devices →
        ∃ n, dict_get (nodes s1) (name d) = Some n ∧ thread_alive n = true) ∧
  (∃ ipc, ipc_manager s1 = Some ipc ∧ running ipc = true ∧
          ∀ l, l ∈ links topology →
               dict_mem (nodes s1) (source_device l) = true →
               dict_mem (nodes s1) (target_device l) = true →
               dict_mem (connections ipc) (source_device l, target_device l) = true ∧
               dict_mem (connections ipc) (target_device l, source_device l) = true) ∧
  events s1 = events s ++ [mkEvent "simulation_started"
                             "Simulation environment initialized" None] ∧
  nodes (_cleanup_simulation s1) = [] ∧
  events (_cleanup_simulation s1) = [] ∧
  simulation_running (_cleanup_simulation s1) = false ∧
  ∃ ipc', ipc_manager (_cleanup_simulation s1) = Some ipc' ∧
          running ipc' = false ∧ connections ipc' = [] ∧
          node_queues ipc' = [] ∧ message_queue ipc' = [].
Proof.
  intros H1 H2 s1 error.
  pose proof (run_simulation_try_unknown py_hash random_sample2 random_choice clock
                topology devices scenario s H1 H2) as Htry.
  destruct (initialize_simulation_spec topology devices s)
    as (Hnodes & (ipc & Hipc & Hrun & Hlinks) & _ & Hev).
  split; [exact Htry|]. split.
  { unfold run_simulation. by rewrite Htry. }
  split; [exact Hnodes|]. split; [by exists ipc|]. split; [exact Hev|].
  do 3 (split; [reflexivity|]).
  exists (ipc_cleanup ipc). unfold _cleanup_simulation. cbn [ipc_manager].
  fold s1. unfold s1 in *. rewrite Hipc. done.
Qed.

(** ** Instances *)

Lemma unknown_scenario_witness :
  run_simulation hash0 sample0 choice0 clock0
                 full_mesh three_devices "day3" NetworkSimulator_init
  = Raised (ValueError "Unknown scenario: day3") (_cleanup_simulation sim_three).
Proof.
  exact (proj1 (proj2 (unknown_scenario_raises_after_initialization
                         hash0 sample0 choice0 clock0 full_mesh three_devices "day3"
                         NetworkSimulator_init ltac:(discriminate) ltac:(discriminate)))).
Defined.

Lemma simulate_congestion_witness :
  get_connection_info "A" "B" registry_AB
  = Some (mkConnection "A" "B" "eth0" "eth0" true None 0.001%float 0.0%float) ∧
  (∃ c', get_connection_info "A" "B" (simulate_congestion "A" "B" 1%float registry_AB)
         = Some c' ∧
         latency c' = (11 * 0.001)%float ∧ packet_loss c' = 0.1%float) ∧
  (∃ c'', get_connection_info "B" "A"
            (clear_congestion (simulate_congestion "A" "B" 1%float registry_AB))
          = Some c'' ∧
          latency c'' = 0.001%float ∧ packet_loss c'' = 0.0%float) ∧
  (∃ c'', get_connection_info "A" "B"
            (clear_congestion (simulate_congestion "A" "B" 1%float registry_AB))
          = Some c'' ∧
          latency c'' = 0.001%float ∧ packet_loss c'' = 0.0%float ∧
          enabled c'' = true).
Proof.
  split; [reflexivity|].
  destruct (simulate_congestion_spec "A" "B" 1%float registry_AB _ eq_refl)
    as ((c' & Hc' & _ & _ & _ & Hone & _) & _ & _ & Hclear & Hab).
  split; [|split].
  - exists c'. split; [exact Hc'|]. exact (Hone eq_refl).
  - eexists. split; [rewrite Hclear; reflexivity|]. by split.
  - exact Hab.
Defined.

Lemma inject_device_failure_witness :
  is_Some (dict_get (nodes sim_three) "R1") ∧
  ∃ s' node',
    inject_fault hash0 (clock0 0%nat) "device_failure" "R1" None None sim_three
    = Done () s' ∧
    dict_get (nodes s') "R1" = Some node' ∧
    operational node' = false ∧ routing_table node' = ∅ ∧ arp_table node' = ∅ ∧
    interface_states node' !! "Gi0/0" = Some false ∧
    dict_get (nodes s') "S1" = dict_get (nodes sim_three) "S1" ∧
    dict_get (nodes s') "PC1" = dict_get (nodes sim_three) "PC1".
Proof.
  split; [by eexists|].
  destruct (inject_device_failure_spec hash0 (clock0 0%nat) "R1" None None sim_three
              _ eq_refl)
    as (s' & node' & Hrun & Hget & Hop & Hrt & Harp & Hifs & Hother & _ & _).
  exists s', node'. split; [exact Hrun|]. split; [exact Hget|].
  split; [exact Hop|]. split; [exact Hrt|]. split; [exact Harp|].
  split; [rewrite Hifs; reflexivity|].
  split; apply Hother; discriminate.
Defined.

Lemma inject_fault_only_logs_witness :
  (∃ ev, inject_fault hash0 (clock0 0%nat) "power_surge" "R1" None None sim_three
         = Done () (mkSim (nodes sim_three) (ipc_manager sim_three)
                          (simulation_running sim_three) (simulation_paused sim_three)
                          (events sim_three ++ [ev])) ∧
         ev_type ev = "fault_injection") ∧
  (∃ ev, inject_fault hash0 (clock0 0%nat) "device_failure" "R9" None None sim_three
         = Done () (mkSim (nodes sim_three) (ipc_manager sim_three)
                          (simulation_running sim_three) (simulation_paused sim_three)
                          (events sim_three ++ [ev])) ∧
         ev_type ev = "fault_injection").
Proof.
  split.
  - apply (inject_fault_only_logs hash0 (clock0 0%nat) "power_surge" "R1" None None
             sim_three).
    left. repeat split; discriminate.
  - apply (inject_fault_only_logs hash0 (clock0 0%nat) "device_failure" "R9" None None
             sim_three).
    right. reflexivity.
Defined.

Lemma day1_three_devices_witness :
  ∃ result s',
    run_simulation hash0 sample0 choice0 clock0
                   full_mesh three_devices "day1" NetworkSimulator_init
    = Done result s' ∧
    ev_type <$> res_events result
    = ["simulation_started";
       "phase_start"; "device_startup"; "device_startup";
       "phase_start"; "arp_discovery"; "arp_discovery"; "arp_discovery";
       "phase_start"; "ospf_hello"; "routing_table_update";
       "phase_start"; "network_stable"] ∧
    (res_node_states result).*1 = ["R1"; "S1"; "PC1"] ∧
    Forall (λ kn, st_operational kn.2 = true) (res_node_states result).
Proof.
  apply (day1_three_devices hash0 sample0 choice0 clock0 full_mesh
           router_R1 switch_S1 pc_PC1 three_devices eq_refl eq_refl eq_refl).
  - repeat constructor; rewrite ?elem_of_cons, ?elem_of_nil; intros H;
      repeat destruct H as [H|H]; discriminate || done.
  - reflexivity.
Defined.

(** * Further properties of the registry *)

Section PyDictElem.
Context {K V : Type} `{EqDecision K}.
Implicit Types (d : list (K * V)) (k : K) (v : V).

Lemma dict_set_elem d k v : (k, v) ∈ dict_set d k v.
Proof.
  induction d as [|[k0 v0] d IH]; simpl; [apply list_elem_of_here|].
  destruct (decide (k0 = k)) as [->|]; [apply list_elem_of_here|].
  by apply list_elem_of_further.
Qed.

Lemma dict_set_elem_other d k v k' v' :
  k' ≠ k → (k', v') ∈ d → (k', v') ∈ dict_set d k v.
Proof.
  intros Hne. induction d as [|[k0 v0] d IH]; simpl.
  { intros Hin. by apply elem_of_nil in Hin. }
  intros [Heq|Hin]%elem_of_cons.
  - injection Heq as <- <-. rewrite decide_False by done. apply list_elem_of_here.
  - destruct (decide (k0 = k)); apply list_elem_of_further; auto.
Qed.
End PyDictElem.

(** X1.  Right after [create_connection a b], [b] is among the neighbours of
    [a] and [a] among those of [b], whatever the registry held before. *)
Theorem create_connection_neighbors (a b i1 i2 : string) (kw : ConnKwargs)
    (m : IPCManager) :
  b ∈ get_neighbors a (create_connection a b i1 i2 kw m) ∧
  a ∈ get_neighbors b (create_connection a b i1 i2 kw m).
Proof.
  assert (Hgen : ∀ x y, ((x, y), length (heap m))
                        ∈ connections (create_connection a b i1 i2 kw m) →
                        y ∈ get_neighbors x (create_connection a b i1 i2 kw m)).
  { intros x y Hin. unfold get_neighbors. apply list_elem_of_omap.
    exists ((x, y), length (heap m)). split; [exact Hin|].
    rewrite create_connection_heap.
    rewrite lookup_app_r by done. rewrite Nat.sub_diag. simpl.
    by rewrite bool_decide_true. }
  split; apply Hgen; rewrite create_connection_connections.
  - destruct (decide ((a, b) = (b, a))) as [Heq|Hne].
    + rewrite <- Heq. apply dict_set_elem.
    + apply dict_set_elem_other; [done | apply dict_set_elem].
  - apply dict_set_elem.
Qed.

Lemma refs_separate_create a b i1 i2 kw m :
  registry_inv m → refs_separate m →
  refs_separate (create_connection a b i1 i2 kw m).
Proof.
  intros [_ Hall] Hsep k1 k2 r.
  rewrite create_connection_connections, !dict_get_set.
  destruct k1 as [x1 y1], k2 as [x2 y2]. simpl.
  repeat case_decide; simplify_eq; intros Hr1 Hr2; simplify_eq; auto;
    try (apply Hall in Hr1; lia); try (apply Hall in Hr2; lia).
  apply (Hsep _ _ _ Hr1 Hr2).
Qed.

Lemma registry_wf_init : registry_wf IPCManager_init.
Proof.
  split; [apply registry_inv_init|]. split; [constructor|]. split; [|done].
  intros k1 k2 r H1. done.
Qed.

Lemma registry_wf_apply_op m op : registry_wf m → registry_wf (apply_op m op).
Proof.
  intros (Hinv & Hnd & Hsep & Hrun).
  split; [by apply registry_inv_apply_op|].
  split; [by apply connections_nodup_apply_op|].
  split; [|by rewrite apply_op_running].
  destruct op; unfold apply_op, refs_separate in *.
  - by apply refs_separate_create.
  - unfold disable_connection. by rewrite !update_at_key_connections.
  - unfold enable_connection. by rewrite !update_at_key_connections.
  - done.
  - by rewrite set_connection_properties_connections.
  - unfold simulate_congestion. by rewrite set_connection_properties_connections.
  - done.
Qed.

Lemma deliver_message_frame target message m :
  heap (_deliver_message target message m) = heap m ∧
  connections (_deliver_message target message m) = connections m ∧
  running (_deliver_message target message m) = running m.
Proof.
  unfold _deliver_message.
  destruct (dict_get (node_queues m) target) as [q|]; [|done].
  by destruct (length q <? node_queue_maxsize)%nat.
Qed.

Lemma traffic_step_frame m st :
  running m = true →
  running (traffic_step m st) = true ∧
  ((∀ op, st ≠ StepRegistry op) →
   heap (traffic_step m st) = heap m ∧
   connections (traffic_step m st) = connections m).
Proof.
  intros Hrun. destruct st as [s t msg | u | n | op]; simpl.
  - destruct (send_message_cases s t msg m)
      as [[_ ->] | [(_ & _ & ->) | (_ & _ & ref & c & _ & _ & ->)]]; by split.
  - destruct (message_processor_step_frame u m) as (Hh & Hc & Hr & _).
    split; [by rewrite Hr | intros _; by rewrite Hh, Hc].
  - unfold _node_message_delivery_step. rewrite Hrun. simpl.
    destruct (dict_get (node_queues m) n) as [[|x q]|]; by split.
  - split; [by rewrite apply_op_running | intros Hne; by destruct (Hne op)].
Qed.

Lemma registry_wf_traffic_step m st : registry_wf m → registry_wf (traffic_step m st).
Proof.
  intros Hwf.
  assert ((∃ op, st = StepRegistry op) ∨ ∀ op, st ≠ StepRegistry op) as [[op ->]|Hno].
  { destruct st; eauto; right; discriminate. }
  { by apply registry_wf_apply_op. }
  destruct Hwf as (Hinv & Hnd & Hsep & Hrun).
  destruct (traffic_step_frame m st Hrun) as [Hrun' Hframe].
  destruct (Hframe Hno) as [Hh Hc].
  split; [eapply registry_inv_same_table; [exact Hc | by rewrite Hh | exact Hinv]|].
  split; [unfold connections_nodup; by rewrite Hc|].
  split; [unfold refs_separate; by rewrite Hc | exact Hrun'].
Qed.

Lemma registry_wf_run_traffic steps :
  registry_wf (run_traffic steps IPCManager_init).
Proof.
  assert (∀ m, registry_wf m → registry_wf (run_traffic steps m)) as Hgen.
  { induction steps as [|st steps IH]; intros m Hm; simpl; [done|].
    apply IH, registry_wf_traffic_step, Hm. }
  apply Hgen, registry_wf_init.
Qed.

Lemma get_neighbors_iff source target m :
  connections_nodup m →
  target ∈ get_neighbors source m ↔ connection_enabled source target m = true.
Proof.
  intros Hnd. split; [by apply get_neighbors_enabled|].
  unfold connection_enabled, get_connection_info, get_neighbors.
  destruct (dict_get (connections m) (source, target)) as [r|] eqn:Hr; [|done].
  simpl. destruct (heap m !! r) as [c|] eqn:Hc; [|done]. intros Hen.
  apply list_elem_of_omap. exists ((source, target), r).
  split; [by apply dict_get_elem|]. by rewrite Hc, bool_decide_true, Hen.
Qed.

Lemma connection_enabled_info x y m :
  connection_enabled x y m = from_option enabled false (get_connection_info x y m).
Proof. unfold connection_enabled. by destruct (get_connection_info x y m). Qed.

(** Changing the object of one link leaves every other link alone. *)
Lemma update_at_key_info_other f key x y m :
  refs_separate m → (x, y) ≠ key → (x, y) ≠ (key.2, key.1) →
  get_connection_info x y (update_at_key f key m) = get_connection_info x y m.
Proof.
  intros Hsep H1 H2. rewrite update_at_key_info.
  destruct (dict_get (connections m) key) as [r|] eqn:Hr; [|done].
  case_decide as Hxy; [|done].
  destruct (Hsep _ _ _ Hr Hxy); congruence.
Qed.

(** Setting the flag through a key sets it for that key. *)
Lemma update_at_key_enabled_self b key m :
  connection_enabled key.1 key.2 (update_at_key (set_enabled b) key m)
  = if dict_mem (connections m) key
    then from_option (λ _, b) false (get_connection_info key.1 key.2 m)
    else false.
Proof.
  destruct key as [x y]. rewrite connection_enabled_info, update_at_key_info. simpl.
  unfold dict_mem, get_connection_info.
  destruct (dict_get (connections m) (x, y)) as [r|] eqn:Hr; simpl; [|done].
  rewrite decide_True by done. by destruct (heap m !! r).
Qed.

(** A flag that is already [b] stays [b] under any further [set_enabled b]. *)
Lemma update_at_key_enabled_keep b key x y m :
  connection_enabled x y m = b →
  connection_enabled x y (update_at_key (set_enabled b) key m) = b ∨
  connection_enabled x y (update_at_key (set_enabled b) key m)
  = connection_enabled x y m.
Proof.
  intros Hb. rewrite !connection_enabled_info, update_at_key_info.
  destruct (dict_get (connections m) key) as [r|]; [|by right].
  case_decide; [|by right].
  destruct (get_connection_info x y m); simpl; [by left | by right].
Qed.

Lemma disable_connection_off a b m :
  connection_enabled a b (disable_connection a b m) = false ∧
  connection_enabled b a (disable_connection a b m) = false.
Proof.
  unfold disable_connection. split.
  - set (m1 := update_at_key (set_enabled false) (a, b) m).
    assert (H1 : connection_enabled a b m1 = false).
    { unfold m1. pose proof (update_at_key_enabled_self false (a, b) m) as Hs.
      simpl in Hs. rewrite Hs.
      destruct (dict_mem _ _); [|done]. by destruct (get_connection_info _ _ _). }
    destruct (update_at_key_enabled_keep false (b, a) a b m1 H1) as [->| ->]; done.
  - pose proof (update_at_key_enabled_self false (b, a)
                  (update_at_key (set_enabled false) (a, b) m)) as H2.
    simpl in H2. rewrite H2.
    destruct (dict_mem _ _); [|done]. by destruct (get_connection_info _ _ _).
Qed.

Lemma disable_connection_info_other a b x y m :
  refs_separate m → (x, y) ≠ (a, b) → (x, y) ≠ (b, a) →
  get_connection_info x y (disable_connection a b m) = get_connection_info x y m.
Proof.
  intros Hsep H1 H2. unfold disable_connection.
  rewrite update_at_key_info_other; [by apply update_at_key_info_other | | done..].
  unfold refs_separate. by rewrite update_at_key_connections.
Qed.

Lemma send_message_refused source target message m :
  connection_enabled source target m = false →
  (send_message source target message m).1 = false.
Proof.
  intros Hen.
  destruct (send_message_cases source target message m)
    as [[_ ->] | [(_ & _ & ->) | (_ & Hen' & _)]]; [done.. | congruence].
Qed.

(** X2.  On any registry reached from a fresh one, [disable_connection a b]
    takes [b] out of the neighbours of [a] and [a] out of those of [b], and
    every later send between them, in either direction, is refused.  The
    neighbour relation of every other ordered pair is as before. *)
Theorem disable_connection_neighbors (steps : list TrafficStep) (a b : string) :
  let m := run_traffic steps IPCManager_init in
  let m' := disable_connection a b m in
  (b ∉ get_neighbors a m') ∧ (a ∉ get_neighbors b m') ∧
  (∀ message, (send_message a b message m').1 = false ∧
              (send_message b a message m').1 = false) ∧
  (∀ x y, (x, y) ≠ (a, b) → (x, y) ≠ (b, a) →
          y ∈ get_neighbors x m' ↔ y ∈ get_neighbors x m).
Proof.
  intros m m'.
  pose proof (registry_wf_run_traffic steps) as Hwf. change (registry_wf m) in Hwf.
  destruct Hwf as (Hinv & Hnd & Hsep & Hrun).
  assert (Hnd' : connections_nodup m').
  { unfold connections_nodup, m', disable_connection.
    by rewrite !update_at_key_connections. }
  destruct (disable_connection_off a b m) as [Hab Hba]. fold m' in Hab, Hba.
  split; [|split; [|split]].
  - rewrite get_neighbors_iff by done. by rewrite Hab.
  - rewrite get_neighbors_iff by done. by rewrite Hba.
  - intros message. split; by apply send_message_refused.
  - intros x y H1 H2. rewrite !get_neighbors_iff by done.
    rewrite !connection_enabled_info. unfold m'.
    by rewrite disable_connection_info_other.
Qed.

Lemma with_heap_same m : with_heap (heap m) m = m.
Proof. by destruct m. Qed.

Lemma set_enabled_restore c :
  enabled c = true →
  set_enabled true (set_enabled true (set_enabled false (set_enabled false c))) = c.
Proof. destruct c. simpl. by intros ->. Qed.

(** X3.  On any registry reached from a fresh one, disabling an enabled
    connection and enabling it again gives back the registry as it was. *)
Theorem enable_after_disable (steps : list TrafficStep) (a b : string) :
  let m := run_traffic steps IPCManager_init in
  connection_enabled a b m = true →
  enable_connection a b (disable_connection a b m) = m.
Proof.
  intros m Hen.
  pose proof (registry_wf_run_traffic steps) as Hwf. change (registry_wf m) in Hwf.
  destruct Hwf as ((Hsym & _) & _).
  unfold connection_enabled, get_connection_info in Hen.
  destruct (dict_get (connections m) (a, b)) as [r|] eqn:Hr; [|done].
  simpl in Hen. destruct (heap m !! r) as [c|] eqn:Hc; [|done].
  assert (Hr' : dict_get (connections m) (b, a) = Some r) by (by rewrite <- Hsym).
  clearbody m. clear Hsym. destruct m as [h cs nq st run mq]. simpl in *.
  unfold enable_connection, disable_connection, update_at_key. simpl.
  rewrite Hr. simpl. rewrite Hr'. simpl. rewrite Hr. simpl. rewrite Hr'.
  unfold with_heap. simpl. f_equal.
  apply list_eq. intros i. rewrite !list_lookup_alter.
  case_decide as Hi; [|done]. subst i. rewrite Hc. simpl.
  rewrite !decide_True by done. simpl. by rewrite set_enabled_restore.
Qed.

(** X4.  On any registry reached from a fresh one, after
    [enable_all_connections] an ordered pair is enabled exactly when it has
    an entry in the table: no link stays disabled. *)
Theorem enable_all_connections_enables (steps : list TrafficStep) (x y : string) :
  let m := enable_all_connections (run_traffic steps IPCManager_init) in
  connection_enabled x y m = dict_mem (connections m) (x, y).
Proof.
  intros m.
  pose proof (registry_wf_run_traffic steps) as (Hinv & _).
  assert (Hinv' : registry_inv m).
  { eapply registry_inv_same_table; [| |exact Hinv];
      [done | apply update_all_heap_length]. }
  destruct (dict_mem (connections m) (x, y)) eqn:Hmem.
  - destruct (registry_inv_info m x y Hinv' Hmem) as (r & c & _ & _ & _ & Hinfo & _).
    rewrite connection_enabled_info, Hinfo. simpl.
    by apply (update_all_info (set_enabled true) (λ c0, enabled c0 = true) x y
                (run_traffic steps IPCManager_init) c).
  - apply dict_mem_false in Hmem. unfold connection_enabled, get_connection_info.
    by rewrite Hmem.
Qed.


Lemma foldl_send_counts source message (targets : list string) m :
  running m = true →
  Forall (λ t, connection_enabled source t m = true) targets →
  let m' := foldl (λ m' t, (send_message source t message m').2) m targets in
  sent (message_stats m') = sent (message_stats m) + Z.of_nat (length targets) ∧
  dropped (message_stats m') = dropped (message_stats m) ∧
  delivered (message_stats m') = delivered (message_stats m) ∧
  node_queues m' = node_queues m.
Proof.
  revert m. induction targets as [|t ts IH]; intros m Hrun Hall; cbn [foldl].
  - simpl. repeat split; lia.
  - apply Forall_cons in Hall as [Ht Hts].
    destruct (send_message_cases source t message m)
      as [[Hr _] | [(_ & Hen & _) | (_ & _ & ref & c & Hk & Hc & Heq)]];
      [congruence.. |].
    destruct (IH (send_message source t message m).2) as (Hs & Hd & Hdl & Hq).
    + by rewrite Heq.
    + eapply Forall_impl; [exact Hts|]. intros t' Ht'. simpl in Ht'.
      by rewrite connection_enabled_send.
    + rewrite Hs, Hd, Hdl, Hq, Heq. simpl. repeat split; lia.
Qed.

(** X6.  On any registry reached from a fresh one, [broadcast_from_node]
    queues one copy of the message per enabled neighbour of the source, in
    neighbour order, counts each as sent and counts no drop; nothing is
    delivered within the call. *)
Theorem broadcast_from_node_counts (steps : list TrafficStep) (source : string)
    (message : Message) :
  let m := run_traffic steps IPCManager_init in
  let m' := broadcast_from_node source message m in
  sent (message_stats m')
  = sent (message_stats m) + Z.of_nat (length (get_neighbors source m)) ∧
  dropped (message_stats m') = dropped (message_stats m) ∧
  delivered (message_stats m') = delivered (message_stats m) ∧
  node_queues m' = node_queues m ∧
  ∃ new, message_queue m' = message_queue m ++ new ∧
         ipc_target <$> new = get_neighbors source m ∧
         Forall (λ x, ipc_source x = source ∧ ipc_payload x = message) new.
Proof.
  intros m m'.
  pose proof (registry_wf_run_traffic steps) as Hwf. change (registry_wf m) in Hwf.
  destruct Hwf as (_ & Hnd & _ & Hrun).
  assert (Hall : Forall (λ t, connection_enabled source t m = true)
                        (get_neighbors source m)).
  { apply Forall_forall. intros t Ht. by apply get_neighbors_enabled. }
  destruct (foldl_send_counts source message _ m Hrun Hall) as (Hs & Hd & Hdl & Hq).
  split; [exact Hs|]. split; [exact Hd|]. split; [exact Hdl|]. split; [exact Hq|].
  by apply broadcast_from_node_queue.
Qed.

(** One dispatcher iteration on a queued message for [target] that crosses
    a connection without loss whose latency [time.sleep] accepts: appended
    to the target's queue when there is room, counted as dropped when there
    is none. *)
Lemma message_processor_step_lossless target u x rest q m :
  running m = true → message_queue m = x :: rest →
  lossless_to target m x = true →
  dict_get (node_queues m) target = Some q →
  let m' := _message_processor_step u m in
  running m' = true ∧ message_queue m' = rest ∧ heap m' = heap m ∧
  sent (message_stats m') = sent (message_stats m) ∧
  if (length q <? node_queue_maxsize)%nat
  then dict_get (node_queues m') target = Some (q ++ [ipc_payload x]) ∧
       delivered (message_stats m') = delivered (message_stats m) + 1 ∧
       dropped (message_stats m') = dropped (message_stats m)
  else dict_get (node_queues m') target = Some q ∧
       delivered (message_stats m') = delivered (message_stats m) ∧
       dropped (message_stats m') = dropped (message_stats m) + 1.
Proof.
  intros Hrun Hq Hloss Hnq. unfold _message_processor_step. rewrite Hrun, Hq. simpl.
  unfold lossless_to in Hloss. apply andb_true_iff in Hloss as [Ht Hl].
  apply bool_decide_eq_true in Ht.
  unfold _process_message. simpl.
  destruct (heap m !! ipc_connection x) as [c|]; [|done].
  apply andb_true_iff in Hl as [Hl Hsleep].
  unfold latency_accepted in Hsleep.
  apply negb_true_iff in Hl, Hsleep. rewrite Hl, Hsleep. simpl.
  unfold _deliver_message. simpl. rewrite Ht, Hnq.
  destruct (length q <? node_queue_maxsize)%nat; simpl.
  - rewrite dict_get_set_eq. by repeat split.
  - by repeat split.
Qed.

Lemma lossless_to_heap target m m' (xs : list IPCMessage) :
  heap m' = heap m →
  forallb (lossless_to target m') xs = forallb (lossless_to target m) xs.
Proof.
  intros Hh. induction xs as [|x xs IH]; [done|]. simpl. rewrite IH.
  unfold lossless_to. by rewrite Hh.
Qed.

(** X7.  A running dispatcher that works through a processing queue holding
    only messages for one target, all over connections without packet loss
    and with a latency that [time.sleep] accepts (not positive, or below
    2^63 nanoseconds), hands them to the target's inbound queue in the order
    they were accepted until that queue holds 100 messages; every further
    message is counted as dropped and discarded.  The processing queue ends
    empty, and [delivered] and [dropped] grow together by the number of
    messages. *)
Theorem dispatch_all_fifo_drop_newest (target : string) (us : list float)
    (m : IPCManager) (q : list Message) :
  running m = true →
  forallb (lossless_to target m) (message_queue m) = true →
  length us = length (message_queue m) →
  dict_get (node_queues m) target = Some q →
  let m' := dispatch_all us m in
  let room := (node_queue_maxsize - length q)%nat in
  let k := length (message_queue m) in
  message_queue m' = [] ∧
  dict_get (node_queues m') target
  = Some (q ++ take room (ipc_payload <$> message_queue m)) ∧
  delivered (message_stats m')
  = delivered (message_stats m) + Z.of_nat (k `min` room) ∧
  dropped (message_stats m') = dropped (message_stats m) + Z.of_nat (k - room) ∧
  sent (message_stats m') = sent (message_stats m).
Proof.
  revert m q. induction us as [|u us IH]; intros m q Hrun Hall Hlen Hnq.
  - destruct (message_queue m) eqn:Hmq; [|done]. simpl. rewrite Hmq. simpl.
    rewrite take_nil, app_nil_r. repeat split; try done; lia.
  - destruct (message_queue m) as [|x rest] eqn:Hmq; [done|].
    simpl in Hall. apply andb_true_iff in Hall as [Hx Hrest].
    destruct (message_processor_step_lossless target u x rest q m Hrun Hmq Hx Hnq)
      as (Hrun' & Hmq' & Hheap & Hsent & Hcase).
    unfold dispatch_all. cbn [foldl]. fold (dispatch_all us (_message_processor_step u m)).
    assert (Hall' : forallb (lossless_to target (_message_processor_step u m))
                            (message_queue (_message_processor_step u m)) = true).
    { rewrite Hmq'. by rewrite (lossless_to_heap target m _ rest Hheap). }
    assert (Hlen' : length us = length (message_queue (_message_processor_step u m))).
    { rewrite Hmq'. simpl in Hlen. lia. }
    unfold node_queue_maxsize in *.
    destruct (length q <? 100)%nat eqn:Hroom.
    + apply Nat.ltb_lt in Hroom. destruct Hcase as (Hnq' & Hdl & Hdr).
      destruct (IH _ _ Hrun' Hall' Hlen' Hnq') as (E1 & E2 & E3 & E4 & E5).
      rewrite E1, E2, E3, E4, E5, Hmq', Hdl, Hdr, Hsent, length_app. simpl.
      replace (100 - length q)%nat with (S (100 - (length q + 1)))%nat by lia.
      change (list_fmap IPCMessage Message ipc_payload rest)
        with (ipc_payload <$> rest).
      rewrite firstn_cons, <- app_assoc. simpl.
      repeat split; try done; lia.
    + apply Nat.ltb_ge in Hroom. destruct Hcase as (Hnq' & Hdl & Hdr).
      destruct (IH _ _ Hrun' Hall' Hlen' Hnq') as (E1 & E2 & E3 & E4 & E5).
      rewrite E1, E2, E3, E4, E5, Hmq', Hdl, Hdr, Hsent.
      replace (100 - length q)%nat with 0%nat by lia. simpl.
      repeat split; try done; lia.
Qed.

Lemma ensure_node_queue_lookup node_name m node :
  dict_get (node_queues (_ensure_node_queue node_name m)) node
  = match dict_get (node_queues m) node with
    | Some q => Some q
    | None => if bool_decide (node = node_name) then Some [] else None
    end.
Proof.
  unfold _ensure_node_queue, dict_mem.
  destruct (dict_get (node_queues m) node_name) as [q0|] eqn:Hn; simpl.
  - destruct (dict_get (node_queues m) node) eqn:Hx; [done|].
    rewrite bool_decide_false; [done | congruence].
  - rewrite dict_get_set. destruct (decide (node_name = node)) as [->|Hne].
    + by rewrite Hn, bool_decide_true.
    + destruct (dict_get (node_queues m) node); [done|].
      by rewrite bool_decide_false.
Qed.

(** X8.  [create_connection a b] makes sure both endpoints have an inbound
    queue and never empties one: a queue that existed keeps its messages, a
    missing queue of [a] or [b] is created empty, and no other queue
    appears.  The processing queue and the counters are untouched. *)
Theorem create_connection_keeps_queues (a b i1 i2 : string) (kw : ConnKwargs)
    (m : IPCManager) (node : string) :
  let m' := create_connection a b i1 i2 kw m in
  dict_get (node_queues m') node
  = match dict_get (node_queues m) node with
    | Some q => Some q
    | None => if bool_decide (node = a ∨ node = b) then Some [] else None
    end ∧
  message_queue m' = message_queue m ∧
  message_stats m' = message_stats m.
Proof.
  intros m'. split; [|split].
  - unfold m', create_connection. rewrite !ensure_node_queue_lookup. simpl.
    destruct (dict_get (node_queues m) node); [done|].
    destruct (decide (node = a)) as [->|Ha].
    + rewrite (bool_decide_true (a = a)) by done. by rewrite bool_decide_true by auto.
    + rewrite (bool_decide_false (node = a)) by done.
      destruct (decide (node = b)) as [->|Hb].
      * by rewrite !bool_decide_true by auto.
      * rewrite !bool_decide_false; [done | | done]. by intros [?|?].
  - unfold m', create_connection. by rewrite !ensure_node_queue_message_queue.
  - unfold m', create_connection. by rewrite !ensure_node_queue_stats.
Qed.

Lemma message_processor_step_connections u m :
  connections (_message_processor_step u m) = connections m ∧
  heap (_message_processor_step u m) = heap m.
Proof.
  by destruct (message_processor_step_frame u m) as (-> & -> & _).
Qed.

(** The dispatcher reads nothing of a connection but its latency and its
    packet loss. *)
Lemma message_processor_step_with_heap u h' m :
  (∀ i, (λ c, (latency c, packet_loss c)) <$> h' !! i
        = (λ c, (latency c, packet_loss c)) <$> heap m !! i) →
  _message_processor_step u (with_heap h' m) = with_heap h' (_message_processor_step u m).
Proof.
  intros Hloss. unfold _message_processor_step. simpl.
  destruct (running m); [|done]. simpl.
  destruct (message_queue m) as [|x rest]; [done|].
  unfold _process_message. simpl.
  specialize (Hloss (ipc_connection x)).
  destruct (h' !! ipc_connection x) as [c'|], (heap m !! ipc_connection x) as [c|];
    simpl in Hloss; try done.
  injection Hloss as -> ->.
  destruct (_ && _); [done|].
  destruct (_ && _); [done|].
  unfold _deliver_message. simpl.
  destruct (dict_get (node_queues m) (ipc_target x)) as [q|]; [|done].
  by destruct (length q <? node_queue_maxsize)%nat.
Qed.

Lemma message_processor_step_update_at_key u f key m :
  (∀ c, latency (f c) = latency c ∧ packet_loss (f c) = packet_loss c) →
  _message_processor_step u (update_at_key f key m)
  = update_at_key f key (_message_processor_step u m).
Proof.
  intros Hf. unfold update_at_key.
  destruct (message_processor_step_connections u m) as [-> ->].
  destruct (dict_get (connections m) key) as [r|]; [|done].
  apply message_processor_step_with_heap. intros i.
  rewrite list_lookup_alter. case_decide; [|done]. subst i.
  destruct (heap m !! r) as [c|]; simpl; [|done].
  by destruct (Hf c) as [-> ->].
Qed.

(** X9.  Disabling a link does not retract what is already in the
    processing queue: a dispatcher iteration after [disable_connection]
    does to the queues and the counters exactly what it would have done
    before it (the dispatcher never looks at the [enabled] flag). *)
Theorem disable_keeps_in_flight_messages (u : float) (a b : string) (m : IPCManager) :
  _message_processor_step u (disable_connection a b m)
  = disable_connection a b (_message_processor_step u m).
Proof.
  unfold disable_connection.
  rewrite !message_processor_step_update_at_key; done.
Qed.

(** ** Bounded inbound queues *)

Lemma dict_set_Forall {K V : Type} `{EqDecision K} (P : K * V → Prop)
    (d : list (K * V)) (k : K) (v : V) :
  Forall P d → P (k, v) → Forall P (dict_set d k v).
Proof.
  intros Hd Hv. induction d as [|[k0 v0] d IH]; simpl.
  - by constructor.
  - apply Forall_cons in Hd as [H0 Hd]. destruct (decide (k0 = k)) as [->|].
    + constructor; [exact Hv | exact Hd].
    + constructor; [exact H0 | by apply IH].
Qed.

Lemma dict_get_Forall {K V : Type} `{EqDecision K} (P : K * V → Prop)
    (d : list (K * V)) (k : K) (v : V) :
  Forall P d → dict_get d k = Some v → P (k, v).
Proof.
  intros Hd Hk. apply dict_get_elem in Hk. by eapply Forall_forall in Hd.
Qed.

Lemma queues_bounded_ensure node_name m :
  queues_bounded m → queues_bounded (_ensure_node_queue node_name m).
Proof.
  unfold queues_bounded, _ensure_node_queue. intros Hb.
  destruct (dict_mem _ _); [done|]. simpl.
  apply dict_set_Forall; [done | simpl; unfold node_queue_maxsize; lia].
Qed.

Lemma queues_bounded_same m m' :
  node_queues m' = node_queues m → queues_bounded m → queues_bounded m'.
Proof. unfold queues_bounded. by intros ->. Qed.

Lemma apply_op_node_queues_bounded m op :
  queues_bounded m → queues_bounded (apply_op m op).
Proof.
  intros Hb. destruct op; unfold apply_op.
  - unfold create_connection. do 2 apply queues_bounded_ensure. exact Hb.
  - eapply queues_bounded_same; [|exact Hb].
    unfold disable_connection, update_at_key. by repeat case_match.
  - eapply queues_bounded_same; [|exact Hb].
    unfold enable_connection, update_at_key. by repeat case_match.
  - exact Hb.
  - eapply queues_bounded_same; [|exact Hb].
    unfold set_connection_properties, update_at_key. simpl. by repeat case_match.
  - eapply queues_bounded_same; [|exact Hb].
    unfold simulate_congestion, set_connection_properties, update_at_key. simpl.
    by repeat case_match.
  - exact Hb.
Qed.

Lemma queues_bounded_deliver target message m :
  queues_bounded m → queues_bounded (_deliver_message target message m).
Proof.
  unfold queues_bounded, _deliver_message. intros Hb.
  destruct (dict_get (node_queues m) target) as [q|] eqn:Hq; [|done].
  destruct (length q <? node_queue_maxsize)%nat eqn:Hlt; [|done]. simpl.
  apply Nat.ltb_lt in Hlt.
  apply dict_set_Forall; [done | simpl; rewrite length_app; simpl; lia].
Qed.

Lemma queues_bounded_traffic_step m st :
  queues_bounded m → queues_bounded (traffic_step m st).
Proof.
  intros Hb. destruct st as [s t msg | u | n | op]; simpl.
  - destruct (send_message_cases s t msg m)
      as [[_ ->] | [(_ & _ & ->) | (_ & _ & ref & c & _ & _ & ->)]]; exact Hb.
  - unfold _message_processor_step. destruct (running m); [|done]. simpl.
    destruct (message_queue m) as [|x rest]; [done|].
    unfold _process_message. simpl.
    destruct (heap m !! ipc_connection x); [|done].
    destruct (_ && _); [done|].
    destruct (_ && _); [done|]. by apply queues_bounded_deliver.
  - unfold _node_message_delivery_step. destruct (running m); [|done]. simpl.
    destruct (dict_get (node_queues m) n) as [[|x q]|] eqn:Hq; [done| |done].
    simpl. unfold queues_bounded in *. simpl.
    pose proof (dict_get_Forall _ _ _ _ Hb Hq) as Hx. simpl in Hx.
    apply dict_set_Forall; [done | simpl; lia].
  - by apply apply_op_node_queues_bounded.
Qed.

Lemma py_sum_bound (zs : list Z) (bound : Z) :
  Forall (λ z, 0 <= z <= bound)%Z zs →
  (0 <= py_sum zs <= bound * Z.of_nat (length zs))%Z.
Proof.
  unfold py_sum.
  assert (∀ acc, Forall (λ z, 0 <= z <= bound)%Z zs →
                 (acc <= foldl Z.add acc zs <= acc + bound * Z.of_nat (length zs))%Z)
    as Hgen.
  { induction zs as [|z zs IH]; intros acc Hall; simpl; [lia|].
    apply Forall_cons in Hall as [Hz Hzs]. specialize (IH (acc + z)%Z Hzs). lia. }
  intros Hall. specialize (Hgen 0%Z Hall). lia.
Qed.

(** X10.  In every registry reached from a fresh one by sends, dispatcher
    iterations, node-queue reads and registry operations, no inbound queue
    holds more than 100 messages, and [get_statistics] reports
    [0 <= queued_messages <= 100 * registered_nodes]. *)
Theorem inbound_queues_bounded (steps : list TrafficStep) :
  let m := run_traffic steps IPCManager_init in
  (∀ node q, dict_get (node_queues m) node = Some q → (length q ≤ 100)%nat) ∧
  (0 <= stat_queued_messages (get_statistics m)
   <= 100 * stat_registered_nodes (get_statistics m))%Z.
Proof.
  intros m.
  assert (Hb : queues_bounded m).
  { assert (∀ m0, queues_bounded m0 → queues_bounded (run_traffic steps m0)) as Hgen.
    { induction steps as [|st steps IH]; intros m0 Hm0; simpl; [done|].
      apply IH. by apply queues_bounded_traffic_step. }
    apply Hgen. constructor. }
  split.
  - intros node q Hq. by apply (dict_get_Forall _ _ _ _ Hb Hq).
  - simpl. unfold dict_values.
    replace (length (node_queues m))
      with (length ((λ q, Z.of_nat (length q)) <$> (node_queues m).*2))
      by (by rewrite !length_fmap).
    apply py_sum_bound. rewrite <- list_fmap_compose. apply Forall_fmap.
    eapply Forall_impl; [exact Hb|]. intros [k q]. simpl.
    unfold node_queue_maxsize. lia.
Qed.

(** ** Listing the links *)

Lemma sorted_pair_comm a b : sorted_pair a b = sorted_pair b a.
Proof.
  unfold sorted_pair, String.ltb. rewrite (String.compare_antisym a b).
  destruct (String.compare b a) eqn:Hc; simpl; try done.
  by apply String.compare_eq_iff in Hc as ->.
Qed.

Lemma sorted_pair_inj a b a' b' :
  sorted_pair a b = sorted_pair a' b' → (a, b) = (a', b') ∨ (a, b) = (b', a').
Proof.
  unfold sorted_pair. destruct (String.ltb b a), (String.ltb b' a');
    intros [= -> ->]; auto.
Qed.

Lemma endpoints_match_alter f key m :
  (∀ c, node1 (f c) = node1 c ∧ node2 (f c) = node2 c) →
  endpoints_match m → endpoints_match (update_at_key f key m).
Proof.
  intros Hf Hm x y r c. rewrite update_at_key_connections. unfold update_at_key.
  destruct (dict_get (connections m) key) as [r0|]; [|apply Hm]. simpl.
  intros Hr. rewrite list_lookup_alter. case_decide.
  - subst r0. destruct (heap m !! r) as [c0|] eqn:Hc0; [|done]. simpl.
    intros [= <-]. destruct (Hf c0) as [-> ->]. by eapply Hm.
  - by apply Hm.
Qed.

Lemma foldl_alter_endpoints (f : Connection → Connection) (rs : list nat)
    (h : list Connection) (r : nat) (c : Connection) :
  (∀ c, node1 (f c) = node1 c ∧ node2 (f c) = node2 c) →
  foldl (λ h r, alter f r h) h rs !! r = Some c →
  ∃ c0, h !! r = Some c0 ∧ node1 c = node1 c0 ∧ node2 c = node2 c0.
Proof.
  intros Hf. revert h. induction rs as [|r0 rs IH]; intros h; cbn [foldl].
  - intros Hc. by exists c.
  - intros Hc. destruct (IH _ Hc) as (c1 & Hc1 & H1 & H2).
    rewrite list_lookup_alter in Hc1. case_decide.
    + subst r0. destruct (h !! r) as [c0|]; [|done]. simpl in Hc1.
      injection Hc1 as <-. exists c0. destruct (Hf c0) as [E1 E2].
      split; [done|]. by rewrite H1, H2.
    + by exists c1.
Qed.

Lemma endpoints_match_update_all f m :
  (∀ c, node1 (f c) = node1 c ∧ node2 (f c) = node2 c) →
  endpoints_match m → endpoints_match (update_all f m).
Proof.
  intros Hf Hm x y r c Hr Hc. simpl in *.
  destruct (foldl_alter_endpoints f _ _ _ _ Hf Hc) as (c0 & Hc0 & -> & ->).
  by eapply Hm.
Qed.

Lemma apply_props_endpoints p c :
  node1 (apply_props p c) = node1 c ∧ node2 (apply_props p c) = node2 c.
Proof. unfold apply_props. by repeat case_match. Qed.

Lemma endpoints_match_apply_op m op :
  registry_inv m → endpoints_match m → endpoints_match (apply_op m op).
Proof.
  intros [_ Hall] Hm. destruct op; unfold apply_op.
  - intros x y r c.
    rewrite create_connection_connections, create_connection_heap, !dict_get_set.
    repeat case_decide; simplify_eq; intros Hr; simplify_eq.
    + rewrite lookup_app_r, Nat.sub_diag by done. intros [= <-]. simpl. auto.
    + rewrite lookup_app_r, Nat.sub_diag by done. intros [= <-]. simpl. auto.
    + rewrite lookup_app_l by (by eapply Hall). by apply Hm.
  - unfold disable_connection.
    do 2 (apply endpoints_match_alter; [by intros c|]). done.
  - unfold enable_connection.
    do 2 (apply endpoints_match_alter; [by intros c|]). done.
  - apply endpoints_match_update_all; [by intros c | done].
  - unfold set_connection_properties. simpl.
    do 2 (apply endpoints_match_alter; [apply apply_props_endpoints|]). done.
  - unfold simulate_congestion, set_connection_properties. simpl.
    do 2 (apply endpoints_match_alter; [apply apply_props_endpoints|]). done.
  - apply endpoints_match_update_all; [by intros c | done].
Qed.

Lemma endpoints_match_run_traffic steps :
  endpoints_match (run_traffic steps IPCManager_init).
Proof.
  assert (∀ m, registry_wf m → endpoints_match m →
               endpoints_match (run_traffic steps m)) as Hgen.
  { induction steps as [|st steps IH]; intros m Hwf Hm; simpl; [done|].
    apply IH; [by apply registry_wf_traffic_step|].
    assert ((∃ op, st = StepRegistry op) ∨ ∀ op, st ≠ StepRegistry op)
      as [[op ->]|Hno].
    { destruct st; eauto; right; discriminate. }
    - apply endpoints_match_apply_op; [apply Hwf | done].
    - destruct Hwf as (_ & _ & _ & Hrun).
      destruct (traffic_step_frame m st Hrun) as [_ Hframe].
      destruct (Hframe Hno) as [Hh Hc]. unfold endpoints_match. by rewrite Hh, Hc. }
  apply Hgen; [apply registry_wf_init|]. intros x y r c Hr. done.
Qed.

(** The dictionary [get_all_connections] builds: every entry is keyed by
    its own sorted endpoints and is an object of the table, keys are not
    repeated, and every object of the table has its key in it. *)
Lemma unique_connections_spec (h : list Connection) (rs : list nat)
    (u0 : list ((string * string) * Connection)) :
  let step := λ unique r,
    match h !! r with
    | Some connection => dict_set unique (link_key connection) connection
    | None => unique
    end in
  NoDup (dict_keys u0) →
  Forall (λ kc, kc.1 = link_key kc.2) u0 →
  NoDup (dict_keys (foldl step u0 rs)) ∧
  Forall (λ kc, kc.1 = link_key kc.2 ∧
                (kc ∈ u0 ∨ ∃ r, r ∈ rs ∧ h !! r = Some kc.2))
         (foldl step u0 rs) ∧
  (∀ k, dict_mem u0 k = true → dict_mem (foldl step u0 rs) k = true) ∧
  (∀ r c, r ∈ rs → h !! r = Some c → dict_mem (foldl step u0 rs) (link_key c) = true).
Proof.
  intros step. revert u0. induction rs as [|r0 rs IH]; intros u0 Hnd Hkeys; cbn [foldl].
  - split; [done|]. split; [|split; [done|]].
    + apply Forall_forall. intros kc Hin. split; [|by left].
      by eapply Forall_forall in Hkeys.
    + intros r c Hin. by apply elem_of_nil in Hin.
  - assert (Hnd' : NoDup (dict_keys (step u0 r0))).
    { unfold step. destruct (h !! r0); [by apply dict_set_nodup | done]. }
    assert (Hkeys' : Forall (λ kc, kc.1 = link_key kc.2 ∧
                                   (kc ∈ u0 ∨ h !! r0 = Some kc.2)) (step u0 r0)).
    { unfold step. destruct (h !! r0) as [c0|] eqn:Hc0.
      - apply dict_set_Forall; [|simpl; auto].
        apply Forall_forall. intros kc Hin.
        split; [by apply (proj1 (Forall_forall _ _) Hkeys) | by left].
      - apply Forall_forall. intros kc Hin.
        split; [by apply (proj1 (Forall_forall _ _) Hkeys) | by left]. }
    assert (Hmem' : ∀ k, dict_mem u0 k = true → dict_mem (step u0 r0) k = true).
    { intros k Hk. unfold step. destruct (h !! r0); [|done].
      unfold dict_mem in *. rewrite dict_get_set. by case_decide. }
    destruct (IH (step u0 r0) Hnd') as (N & F & M & C).
    { eapply Forall_impl; [exact Hkeys'|]. by intros kc [? _]. }
    split; [exact N|]. split; [|split].
    + apply Forall_forall. intros kc Hin.
      destruct (proj1 (Forall_forall _ _) F _ Hin) as [Hk Hsrc]. split; [exact Hk|].
      destruct Hsrc as [Hin0 | (r & Hr & Hc)].
      * destruct (proj1 (Forall_forall _ _) Hkeys' kc Hin0) as [_ [?|Hc0]];
          [by left|].
        right. exists r0. split; [left | done].
      * right. exists r. split; [by right | done].
    + intros k Hk. by apply M, Hmem'.
    + intros r c [->|Hin]%elem_of_cons Hc; [|by eapply C].
      apply M. unfold step. rewrite Hc. unfold dict_mem. by rewrite dict_get_set_eq.
Qed.

(** X11.  In every registry reached from a fresh one, [get_all_connections]
    lists every link exactly once: the listed connections have pairwise
    different unordered endpoints, each is the object currently stored
    under its endpoints, and an ordered pair has a table entry exactly
    when a listed connection joins its two nodes. *)
Theorem get_all_connections_lists_links (steps : list TrafficStep) :
  let m := run_traffic steps IPCManager_init in
  NoDup (link_key <$> get_all_connections m) ∧
  (∀ c, c ∈ get_all_connections m →
        get_connection_info (node1 c) (node2 c) m = Some c) ∧
  (∀ a b, dict_mem (connections m) (a, b) = true ↔
          ∃ c, c ∈ get_all_connections m ∧ link_key c = sorted_pair a b).
Proof.
  intros m.
  pose proof (registry_wf_run_traffic steps) as Hwf. change (registry_wf m) in Hwf.
  destruct Hwf as (Hinv & Hnd & _ & _).
  pose proof (endpoints_match_run_traffic steps) as Hend.
  change (endpoints_match m) in Hend.
  destruct (unique_connections_spec (heap m) (dict_values (connections m)) [])
    as (N & F & _ & C); [constructor | constructor |].
  unfold get_all_connections. fold link_key.
  set (unique := foldl _ [] (dict_values (connections m))) in *.
  assert (Hkeys : link_key <$> dict_values unique = dict_keys unique).
  { unfold dict_values, dict_keys. rewrite <- list_fmap_compose.
    apply Forall_fmap_ext_1. eapply Forall_impl; [exact F|].
    intros [k c] [Hk _]. simpl in *. done. }
  assert (Hcur : ∀ c, c ∈ dict_values unique →
                      get_connection_info (node1 c) (node2 c) m = Some c).
  { intros c [k Hin]%dict_values_elem.
    destruct (proj1 (Forall_forall _ _) F _ Hin) as [_ [Hnil | (r & Hr & Hc)]].
    { by apply elem_of_nil in Hnil. }
    simpl in Hc. apply dict_values_elem in Hr as [[x y] Hxy].
    apply (dict_elem_get _ _ _ Hnd) in Hxy.
    unfold get_connection_info.
    destruct (Hend x y r c Hxy Hc) as [[-> ->] | [-> ->]].
    - by rewrite Hxy.
    - rewrite <- (proj1 Hinv x y), Hxy. done. }
  split; [by rewrite Hkeys|]. split; [exact Hcur|].
  intros a b. split.
  - intros Hmem.
    destruct (registry_inv_info m a b Hinv Hmem) as (r & c & Hr & _ & Hc & _ & _).
    assert (Hin : dict_mem unique (link_key c) = true).
    { apply (C r c); [by eapply dict_get_Some_values | done]. }
    apply dict_mem_true in Hin as [c' Hc'].
    exists c'. split; [by eapply dict_get_Some_values|].
    apply dict_get_elem in Hc'.
    destruct (proj1 (Forall_forall _ _) F _ Hc') as [Hk _]. simpl in Hk.
    rewrite <- Hk.
    unfold link_key. destruct (Hend a b r c Hr Hc) as [[-> ->] | [-> ->]];
      [done | apply sorted_pair_comm].
  - intros (c & Hin & Hkey). apply Hcur in Hin.
    assert (Hm : dict_mem (connections m) (node1 c, node2 c) = true).
    { unfold dict_mem, get_connection_info in *.
      by destruct (dict_get (connections m) (node1 c, node2 c)). }
    unfold link_key in Hkey. apply sorted_pair_inj in Hkey as [[= <- <-] | [= <- <-]].
    + exact Hm.
    + unfold dict_mem in *. by rewrite <- (proj1 Hinv).
Qed.

(** ** Instances of the registry properties *)

Lemma enable_after_disable_witness :
  connection_enabled "A" "B" registry_AB = true ∧
  enable_connection "A" "B" (disable_connection "A" "B" registry_AB) = registry_AB.
Proof.
  split; [reflexivity|].
  exact (enable_after_disable
           [StepRegistry (OpCreate "A" "B" "eth0" "eth0" no_kwargs)] "A" "B" eq_refl).
Defined.

Lemma dispatch_all_fifo_drop_newest_witness :
  let m' := dispatch_all [0%float; 0%float] registry_AB_two_queued in
  length (message_queue registry_AB_two_queued) = 2%nat ∧
  message_queue m' = [] ∧
  dict_get (node_queues m') "B"
  = Some [[("type", VStr "ping")]; [("type", VStr "ospf_hello")]] ∧
  delivered (message_stats m') = 2 ∧ dropped (message_stats m') = 0.
Proof.
  split; [reflexivity|].
  destruct (dispatch_all_fifo_drop_newest "B" [0%float; 0%float]
              registry_AB_two_queued [] eq_refl eq_refl eq_refl eq_refl)
    as (Hq & Hnq & Hd & Hdr & _).
  split; [exact Hq|]. split; [exact Hnq|]. split; [exact Hd | exact Hdr].
Defined.

(** * Further properties of nodes *)

(** ** Power-on *)

Lemma foldl_power_on_lookup (ifs : list Interface) (t : gmap string bool) (x : string) :
  foldl (λ states interface,
           if if_enabled interface then <[if_name interface := true]> states
           else states) t ifs !! x
  = if existsb (λ i, bool_decide (if_name i = x) && if_enabled i) ifs
    then Some true else t !! x.
Proof.
  revert t. induction ifs as [|i ifs IH]; intros t; cbn [foldl existsb]; [done|].
  rewrite IH. destruct (if_enabled i) eqn:He.
  - case_bool_decide as Hn; simpl.
    + subst x. rewrite lookup_insert_eq. by destruct (existsb _ _).
    + by rewrite lookup_insert_ne.
  - by rewrite andb_false_r.
Qed.

Lemma foldl_init_states_lookup (ifs : list Interface) (t : gmap string bool)
    (x : string) :
  foldl (λ states interface, <[if_name interface := if_enabled interface]> states)
        t ifs !! x
  = match last (filter (λ i, if_name i = x) ifs) with
    | Some i => Some (if_enabled i)
    | None => t !! x
    end.
Proof.
  revert t. induction ifs as [|i ifs IH]; intros t; cbn [foldl]; [done|].
  rewrite IH, filter_cons. case_decide as Hn.
  - rewrite last_cons. destruct (last (filter _ ifs)); [done|].
    subst x. by rewrite lookup_insert_eq.
  - destruct (last (filter _ ifs)); [done|]. by rewrite lookup_insert_ne.
Qed.

Lemma existsb_named_enabled (x : string) (ifs : list Interface) :
  existsb (λ i, bool_decide (if_name i = x) && if_enabled i) ifs
  = existsb if_enabled (filter (λ i, if_name i = x) ifs).
Proof.
  induction ifs as [|i ifs IH]; [done|]. cbn [existsb]. rewrite filter_cons, IH.
  case_decide as Hn.
  - by rewrite bool_decide_true.
  - by rewrite bool_decide_false.
Qed.

Lemma filter_named_nodup (x : string) (ifs : list Interface) :
  NoDup (if_name <$> ifs) → (length (filter (λ i, if_name i = x) ifs) ≤ 1)%nat.
Proof.
  induction ifs as [|i ifs IH]; [simpl; lia|].
  rewrite fmap_cons, NoDup_cons. intros [Hnotin Hnd]. rewrite filter_cons.
  case_decide as Hn; [|by apply IH].
  assert (filter (λ i0, if_name i0 = x) ifs = []) as ->; [|simpl; lia].
  destruct (filter _ ifs) as [|j l] eqn:Hf; [done|]. exfalso.
  assert (Hj : j ∈ filter (λ i0, if_name i0 = x) ifs) by (rewrite Hf; left).
  apply list_elem_of_filter in Hj as [Hjx Hj]. apply Hnotin.
  rewrite Hn, <- Hjx. by apply list_elem_of_fmap_2.
Qed.

Lemma power_on_interface_lookup (n : NetworkNode) (x : string) :
  interface_states (power_on n) !! x
  = if existsb if_enabled (interfaces_named x (device n))
    then Some true else interface_states n !! x.
Proof.
  unfold interfaces_named. rewrite <- existsb_named_enabled.
  apply foldl_power_on_lookup.
Qed.

(** X12.  [power_on] sets both state flags and brings up the interface
    states named by an enabled interface of the device; every other
    interface state, the tables and the statistics stay as they were. *)
Theorem power_on_spec (n : NetworkNode) (x : string) :
  let n' := power_on n in
  powered_on n' = true ∧ operational n' = true ∧
  interface_states n' !! x
  = (if existsb if_enabled (interfaces_named x (device n))
     then Some true else interface_states n !! x) ∧
  device n' = device n ∧ routing_table n' = routing_table n ∧
  arp_table n' = arp_table n ∧ statistics n' = statistics n.
Proof.
  intros n'. split; [done|]. split; [done|].
  split; [apply power_on_interface_lookup | done].
Qed.

(** X13.  The interface states of a node built for a device: the last
    interface of a name decides its state at construction, and after
    [power_on] a name is up as soon as one interface of that name is
    enabled.  For a device whose interface names are distinct the two
    agree, so [power_on] changes no interface state of a fresh node. *)
Theorem fresh_node_interface_states (d : NetworkDevice) (x : string) :
  let fresh := NetworkNode_init d in
  interface_states fresh !! x = if_enabled <$> last (interfaces_named x d) ∧
  interface_states (power_on fresh) !! x
  = (if existsb if_enabled (interfaces_named x d) then Some true
     else if_enabled <$> last (interfaces_named x d)) ∧
  (NoDup (if_name <$> interfaces d) →
   interface_states (power_on fresh) = interface_states fresh).
Proof.
  intros fresh.
  assert (Hinit : ∀ y, interface_states fresh !! y
                       = if_enabled <$> last (interfaces_named y d)).
  { intros y. unfold fresh, NetworkNode_init, interfaces_named. simpl.
    rewrite foldl_init_states_lookup. by destruct (last _). }
  assert (Hon : ∀ y, interface_states (power_on fresh) !! y
                     = (if existsb if_enabled (interfaces_named y d) then Some true
                        else if_enabled <$> last (interfaces_named y d))).
  { intros y. by rewrite power_on_interface_lookup, Hinit. }
  split; [apply Hinit|]. split; [apply Hon|].
  intros Hnd. apply map_eq. intros y. rewrite Hon, Hinit.
  pose proof (filter_named_nodup y _ Hnd) as Hlen. unfold interfaces_named.
  destruct (filter _ (interfaces d)) as [|i [|j l]]; [done| |simpl in Hlen; lia].
  simpl. by destruct (if_enabled i).
Qed.

(** ** Routing table updates *)

Lemma foldl_insert_const_lookup (ks : list string) (v : string)
    (t : gmap string string) (i : string) :
  foldl (λ t k, <[k := v]> t) t ks !! i = if decide (i ∈ ks) then Some v else t !! i.
Proof.
  revert t. induction ks as [|k ks IH]; intros t; cbn [foldl].
  - rewrite decide_False; [done|]. apply not_elem_of_nil.
  - rewrite IH. destruct (decide (i ∈ ks)) as [Hin|Hnotin].
    + rewrite decide_True; [done|]. by right.
    + destruct (decide (i = k)) as [->|Hne].
      * rewrite lookup_insert_eq, decide_True; [done|]. by left.
      * rewrite lookup_insert_ne by done. rewrite decide_False; [done|].
        intros [?|?]%elem_of_cons; done.
Qed.

Lemma foldl_networks_lookup (rps : list RoutingProtocol) (t : gmap string string)
    (i : string) :
  foldl (λ table rp,
           foldl (λ table' network, <[network := "directly_connected"]> table')
                 table (networks rp)) t rps !! i
  = if decide (i ∈ concat (networks <$> rps)) then Some "directly_connected"
    else t !! i.
Proof.
  revert t. induction rps as [|rp rps IH]; intros t; cbn [foldl].
  - rewrite decide_False; [done|]. apply not_elem_of_nil.
  - rewrite IH, fmap_cons. cbn [concat].
    rewrite (foldl_insert_const_lookup (networks rp)).
    destruct (decide (i ∈ concat (networks <$> rps))) as [H1|H1],
             (decide (i ∈ networks rp)) as [H2|H2];
      (rewrite decide_True by (apply elem_of_app; auto))
      || (rewrite decide_False by (rewrite elem_of_app; tauto)); done.
Qed.

Lemma update_routing_table_noop (n : NetworkNode) :
  operational n && bool_decide (device_type (device n) = "router") = false →
  update_routing_table n = n.
Proof.
  unfold update_routing_table. destruct (operational n); simpl; [|done].
  by intros ->.
Qed.

(** X14.  [update_routing_table] on an operational router records every
    network named by a routing protocol of the device as directly connected
    (whatever the protocol and whatever the interface states), keeps all
    other routes and counts one update; on any other node it does nothing.
    Calling it again does not change the table. *)
Theorem update_routing_table_spec (n : NetworkNode) (network : string) :
  let n' := update_routing_table n in
  (if operational n && bool_decide (device_type (device n) = "router")
   then routing_table n' !! network
        = (if decide (network ∈ announced_networks (device n))
           then Some "directly_connected" else routing_table n !! network) ∧
        routing_updates (statistics n') = routing_updates (statistics n) + 1
   else n' = n) ∧
  routing_table (update_routing_table n') = routing_table n' ∧
  interface_states n' = interface_states n ∧ arp_table n' = arp_table n ∧
  operational n' = operational n.
Proof.
  intros n'.
  assert (Hspec : ∀ n0 i,
            operational n0 = true → device_type (device n0) = "router" →
            routing_table (update_routing_table n0) !! i
            = if decide (i ∈ announced_networks (device n0))
              then Some "directly_connected" else routing_table n0 !! i).
  { intros n0 i Hop Hty. unfold update_routing_table.
    rewrite Hop, bool_decide_true by done. simpl. apply foldl_networks_lookup. }
  assert (Hframe : device n' = device n ∧ operational n' = operational n ∧
                   interface_states n' = interface_states n ∧
                   arp_table n' = arp_table n).
  { unfold n', update_routing_table. by destruct (_ || _). }
  destruct Hframe as (Hdev & Hop' & Hst & Harp).
  split; [|split; [|done]].
  - destruct (operational n) eqn:Hop; simpl.
    + case_bool_decide as Hty.
      * split; [by apply Hspec|]. unfold n', update_routing_table.
        by rewrite Hop, bool_decide_true.
      * unfold n', update_routing_table. by rewrite Hop, bool_decide_false.
    + unfold n', update_routing_table. by rewrite Hop.
  - destruct (operational n) eqn:Hop;
      [destruct (decide (device_type (device n) = "router")) as [Hty|Hty]|].
    + apply map_eq. intros i. rewrite Hspec by congruence.
      rewrite Hdev. unfold n'. rewrite (Hspec n) by done. by case_decide.
    + f_equal. apply update_routing_table_noop.
      by rewrite Hdev, (bool_decide_false _ Hty), andb_false_r.
    + f_equal. apply update_routing_table_noop. by rewrite Hop'.
Qed.

(** ** Broadcasts of a node *)

Lemma foldl_send_frame source message (targets : list string) m :
  let m' := foldl (λ m' t, (send_message source t message m').2) m targets in
  heap m' = heap m ∧ connections m' = connections m ∧ running m' = running m.
Proof.
  revert m. induction targets as [|t ts IH]; intros m; cbn [foldl]; [done|].
  destruct (IH (send_message source t message m).2) as (Hh & Hc & Hr).
  rewrite Hh, Hc, Hr, send_message_heap, send_message_connections.
  repeat split.
  destruct (send_message_cases source t message m)
    as [[_ ->] | [(_ & _ & ->) | (_ & _ & ref & c & _ & _ & ->)]]; done.
Qed.

Lemma get_neighbors_same node m m' :
  heap m' = heap m → connections m' = connections m →
  get_neighbors node m' = get_neighbors node m.
Proof. unfold get_neighbors. by intros -> ->. Qed.

Lemma registry_after_broadcasts_nil source m :
  registry_after_broadcasts source [] m m.
Proof.
  unfold registry_after_broadcasts. simpl. repeat split; try done; try lia.
  exists []. by rewrite app_nil_r.
Qed.

Lemma registry_after_broadcasts_cons source message messages m m' :
  running m = true → connections_nodup m →
  registry_after_broadcasts source messages (broadcast_from_node source message m) m' →
  registry_after_broadcasts source (message :: messages) m m'.
Proof.
  intros Hrun Hnd.
  destruct (foldl_send_frame source message (get_neighbors source m) m)
    as (Hh & Hc & Hr).
  assert (Hall : Forall (λ t, connection_enabled source t m = true)
                        (get_neighbors source m)).
  { apply Forall_forall. intros t Ht. by apply get_neighbors_enabled. }
  destruct (foldl_send_counts source message _ m Hrun Hall) as (Hs & Hd & Hdl & Hq).
  destruct (broadcast_from_node_queue source message m Hrun Hnd)
    as (new1 & Hq1 & Ht1 & Hf1).
  fold (broadcast_from_node source message m) in Hh, Hc, Hr, Hs, Hd, Hdl, Hq.
  unfold registry_after_broadcasts.
  rewrite (get_neighbors_same source m _ Hh Hc), Hh, Hc, Hr, Hq, Hs, Hd, Hdl, Hq1.
  intros (-> & -> & -> & -> & -> & -> & -> & new2 & -> & Hb & Hf2).
  repeat split; try done.
  { cbn [length]. lia. }
  exists (new1 ++ new2). split; [by rewrite app_assoc|]. split.
  - rewrite fmap_app, Hb. unfold broadcasts. cbn [fmap list_fmap concat]. f_equal.
    rewrite <- Ht1, <- list_fmap_compose. apply Forall_fmap_ext_1.
    eapply Forall_impl; [exact Hf1|]. intros x [_ Hx]. simpl. by rewrite Hx.
  - apply Forall_app. split; [|done].
    eapply Forall_impl; [exact Hf1|]. by intros x [Hx _].
Qed.

Lemma broadcast_from_node_wf source message m :
  running m = true → connections_nodup m →
  running (broadcast_from_node source message m) = true ∧
  connections_nodup (broadcast_from_node source message m).
Proof.
  intros Hrun Hnd.
  destruct (foldl_send_frame source message (get_neighbors source m) m)
    as (_ & Hc & Hr).
  fold (broadcast_from_node source message m) in Hc, Hr.
  unfold connections_nodup. by rewrite Hc, Hr.
Qed.

Lemma arp_discovery_loop (ifs : list Interface) (n : NetworkNode) (ipc : IPCManager) :
  running ipc = true → connections_nodup ipc →
  let r :=
    foldl (λ '(n', ipc') interface,
             if truthy (ip_address interface)
                && default false (interface_states n' !! if_name interface)
             then
               let arp_message :=
                 [("type", VStr "arp_request");
                  ("source", VStr (name (device n')));
                  ("source_ip", VStr (default "" (ip_address interface)));
                  ("target_ip", VStr (_get_gateway_ip interface));
                  ("interface", VStr (if_name interface))] in
               let '(n'', ipc'') := _broadcast_message arp_message n' ipc' in
               (with_statistics (incr_arp_requests_sent (statistics n'')) n'', ipc'')
             else (n', ipc'))
          (n, ipc) ifs in
  let todo :=
    filter (λ interface,
              truthy (ip_address interface)
              && default false (interface_states n !! if_name interface) = true) ifs in
  same_tables n r.1 ∧
  arp_requests_sent (statistics r.1)
  = arp_requests_sent (statistics n) + Z.of_nat (length todo) ∧
  packets_sent (statistics r.1) = packets_sent (statistics n) + Z.of_nat (length todo) ∧
  hello_packets_sent (statistics r.1) = hello_packets_sent (statistics n) ∧
  routing_updates (statistics r.1) = routing_updates (statistics n) ∧
  registry_after_broadcasts (name (device n))
    (arp_request_for (name (device n)) <$> todo) ipc r.2.
Proof.
  revert n ipc. induction ifs as [|i ifs IH]; intros n ipc Hrun Hnd; cbn [foldl].
  - simpl. split; [done|]. split_and!; try lia. apply registry_after_broadcasts_nil.
  - rewrite filter_cons.
    destruct (truthy (ip_address i)
              && default false (interface_states n !! if_name i)) eqn:Hc.
    + rewrite decide_True by done. unfold _broadcast_message.
      set (msg := [("type", VStr "arp_request"); _; _; _; _]).
      set (n1 := with_statistics _ (with_statistics _ n)).
      destruct (broadcast_from_node_wf (name (device n)) msg ipc Hrun Hnd)
        as [Hrun1 Hnd1].
      pose proof (IH n1 (broadcast_from_node (name (device n)) msg ipc) Hrun1 Hnd1)
        as IH1. cbv zeta in IH1.
      set (r := foldl _ (n1, broadcast_from_node (name (device n)) msg ipc) ifs) in *.
      clearbody r.
      destruct IH1 as ((Hd & Ho & Hp & Hi & Ha & Hr) & Harp & Hps & Hh & Hru & Hreg).
      simpl in Hd, Ho, Hp, Hi, Ha, Hr, Harp, Hps, Hh, Hru, Hreg.
      split; [done|]. cbn [length]. rewrite Harp, Hps, Hh, Hru.
      split_and!; try lia.
      rewrite fmap_cons. by apply registry_after_broadcasts_cons.
    + rewrite decide_False by done. by apply IH.
Qed.

(** X15.  [perform_arp_discovery] on an operational node sends one request
    per addressed interface whose state is up, and each request goes to
    every neighbour of the node, whatever interface it was built for: the
    request counter and the packet counter of the node grow by the number of
    such interfaces, the registry queues and counts one message per request
    and neighbour, and no table of the node changes.  A node that is not
    operational sends nothing. *)
Theorem perform_arp_discovery_counts (steps : list TrafficStep) (n : NetworkNode) :
  let ipc := run_traffic steps IPCManager_init in
  let r := perform_arp_discovery n ipc in
  let todo := if operational n then arp_interfaces n else [] in
  same_tables n r.1 ∧
  arp_requests_sent (statistics r.1)
  = arp_requests_sent (statistics n) + Z.of_nat (length todo) ∧
  packets_sent (statistics r.1) = packets_sent (statistics n) + Z.of_nat (length todo) ∧
  registry_after_broadcasts (name (device n))
    (arp_request_for (name (device n)) <$> todo) ipc r.2.
Proof.
  intros ipc r todo.
  pose proof (registry_wf_run_traffic steps) as Hwf. change (registry_wf ipc) in Hwf.
  destruct Hwf as (_ & Hnd & _ & Hrun).
  unfold r, todo, perform_arp_discovery. destruct (operational n); simpl.
  - destruct (arp_discovery_loop (interfaces (device n)) n ipc Hrun Hnd)
      as (Hs & Harp & Hps & _ & _ & Hreg).
    done.
  - split; [done|]. split_and!; try lia. apply registry_after_broadcasts_nil.
Qed.

Lemma ospf_hello_loop (py_hash : string → Z) (rps : list RoutingProtocol)
    (n : NetworkNode) (ipc : IPCManager) :
  running ipc = true → connections_nodup ipc →
  let r :=
    foldl (λ '(n', ipc') ospf_process,
             let hello_message :=
               [("type", VStr "ospf_hello");
                ("source", VStr (name (device n')));
                ("process_id", from_option VStr VNone (process_id ospf_process));
                ("area", VStr (if truthy (area ospf_process)
                               then default "" (area ospf_process) else "0"));
                ("router_id", VStr (_get_router_id py_hash n'))] in
             let '(n'', ipc'') := _broadcast_message hello_message n' ipc' in
             (with_statistics (incr_hello_packets_sent (statistics n'')) n'', ipc''))
          (n, ipc) rps in
  same_tables n r.1 ∧
  hello_packets_sent (statistics r.1)
  = hello_packets_sent (statistics n) + Z.of_nat (length rps) ∧
  packets_sent (statistics r.1) = packets_sent (statistics n) + Z.of_nat (length rps) ∧
  arp_requests_sent (statistics r.1) = arp_requests_sent (statistics n) ∧
  routing_updates (statistics r.1) = routing_updates (statistics n) ∧
  registry_after_broadcasts (name (device n))
    (ospf_hello_for (name (device n)) (_get_router_id py_hash n) <$> rps) ipc r.2.
Proof.
  revert n ipc. induction rps as [|rp rps IH]; intros n ipc Hrun Hnd; cbn [foldl].
  - simpl. split; [done|]. split_and!; try lia. apply registry_after_broadcasts_nil.
  - unfold _broadcast_message.
    set (msg := [("type", VStr "ospf_hello"); _; _; _; _]).
    set (n1 := with_statistics _ (with_statistics _ n)).
    destruct (broadcast_from_node_wf (name (device n)) msg ipc Hrun Hnd)
      as [Hrun1 Hnd1].
    pose proof (IH n1 (broadcast_from_node (name (device n)) msg ipc) Hrun1 Hnd1)
      as IH1. cbv zeta in IH1.
    set (r := foldl _ (n1, broadcast_from_node (name (device n)) msg ipc) rps) in *.
    clearbody r.
    destruct IH1 as ((Hd & Ho & Hp & Hi & Ha & Hr) & Hh & Hps & Harp & Hru & Hreg).
    change (_get_router_id py_hash n1) with (_get_router_id py_hash n) in Hreg.
    simpl in Hd, Ho, Hp, Hi, Ha, Hr, Harp, Hps, Hh, Hru, Hreg.
    split; [done|]. cbn [length]. rewrite Harp, Hps, Hh, Hru.
    split_and!; try lia.
    rewrite fmap_cons. by apply registry_after_broadcasts_cons.
Qed.

Lemma get_router_id_nonempty (py_hash : string → Z) (n : NetworkNode) :
  _get_router_id py_hash n ≠ "".
Proof.
  unfold _get_router_id.
  destruct (filter _ (interfaces (device n))) as [|i l] eqn:Hf; [done|].
  assert (Hi : i ∈ filter (λ interface, truthy (ip_address interface) = true)
                          (interfaces (device n))) by (rewrite Hf; left).
  apply list_elem_of_filter in Hi as [Hi _]. unfold truthy in Hi.
  destruct (ip_address i) as [ip|]; [|done]. simpl.
  by apply negb_true_iff, bool_decide_eq_false in Hi.
Qed.

(** X16.  [send_ospf_hello] on an operational router sends one hello per
    OSPF process of the device to every neighbour: the hello counter and the
    packet counter of the node grow by the number of OSPF processes, the
    registry queues and counts one message per process and neighbour, and no
    table of the node changes.  Any other node sends nothing.  The router id
    the hello carries is never empty. *)
Theorem send_ospf_hello_counts (py_hash : string → Z) (steps : list TrafficStep)
    (n : NetworkNode) :
  let ipc := run_traffic steps IPCManager_init in
  let r := send_ospf_hello py_hash n ipc in
  let processes :=
    if operational n && bool_decide (device_type (device n) = "router")
    then ospf_processes_of (device n) else [] in
  same_tables n r.1 ∧
  hello_packets_sent (statistics r.1)
  = hello_packets_sent (statistics n) + Z.of_nat (length processes) ∧
  packets_sent (statistics r.1)
  = packets_sent (statistics n) + Z.of_nat (length processes) ∧
  registry_after_broadcasts (name (device n))
    (ospf_hello_for (name (device n)) (_get_router_id py_hash n) <$> processes)
    ipc r.2 ∧
  _get_router_id py_hash n ≠ "".
Proof.
  intros ipc r processes.
  pose proof (registry_wf_run_traffic steps) as Hwf. change (registry_wf ipc) in Hwf.
  destruct Hwf as (_ & Hnd & _ & Hrun).
  assert (Hmain : same_tables n r.1 ∧
    hello_packets_sent (statistics r.1)
    = hello_packets_sent (statistics n) + Z.of_nat (length processes) ∧
    packets_sent (statistics r.1)
    = packets_sent (statistics n) + Z.of_nat (length processes) ∧
    registry_after_broadcasts (name (device n))
      (ospf_hello_for (name (device n)) (_get_router_id py_hash n) <$> processes)
      ipc r.2).
  { unfold r, processes, send_ospf_hello.
    destruct (operational n); simpl;
      [case_bool_decide; simpl|];
      try (split; [done|]; split_and!; try lia; apply registry_after_broadcasts_nil).
    destruct (ospf_hello_loop py_hash (ospf_processes_of (device n)) n ipc Hrun Hnd)
      as (Hs & Hh & Hps & _ & _ & Hreg).
    done. }
  destruct Hmain as (? & ? & ? & ?). split_and!; try done.
  apply get_router_id_nonempty.
Qed.

(** ** Interface changes *)

Lemma perform_arp_discovery_same_tables n ipc :
  same_tables n (perform_arp_discovery n ipc).1.
Proof.
  unfold perform_arp_discovery. destruct (operational n) eqn:Hop; simpl; [|done].
  assert (∀ ifs n0 ipc0,
            same_tables n0
              (foldl (λ '(n', ipc') interface,
                        if truthy (ip_address interface)
                           && default false (interface_states n' !! if_name interface)
                        then
                          let arp_message :=
                            [("type", VStr "arp_request");
                             ("source", VStr (name (device n')));
                             ("source_ip", VStr (default "" (ip_address interface)));
                             ("target_ip", VStr (_get_gateway_ip interface));
                             ("interface", VStr (if_name interface))] in
                          let '(n'', ipc'') := _broadcast_message arp_message n' ipc' in
                          (with_statistics (incr_arp_requests_sent (statistics n'')) n'',
                           ipc'')
                        else (n', ipc'))
                     (n0, ipc0) ifs).1) as Hloop.
  { induction ifs as [|i ifs IH]; intros n0 ipc0; cbn [foldl]; [done|].
    destruct (_ && _); [|apply IH]. unfold _broadcast_message.
    match goal with
    | |- same_tables _ (foldl _ (?n1, ?ipc1) ifs).1 =>
        destruct (IH n1 ipc1) as (Hd & Ho & Hp & Hi & Ha & Hr)
    end.
    simpl in Hd, Ho, Hp, Hi, Ha, Hr. by repeat split. }
  apply Hloop.
Qed.

(** X17.  Two calls of [simulate_interface_change] bring the first
    interface of the device back to the state it had, where an interface
    without a recorded state counts as up (so the first call takes it
    down); the routing and address tables are as before.  Requests are sent
    by the call that brings the interface up only: the other call leaves the
    registry alone.  A device without interfaces is not changed at all. *)
Theorem simulate_interface_change_twice (n : NetworkNode) (ipc : IPCManager) :
  let r1 := simulate_interface_change n ipc in
  let r2 := simulate_interface_change r1.1 r1.2 in
  match interfaces (device n) with
  | [] => r2 = (n, ipc)
  | interface :: _ =>
      let was := default true (interface_states n !! if_name interface) in
      interface_states r1.1 = <[if_name interface := negb was]> (interface_states n) ∧
      interface_states r2.1 = <[if_name interface := was]> (interface_states n) ∧
      routing_table r2.1 = routing_table n ∧ arp_table r2.1 = arp_table n ∧
      operational r2.1 = operational n ∧
      (if was then r1.2 = ipc else r2.2 = r1.2)
  end.
Proof.
  intros r1 r2. destruct (interfaces (device n)) as [|i rest] eqn:Hifs.
  { unfold r2, r1, simulate_interface_change. rewrite Hifs. simpl. by rewrite Hifs. }
  intros was.
  set (n1 := with_interface_states (<[if_name i := negb was]> (interface_states n)) n).
  assert (H1 : r1 = if negb was then perform_arp_discovery n1 ipc else (n1, ipc)).
  { unfold r1, simulate_interface_change. by rewrite Hifs. }
  assert (Hs1 : same_tables n1 r1.1).
  { rewrite H1. destruct (negb was); [apply perform_arp_discovery_same_tables | done]. }
  destruct Hs1 as (Hd1 & Ho1 & _ & Hi1 & Ha1 & Hr1). simpl in Hd1, Ho1, Hi1, Ha1, Hr1.
  set (n2 := with_interface_states (<[if_name i := was]> (interface_states n)) r1.1).
  assert (H2 : r2 = if was then perform_arp_discovery n2 r1.2 else (n2, r1.2)).
  { unfold r2, simulate_interface_change. rewrite Hd1, Hifs, Hi1.
    rewrite lookup_insert_eq. simpl. rewrite negb_involutive.
    unfold n2. by rewrite insert_insert_eq. }
  assert (Hs2 : same_tables n2 r2.1).
  { rewrite H2. destruct was; [apply perform_arp_discovery_same_tables | done]. }
  destruct Hs2 as (_ & Ho2 & _ & Hi2 & Ha2 & Hr2). simpl in Ho2, Hi2, Ha2, Hr2.
  split; [done|]. split; [done|]. split; [congruence|]. split; [congruence|].
  split; [congruence|].
  destruct was; [by rewrite H1 | by rewrite H2].
Qed.

(** ** Gateway addresses *)

Lemma py_split_nonempty (sep : ascii) (s : string) : py_split sep s ≠ [].
Proof.
  destruct s as [|c s]; simpl; [done|].
  case_bool_decide; [done|]. by destruct (py_split sep s).
Qed.

Lemma py_split_app_sep (sep : ascii) (p rest : string) :
  contains sep p = false →
  py_split sep (String.append p (String sep rest)) = p :: py_split sep rest.
Proof.
  induction p as [|c p IH]; simpl.
  - intros _. by rewrite bool_decide_true.
  - intros [Hc Hp]%orb_false_iff. rewrite Hc, (IH Hp). done.
Qed.

Lemma py_split_no_sep (sep : ascii) (p : string) :
  contains sep p = false → py_split sep p = [p].
Proof.
  induction p as [|c p IH]; simpl; [done|].
  intros [Hc Hp]%orb_false_iff. by rewrite Hc, (IH Hp).
Qed.

Lemma py_split_parts (sep : ascii) (s : string) :
  Forall (λ p, contains sep p = false) (py_split sep s).
Proof.
  induction s as [|c s IH]; simpl.
  - by repeat constructor.
  - case_bool_decide as Hc; [by constructor|].
    destruct (py_split sep s) as [|p ps]; simpl.
    + repeat constructor. simpl. by rewrite bool_decide_false.
    + apply Forall_cons in IH as [Hp Hps]. constructor; [|done].
      simpl. by rewrite bool_decide_false.
Qed.

Lemma py_split_join (sep : ascii) (parts : list string) :
  parts ≠ [] → Forall (λ p, contains sep p = false) parts →
  py_split sep (py_join (String sep "") parts) = parts.
Proof.
  induction parts as [|p [|q parts] IH]; [done| |].
  - intros _ [Hp _]%Forall_cons. simpl. by apply py_split_no_sep.
  - intros _ [Hp Hps]%Forall_cons.
    change (py_join (String sep "") (p :: q :: parts))
      with (String.append p (String sep (py_join (String sep "") (q :: parts)))).
    rewrite py_split_app_sep by done. f_equal. by apply IH.
Qed.

Lemma set_last_spec (x : string) (parts : list string) :
  parts ≠ [] →
  set_last x parts ≠ [] ∧ last (set_last x parts) = Some x ∧
  set_last x (set_last x parts) = set_last x parts ∧
  length (set_last x parts) = length parts.
Proof.
  induction parts as [|p [|q parts] IH]; [done|by intros _|].
  intros _. destruct IH as (Hne & Hl & Hi & Hlen); [done|].
  change (set_last x (p :: q :: parts)) with (p :: set_last x (q :: parts)).
  destruct (set_last x (q :: parts)) as [|q' l'] eqn:Hq; [done|].
  split; [done|]. split; [done|]. split; [|simpl in *; lia].
  change (set_last x (p :: q' :: l')) with (p :: set_last x (q' :: l')).
  by rewrite Hi.
Qed.

Lemma set_last_parts (sep : ascii) (x : string) (parts : list string) :
  contains sep x = false →
  Forall (λ p, contains sep p = false) parts →
  Forall (λ p, contains sep p = false) (set_last x parts).
Proof.
  intros Hx. induction parts as [|p [|q parts] IH]; [done| |].
  - intros _. by repeat constructor.
  - intros [Hp Hps]%Forall_cons.
    change (set_last x (p :: q :: parts)) with (p :: set_last x (q :: parts)).
    constructor; [done | by apply IH].
Qed.

(** X18.  For an interface with an address and a mask, [_get_gateway_ip]
    gives the address with its last dot-separated field replaced by 1: split
    at the dots, the result has the fields of the address except for the
    last, which is 1.  The result is not empty, and it is its own gateway.
    Without an address or a mask the result is 0.0.0.0. *)
Theorem get_gateway_ip_spec (interface : Interface) :
  let gateway := _get_gateway_ip interface in
  if truthy (ip_address interface) && truthy (subnet_mask interface) then
    py_split "." gateway
    = set_last "1" (py_split "." (default "" (ip_address interface))) ∧
    gateway ≠ "" ∧
    _get_gateway_ip (with_ip_address (Some gateway) interface) = gateway
  else gateway = "0.0.0.0".
Proof.
  intros gateway. unfold gateway, _get_gateway_ip.
  destruct (truthy (ip_address interface) && truthy (subnet_mask interface)) eqn:Hc;
    [|done].
  apply andb_true_iff in Hc as [Hip Hmask].
  set (parts := py_split "." (default "" (ip_address interface))).
  pose proof (py_split_nonempty "." (default "" (ip_address interface))) as Hne.
  pose proof (py_split_parts "." (default "" (ip_address interface))) as Hparts.
  fold parts in Hne, Hparts.
  destruct (set_last_spec "1" parts Hne) as (Hne' & Hlast & Hidem & _).
  assert (Hsplit : py_split "." (py_join "." (set_last "1" parts)) = set_last "1" parts).
  { apply py_split_join; [done|]. by apply set_last_parts. }
  assert (Hgw : py_join "." (set_last "1" parts) ≠ "").
  { intros Hempty. rewrite Hempty in Hsplit. simpl in Hsplit.
    rewrite <- Hsplit in Hlast. done. }
  split; [done|]. split; [done|].
  unfold with_ip_address. simpl. rewrite Hmask, (bool_decide_false _ Hgw).
  simpl. by rewrite Hsplit, Hidem.
Qed.

(** * Further properties of the orchestrator *)

(** ** Event counts *)

Lemma py_sum_cons (z : Z) (zs : list Z) : py_sum (z :: zs) = (z + py_sum zs)%Z.
Proof.
  unfold py_sum. simpl.
  assert (∀ acc, foldl Z.add acc zs = (acc + foldl Z.add 0 zs)%Z) as Hgen.
  { induction zs as [|y ys IH]; intros acc; simpl; [lia|].
    rewrite (IH (acc + y)%Z), (IH (0 + y)%Z). lia. }
  rewrite (Hgen (0 + z)%Z). lia.
Qed.

Lemma py_sum_dict_set_incr (counts : list (string * Z)) (k : string) :
  py_sum (dict_values (dict_set counts k (default 0 (dict_get counts k) + 1)))
  = (py_sum (dict_values counts) + 1)%Z.
Proof.
  unfold dict_values. induction counts as [|[k' v] counts IH].
  - unfold py_sum. simpl. lia.
  - cbn [dict_set dict_get]. case_decide.
    + rewrite !fmap_cons, !py_sum_cons. simpl. lia.
    + rewrite !fmap_cons, !py_sum_cons, IH. simpl. lia.
Qed.

Lemma count_events_cons (kind : string) (e : Event) (evs : list Event) :
  count_events kind (e :: evs)
  = ((if decide (ev_type e = kind) then 1 else 0) + count_events kind evs)%Z.
Proof.
  unfold count_events. rewrite filter_cons. case_decide; cbn [length]; lia.
Qed.

Lemma count_events_notin (kind : string) (evs : list Event) :
  kind ∉ ev_type <$> evs → count_events kind evs = 0.
Proof.
  induction evs as [|e evs IH]; [done|].
  rewrite fmap_cons, not_elem_of_cons, count_events_cons. intros [Hne Hnotin].
  rewrite decide_False by done. rewrite IH by done. lia.
Qed.

Lemma count_event_types (evs : list Event) (counts : list (string * Z)) (kind : string) :
  let counts' :=
    foldl (λ counts event,
             dict_set counts (ev_type event)
                      (default 0 (dict_get counts (ev_type event)) + 1))
          counts evs in
  dict_get counts' kind
  = (if decide (kind ∈ ev_type <$> evs)
     then Some (default 0 (dict_get counts kind) + count_events kind evs)%Z
     else dict_get counts kind) ∧
  (NoDup (dict_keys counts) → NoDup (dict_keys counts')) ∧
  py_sum (dict_values counts')
  = (py_sum (dict_values counts) + Z.of_nat (length evs))%Z.
Proof.
  revert counts. induction evs as [|e evs IH]; intros counts; cbn [foldl].
  - simpl. split; [done|]. split; [done | lia].
  - destruct (IH (dict_set counts (ev_type e)
                           (default 0 (dict_get counts (ev_type e)) + 1)))
      as (Hget & Hnd & Hsum).
    split; [|split].
    + rewrite Hget, !dict_get_set, fmap_cons, count_events_cons.
      destruct (decide (ev_type e = kind)) as [Hk|Hk].
      * rewrite (decide_True (P := kind ∈ _ :: _)) by (rewrite Hk; left).
        rewrite Hk. destruct (decide (kind ∈ ev_type <$> evs)) as [Hin|Hin].
        -- simpl. f_equal; lia.
        -- rewrite (count_events_notin kind evs Hin). f_equal; lia.
      * destruct (decide (kind ∈ ev_type <$> evs)) as [Hin|Hin].
        -- rewrite decide_True by (by right). f_equal; lia.
        -- rewrite decide_False; [done|]. intros [?|?]%elem_of_cons; done.
    + intros Hc. by apply Hnd, dict_set_nodup.
    + rewrite Hsum, py_sum_dict_set_incr. cbn [length]. lia.
Qed.

(** X19.  In the statistics [_collect_statistics] builds, every kind of
    event that occurs in the log is listed once with the number of its
    occurrences, no other kind is listed, and the counts add up to
    [total_events]; the node statistics are listed under the keys of the
    node table, in its order. *)
Theorem collect_statistics_counts (s : NetworkSimulator) (kind : string) :
  let stats := _collect_statistics s in
  dict_get (event_types stats) kind
  = (if decide (kind ∈ ev_type <$> events s)
     then Some (count_events kind (events s)) else None) ∧
  NoDup (dict_keys (event_types stats)) ∧
  py_sum (dict_values (event_types stats)) = total_events stats ∧
  dict_keys (node_statistics stats) = dict_keys (nodes s) ∧
  nodes_simulated stats = Z.of_nat (length (node_statistics stats)).
Proof.
  intros stats.
  destruct (count_event_types (events s) [] kind) as (Hget & Hnd & Hsum).
  split; [|split; [|split; [|split]]].
  - unfold stats, _collect_statistics. cbn [event_types]. rewrite Hget.
    case_decide; [|done]. simpl. f_equal; lia.
  - apply Hnd. constructor.
  - unfold stats, _collect_statistics. cbn [event_types total_events].
    rewrite Hsum. unfold py_sum. simpl. lia.
  - unfold stats, _collect_statistics, dict_keys. cbn [node_statistics].
    rewrite <- list_fmap_compose. by apply list_fmap_ext.
  - unfold stats, _collect_statistics. cbn [node_statistics nodes_simulated].
    by rewrite length_fmap.
Qed.

(** ** Injected link and interface faults *)

Lemma handle_link_failure_effect (py_hash : string → Z) (now : Q) (neighbor : string)
    (n : NetworkNode) (ipc : IPCManager) :
  let r := handle_link_failure py_hash now neighbor n ipc in
  device r.1 = device n ∧ operational r.1 = operational n ∧
  interface_states r.1 = interface_states n ∧ arp_table r.1 = arp_table n ∧
  (∀ network,
     routing_table r.1 !! network
     = if decide (routing_table n !! network = Some neighbor)
       then None else routing_table n !! network) ∧
  r.2 = (if bool_decide (device_type (device n) = "router")
         then broadcast_from_node (name (device n))
                (lsa_for (name (device n)) (_get_router_id py_hash n) now) ipc
         else ipc).
Proof.
  unfold handle_link_failure. simpl.
  destruct (bool_decide (device_type (device n) = "router")); simpl;
    (repeat split; [];
     intros network; rewrite foldl_delete_lookup;
     destruct (decide (routing_table n !! network = Some neighbor)) as [Hl|Hl];
     [rewrite decide_True; [done | by apply routes_to_remove_elem]
     |rewrite decide_False; [done | by rewrite routes_to_remove_elem]]).
Qed.

Lemma connection_enabled_same x y m m' :
  heap m' = heap m → connections m' = connections m →
  connection_enabled x y m' = connection_enabled x y m.
Proof.
  intros Hh Hc. unfold connection_enabled, get_connection_info. by rewrite Hh, Hc.
Qed.

(** X20.  [inject_fault] with kind [link_failure], a registered target and
    a neighbour: the connection between the two is disabled in both
    directions, the target's node loses exactly its routes through the
    neighbour, and whatever the target then announces is queued for its
    remaining neighbours only.  The neighbour's own node, like every node
    other than the target, is left as it was. *)
Theorem inject_link_failure_spec (py_hash : string → Z) (now : Q)
    (target neighbor : string) (interface : option string)
    (s : NetworkSimulator) (node : NetworkNode) (steps : list TrafficStep) :
  dict_get (nodes s) target = Some node →
  name (device node) = target →
  ipc_manager s = Some (run_traffic steps IPCManager_init) →
  neighbor ≠ "" →
  ∃ s' node' ipc' new,
    inject_fault py_hash now "link_failure" target (Some neighbor) interface s
    = Done () s' ∧
    events s' = events s ++ [ev_fault_injection "link_failure" target] ∧
    ipc_manager s' = Some ipc' ∧
    connection_enabled target neighbor ipc' = false ∧
    connection_enabled neighbor target ipc' = false ∧
    message_queue ipc' = message_queue (run_traffic steps IPCManager_init) ++ new ∧
    Forall (λ x, ipc_source x = target ∧ ipc_target x ≠ neighbor) new ∧
    dict_get (nodes s') target = Some node' ∧
    (∀ network,
       routing_table node' !! network
       = if decide (routing_table node !! network = Some neighbor)
         then None else routing_table node !! network) ∧
    (∀ other, other ≠ target → dict_get (nodes s') other = dict_get (nodes s) other).
Proof.
  intros Hnode Hname Hipc Hnb.
  set (ipc := run_traffic steps IPCManager_init) in *.
  set (ipc1 := disable_connection target neighbor ipc).
  assert (Hwf1 : registry_wf ipc1).
  { apply (registry_wf_apply_op ipc (OpDisable target neighbor)).
    apply registry_wf_run_traffic. }
  destruct Hwf1 as (_ & Hnd1 & _ & Hrun1).
  destruct (disable_connection_off target neighbor ipc) as [Hoff1 Hoff2].
  fold ipc1 in Hoff1, Hoff2.
  set (r := handle_link_failure py_hash now neighbor node ipc1).
  destruct (handle_link_failure_effect py_hash now neighbor node ipc1)
    as (_ & _ & _ & _ & Hrt & Hreg).
  fold r in Hrt, Hreg.
  assert (Hrun : inject_fault py_hash now "link_failure" target (Some neighbor)
                              interface s
                 = Done () (mkSim (dict_set (nodes s) target r.1) (Some r.2)
                                  (simulation_running s) (simulation_paused s)
                                  (events s
                                   ++ [ev_fault_injection "link_failure" target]))).
  { unfold inject_fault.
    replace (bool_decide ("link_failure" = "link_failure")) with true by done.
    cbn [andb _log_event nodes].
    assert (dict_mem (nodes s) target = true) as ->.
    { apply dict_mem_true. by rewrite Hnode. }
    assert (truthy (Some neighbor) = true) as ->.
    { simpl. by rewrite bool_decide_false. }
    unfold live.
    cbn [_log_event ipc_manager nodes events simulation_running simulation_paused].
    rewrite Hipc. unfold at_node. rewrite Hnode. cbn [default from_option id].
    fold ipc1. fold r. by destruct r. }
  assert (Hregs : ∃ new, message_queue r.2 = message_queue ipc ++ new ∧
                         Forall (λ x, ipc_source x = target ∧ ipc_target x ≠ neighbor)
                                new ∧
                         heap r.2 = heap ipc1 ∧ connections r.2 = connections ipc1).
  { rewrite Hreg. destruct (bool_decide (device_type (device node) = "router")).
    - destruct (broadcast_from_node_queue (name (device node))
                  (lsa_for (name (device node)) (_get_router_id py_hash node) now)
                  ipc1 Hrun1 Hnd1) as (new & Hq & Ht & Hf).
      destruct (foldl_send_frame (name (device node))
                  (lsa_for (name (device node)) (_get_router_id py_hash node) now)
                  (get_neighbors (name (device node)) ipc1) ipc1) as (Hh & Hc & _).
      exists new. split.
      { rewrite Hq. f_equal. unfold ipc1.
        apply (apply_op_message_queue ipc (OpDisable target neighbor)). }
      split; [|by split].
      apply Forall_forall. intros x Hx. split.
      { rewrite <- Hname. by apply (proj1 (Forall_forall _ _) Hf x Hx). }
      intros Hxt.
      assert (Hin : neighbor ∈ get_neighbors (name (device node)) ipc1).
      { rewrite <- Ht, <- Hxt. by apply list_elem_of_fmap_2. }
      apply get_neighbors_enabled in Hin; [|done]. rewrite Hname in Hin. congruence.
    - exists []. rewrite app_nil_r. split; [|by split].
      apply (apply_op_message_queue ipc (OpDisable target neighbor)). }
  destruct Hregs as (new & Hq & Hf & Hh & Hc).
  exists (mkSim (dict_set (nodes s) target r.1) (Some r.2)
                (simulation_running s) (simulation_paused s)
                (events s ++ [ev_fault_injection "link_failure" target])),
         r.1, r.2, new.
  split; [exact Hrun|]. cbn [events ipc_manager nodes].
  split; [done|]. split; [done|].
  split; [by rewrite (connection_enabled_same _ _ ipc1)|].
  split; [by rewrite (connection_enabled_same _ _ ipc1)|].
  split; [done|]. split; [done|].
  split; [apply dict_get_set_eq|]. split; [exact Hrt|].
  intros other Hne. by apply dict_get_set_ne.
Qed.

(** X21.  [inject_fault] with kind [interface_down], a registered target
    and an interface name: an interface the node knows is marked down, a
    name it does not know is ignored and creates no entry.  Either way the
    routing table, the address table and the operational flag of the node,
    every other node and the registry stay as they were. *)
Theorem inject_interface_down_spec (py_hash : string → Z) (now : Q)
    (target interface_name : string) (neighbor : option string)
    (s : NetworkSimulator) (node : NetworkNode) :
  dict_get (nodes s) target = Some node →
  interface_name ≠ "" →
  ∃ s' node',
    inject_fault py_hash now "interface_down" target neighbor (Some interface_name) s
    = Done () s' ∧
    events s' = events s ++ [ev_fault_injection "interface_down" target] ∧
    dict_get (nodes s') target = Some node' ∧
    interface_states node'
    = (if decide (is_Some (interface_states node !! interface_name))
       then <[interface_name := false]> (interface_states node)
       else interface_states node) ∧
    routing_table node' = routing_table node ∧
    arp_table node' = arp_table node ∧
    operational node' = operational node ∧
    (∀ other, other ≠ target → dict_get (nodes s') other = dict_get (nodes s) other) ∧
    ipc_manager s' = ipc_manager s.
Proof.
  intros Hnode Hname.
  exists (mkSim (dict_set (nodes s) target (simulate_interface_down interface_name node))
                (ipc_manager s) (simulation_running s) (simulation_paused s)
                (events s ++ [ev_fault_injection "interface_down" target])),
         (simulate_interface_down interface_name node).
  split.
  { unfold inject_fault.
    replace (bool_decide ("interface_down" = "link_failure")) with false by done.
    replace (bool_decide ("interface_down" = "device_failure")) with false by done.
    replace (bool_decide ("interface_down" = "interface_down")) with true by done.
    cbn [andb _log_event nodes ipc_manager simulation_running simulation_paused events].
    assert (dict_mem (nodes s) target = true) as ->.
    { apply dict_mem_true. by rewrite Hnode. }
    assert (truthy (Some interface_name) = true) as ->.
    { simpl. by rewrite bool_decide_false. }
    by rewrite Hnode. }
  cbn [events nodes ipc_manager].
  split; [done|]. split; [apply dict_get_set_eq|].
  unfold simulate_interface_down, _flush_interface_routes.
  destruct (interface_states node !! interface_name) as [b|] eqn:Hb.
  - rewrite decide_True by done. repeat split. intros other Hne.
    by apply dict_get_set_ne.
  - rewrite decide_False by (by intros [? ?]). repeat split. intros other Hne.
    by apply dict_get_set_ne.
Qed.

(** X22.  [inject_fault] with kind [link_failure] but no neighbour, or
    with kind [interface_down] but no interface, given as missing, [None] or
    the empty string, logs the injection and does nothing else, also when
    the target is registered and when there is no registry. *)
Theorem inject_fault_missing_argument (py_hash : string → Z) (now : Q)
    (fault_type target : string) (neighbor interface : option string)
    (s : NetworkSimulator) :
  (fault_type = "link_failure" ∧ truthy neighbor = false) ∨
  (fault_type = "interface_down" ∧ truthy interface = false) →
  inject_fault py_hash now fault_type target neighbor interface s
  = Done () (mkSim (nodes s) (ipc_manager s) (simulation_running s)
                   (simulation_paused s)
                   (events s ++ [ev_fault_injection fault_type target])).
Proof.
  intros [[-> Hnb] | [-> Hif]]; unfold inject_fault.
  - replace (bool_decide ("link_failure" = "link_failure")) with true by done.
    replace (bool_decide ("link_failure" = "device_failure")) with false by done.
    replace (bool_decide ("link_failure" = "interface_down")) with false by done.
    rewrite Hnb. cbn [andb _log_event nodes]. by destruct (dict_mem (nodes s) target).
  - replace (bool_decide ("interface_down" = "link_failure")) with false by done.
    replace (bool_decide ("interface_down" = "device_failure")) with false by done.
    replace (bool_decide ("interface_down" = "interface_down")) with true by done.
    rewrite Hif. cbn [andb _log_event nodes]. by destruct (dict_mem (nodes s) target).
Qed.

(** ** Instances of the fault properties *)

Lemma inject_link_failure_witness :
  ∃ s' ipc',
    inject_fault hash0 (clock0 0%nat) "link_failure" "R1" (Some "S1") None sim_three
    = Done () s' ∧
    ipc_manager s' = Some ipc' ∧
    connection_enabled "R1" "S1" ipc' = false ∧
    connection_enabled "S1" "R1" ipc' = false ∧
    dict_get (nodes s') "S1" = dict_get (nodes sim_three) "S1".
Proof.
  destruct (inject_link_failure_spec hash0 (clock0 0%nat) "R1" "S1" None sim_three
              (node_start (NetworkNode_init router_R1)) full_mesh_steps
              eq_refl eq_refl eq_refl ltac:(discriminate))
    as (s' & node' & ipc' & new & Hrun & _ & Hipc & H1 & H2 & _ & _ & _ & _ & Hother).
  exists s', ipc'. split; [exact Hrun|]. split; [exact Hipc|].
  split; [exact H1|]. split; [exact H2|]. apply Hother. discriminate.
Defined.

Lemma inject_interface_down_witness :
  ∃ s' node',
    inject_fault hash0 (clock0 0%nat) "interface_down" "R1" None (Some "Gi0/0") sim_three
    = Done () s' ∧
    dict_get (nodes s') "R1" = Some node' ∧
    interface_states node' !! "Gi0/0" = Some false ∧
    interface_states node' !! "Gi0/1" = Some true.
Proof.
  destruct (inject_interface_down_spec hash0 (clock0 0%nat) "R1" "Gi0/0" None sim_three
              (node_start (NetworkNode_init router_R1)) eq_refl ltac:(discriminate))
    as (s' & node' & Hrun & _ & Hnode & Hstates & _).
  exists s', node'. split; [exact Hrun|]. split; [exact Hnode|].
  rewrite Hstates. split; reflexivity.
Defined.

Lemma inject_fault_missing_argument_witness :
  inject_fault hash0 (clock0 0%nat) "link_failure" "R1" None None sim_three
  = Done () (mkSim (nodes sim_three) (ipc_manager sim_three)
                   (simulation_running sim_three) (simulation_paused sim_three)
                   (events sim_three ++ [ev_fault_injection "link_failure" "R1"])).
Proof.
  exact (inject_fault_missing_argument hash0 (clock0 0%nat) "link_failure" "R1"
           None None sim_three (or_introl (conj eq_refl eq_refl))).
Defined.

(** ** Scenario day2 *)

Lemma for_nodes_Forall (P Q : NetworkNode → Prop) (p : NetworkDevice → bool)
    body ns ipc evs :
  (∀ n ipc evs, P n → p (device n) = true → Q (body n ipc evs).1.1) →
  (∀ n, P n → p (device n) = false → Q n) →
  Forall (λ kn, P kn.2) ns →
  Forall (λ kn, Q kn.2)
         (for_nodes ((λ kn, p (device kn.2)) <$> ns) body ns ipc evs).1.1.
Proof.
  intros Hsel Hrest. revert ipc evs.
  induction ns as [|[k n] ns IH]; intros ipc evs Hall; [done|].
  apply Forall_cons in Hall as [Hn Hns]. simpl in Hn.
  rewrite fmap_cons. cbn [for_nodes snd].
  destruct (p (device n)) eqn:Hp.
  - specialize (Hsel n ipc evs Hn Hp).
    destruct (body n ipc evs) as [[n' ipc'] evs']. simpl in Hsel.
    specialize (IH ipc' evs' Hns).
    destruct (for_nodes _ body ns ipc' evs') as [[ns'' ipc''] evs''].
    simpl in *. by constructor.
  - specialize (IH ipc evs Hns).
    destruct (for_nodes _ body ns ipc evs) as [[ns'' ipc''] evs''].
    simpl in *. constructor; [by apply Hrest | done].
Qed.

Lemma live_Forall (Q : NetworkNode → Prop) k s s' :
  live k s = Done () s' →
  (∀ ipc, Forall (λ kn, Q kn.2) (k (nodes s) ipc (events s)).1.1) →
  Forall (λ kn, Q kn.2) (nodes s').
Proof.
  unfold live. destruct (ipc_manager s) as [ipc|]; [|done]. intros Hrun HQ.
  specialize (HQ ipc). destruct (k (nodes s) ipc (events s)) as [[ns ipc'] evs].
  by injection Hrun as <-.
Qed.

Lemma dict_set_existing (ns : list (string * NetworkNode)) key node node' :
  dict_get ns key = Some node → device node' = device node →
  (dict_set ns key node').*1 = ns.*1 ∧ devices_of (dict_set ns key node') = devices_of ns.
Proof.
  intros Hget Hdev. unfold devices_of.
  induction ns as [|[k n] ns IH]; [done|]. cbn [dict_set dict_get] in *.
  case_decide.
  - injection Hget as ->. rewrite !fmap_cons. simpl. by rewrite Hdev.
  - destruct (IH Hget) as [Hk Hd]. rewrite !fmap_cons. by rewrite Hk, Hd.
Qed.

Lemma at_node_frame key body ns ipc :
  (∀ n ipc, device (body n ipc).1 = device n) →
  (at_node key body ns ipc).1.*1 = ns.*1 ∧
  devices_of (at_node key body ns ipc).1 = devices_of ns.
Proof.
  intros Hbody. unfold at_node.
  destruct (dict_get ns key) as [node|] eqn:Hget; [|done].
  specialize (Hbody node ipc). destruct (body node ipc) as [node' ipc'].
  by apply (dict_set_existing ns key node).
Qed.

Lemma at_node_Forall (P : NetworkNode → Prop) key body ns ipc :
  (∀ n ipc, P n → P (body n ipc).1) →
  Forall (λ kn, P kn.2) ns → Forall (λ kn, P kn.2) (at_node key body ns ipc).1.
Proof.
  intros Hbody Hall. unfold at_node.
  destruct (dict_get ns key) as [node|] eqn:Hget; [|done].
  assert (Hn : P node) by apply (dict_get_Forall _ _ _ _ Hall Hget).
  specialize (Hbody node ipc Hn). destruct (body node ipc) as [node' ipc'].
  by apply dict_set_Forall.
Qed.

Lemma send_ospf_hello_same_tables py_hash n ipc :
  same_tables n (send_ospf_hello py_hash n ipc).1.
Proof.
  unfold send_ospf_hello. destruct (_ || _); [done|].
  generalize (filter (λ rp, protocol rp = "ospf") (routing_protocols (device n))).
  intros rps. revert n ipc.
  induction rps as [|rp rps IH]; intros n ipc; cbn [foldl]; [done|].
  unfold _broadcast_message.
  match goal with
  | |- same_tables _ (foldl _ (?n1, ?ipc1) rps).1 =>
      destruct (IH n1 ipc1) as (Hd & Ho & Hp & Hi & Ha & Hr)
  end.
  simpl in Hd, Ho, Hp, Hi, Ha, Hr. by repeat split.
Qed.

Lemma update_routing_table_frame n :
  device (update_routing_table n) = device n ∧
  operational (update_routing_table n) = operational n ∧
  interface_states (update_routing_table n) = interface_states n ∧
  arp_table (update_routing_table n) = arp_table n.
Proof. unfold update_routing_table. by destruct (_ || _). Qed.

Lemma reconverge_routing_frame py_hash n ipc :
  let r := reconverge_routing py_hash n ipc in
  device r.1 = device n ∧ operational r.1 = operational n ∧
  interface_states r.1 = interface_states n ∧ arp_table r.1 = arp_table n.
Proof.
  unfold reconverge_routing. destruct (negb _); [done|].
  destruct (send_ospf_hello_same_tables py_hash n ipc) as (Hd & Ho & _ & Hi & Ha & _).
  destruct (send_ospf_hello py_hash n ipc) as [n1 ipc1]. simpl in *.
  destruct (update_routing_table_frame n1) as (-> & -> & -> & ->). done.
Qed.

Lemma simulate_interface_change_frame n ipc :
  let r := simulate_interface_change n ipc in
  device r.1 = device n ∧ operational r.1 = operational n ∧
  routing_table r.1 = routing_table n ∧ arp_table r.1 = arp_table n.
Proof.
  unfold simulate_interface_change. destruct (interfaces (device n)) as [|i rest]; [done|].
  destruct (negb _); [|done].
  match goal with
  | |- context [perform_arp_discovery ?n1 ipc] =>
      destruct (perform_arp_discovery_same_tables n1 ipc) as (Hd & Ho & _ & _ & Ha & Hr)
  end.
  done.
Qed.

Lemma link_failures_appends py_hash random_sample2 clock s :
  is_Some (ipc_manager s) →
  ∃ s', _simulate_link_failures py_hash random_sample2 clock s = Done () s' ∧
        phase_appends (link_failure_events random_sample2 (nodes s).*1) s s' ∧
        (Forall (λ kn, operational kn.2 = true) (nodes s) →
         Forall (λ kn, operational kn.2 = true) (nodes s')).
Proof.
  intros Hipc.
  assert (Hdev : ∀ now nb n ipc,
            device (handle_link_failure py_hash now nb n ipc).1 = device n).
  { intros. apply handle_link_failure_effect. }
  assert (Hop : ∀ now nb n ipc,
            operational n = true →
            operational (handle_link_failure py_hash now nb n ipc).1 = true).
  { intros now nb n ipc Hn.
    destruct (handle_link_failure_effect py_hash now nb n ipc) as (_ & -> & _). done. }
  destruct (live_appends
              (λ ns ipc evs,
                 let available_nodes := dict_keys ns in
                 if (2 <=? length available_nodes)%nat then
                   let '(node1, node2) := random_sample2 available_nodes in
                   let evs1 :=
                     evs ++ [mkEvent "link_failure"
                               ("Link failure between " ++ node1 ++ " and " ++ node2)
                               None] in
                   let ipc1 := disable_connection node1 node2 ipc in
                   let '(ns2, ipc2) :=
                     at_node node1 (handle_link_failure py_hash (clock 0%nat) node2)
                             ns ipc1 in
                   let '(ns3, ipc3) :=
                     at_node node2 (handle_link_failure py_hash (clock 1%nat) node1)
                             ns2 ipc2 in
                   (ns3, ipc3, evs1)
                 else (ns, ipc, evs))
              (link_failure_events random_sample2 (nodes s).*1) s Hipc)
    as (s' & Hrun & Happ).
  { intros ipc. unfold link_failure_events, dict_keys. cbv zeta.
    destruct (2 <=? length (nodes s).*1)%nat; [|exists (nodes s), ipc; by rewrite app_nil_r].
    destruct (random_sample2 (nodes s).*1) as [node1 node2] eqn:Hpair.
    pose proof (at_node_frame node1 (handle_link_failure py_hash (clock 0%nat) node2)
                  (nodes s) (disable_connection node1 node2 ipc) (Hdev _ _)) as [Hk2 Hd2].
    destruct (at_node node1 _ (nodes s) _) as [ns2 ipc2]. simpl in Hk2, Hd2.
    pose proof (at_node_frame node2 (handle_link_failure py_hash (clock 1%nat) node1)
                  ns2 ipc2 (Hdev _ _)) as [Hk3 Hd3].
    destruct (at_node node2 _ ns2 ipc2) as [ns3 ipc3]. simpl in Hk3, Hd3.
    exists ns3, ipc3. split; [done|]. split; congruence. }
  exists s'. split; [exact Hrun|]. split; [exact Happ|].
  intros Hall. apply (live_Forall (λ n, operational n = true) _ s s' Hrun).
  intros ipc. unfold dict_keys. cbv zeta.
  destruct (2 <=? length (nodes s).*1)%nat; [|done].
  destruct (random_sample2 (nodes s).*1) as [node1 node2].
  pose proof (at_node_Forall (λ n, operational n = true) node1
                (handle_link_failure py_hash (clock 0%nat) node2)
                (nodes s) (disable_connection node1 node2 ipc) (Hop _ _) Hall) as H2.
  destruct (at_node node1 _ (nodes s) _) as [ns2 ipc2]. simpl in H2.
  pose proof (at_node_Forall (λ n, operational n = true) node2
                (handle_link_failure py_hash (clock 1%nat) node1)
                ns2 ipc2 (Hop _ _) H2) as H3.
  by destruct (at_node node2 _ ns2 ipc2) as [ns3 ipc3].
Qed.

Lemma concat_fmap_nil {A B} (f : A → list B) (l : list A) :
  (∀ x, f x = []) → concat (f <$> l) = [].
Proof.
  intros Hf. induction l as [|x l IH]; [done|].
  rewrite fmap_cons. cbn [concat]. by rewrite Hf, IH.
Qed.

Lemma network_recovery_appends py_hash s :
  is_Some (ipc_manager s) →
  ∃ s', _simulate_network_recovery py_hash s = Done () s' ∧
        phase_appends [mkEvent "recovery_start" "Starting network recovery" None;
                       mkEvent "recovery_complete" "Network recovery completed" None]
                      s s' ∧
        (Forall (λ kn, operational kn.2 = true) (nodes s) →
         Forall (λ kn, operational kn.2 = true) (nodes s')).
Proof.
  intros Hipc. unfold _simulate_network_recovery.
  set (s1 := _log_event "recovery_start" "Starting network recovery" None s).
  assert (Hipc1 : is_Some (ipc_manager s1)) by done.
  destruct (live_appends
              (λ ns ipc evs,
                 for_nodes (of_type "router" ns)
                   (λ node ipc' evs',
                      let '(node', ipc'') := reconverge_routing py_hash node ipc' in
                      (node', ipc'', evs'))
                   ns (enable_all_connections ipc) evs)
              [] s1 Hipc1) as (s2 & Hrun & Happ).
  { intros ipc.
    assert (Hbody : ∀ n ipc evs, ∃ n' ipc',
              (let '(node', ipc'') := reconverge_routing py_hash n ipc in
               (node', ipc'', evs))
              = (n', ipc', evs ++ (λ _ : NetworkDevice, @nil Event) (device n)) ∧
              device n' = device n).
    { intros n ipc0 evs.
      pose proof (reconverge_routing_frame py_hash n ipc0) as (Hd & _).
      destruct (reconverge_routing py_hash n ipc0) as [n' ipc'].
      exists n', ipc'. by rewrite app_nil_r. }
    run_for_nodes (is_type "router") (λ _ : NetworkDevice, @nil Event) Hbody ns' ipc' Hk Hd.
    exists ns', ipc'. split; [|done]. f_equal. f_equal.
    apply concat_fmap_nil. intros d. by destruct (is_type "router" d). }
  rewrite Hrun. cbn [bind]. eexists. split; [reflexivity|]. split.
  - destruct Happ as (Hi & Hk & Hd & Hp & He).
    split; [done|]. cbn [_log_event nodes simulation_paused events].
    split; [done|]. split; [done|]. split; [done|].
    rewrite He. unfold s1. cbn [_log_event events]. by rewrite app_nil_r, <- app_assoc.
  - intros Hall. cbn [_log_event nodes].
    apply (live_Forall (λ n, operational n = true) _ s1 s2 Hrun).
    intros ipc. rewrite of_type_is_type.
    apply (for_nodes_Forall (λ n, operational n = true) (λ n, operational n = true)
             (is_type "router")); [| done | done].
    intros n ipc0 evs Hn _.
    pose proof (reconverge_routing_frame py_hash n ipc0) as (_ & Ho & _).
    destruct (reconverge_routing py_hash n ipc0) as [n' ipc']. simpl in *. congruence.
Qed.

Lemma router_positions_elem (devices : list NetworkDevice) (i : nat) :
  i ∈ router_positions devices
  ↔ ∃ d, devices !! i = Some d ∧ is_type "router" d = true.
Proof.
  unfold router_positions. rewrite list_elem_of_filter, elem_of_seq, list_lookup_fmap.
  split.
  - intros [Hsel _]. destruct (devices !! i) as [d|]; [|done]. by exists d.
  - intros (d & Hd & Hr). rewrite Hd. split; [done|].
    apply lookup_lt_Some in Hd. lia.
Qed.

Lemma config_change_events_kinds random_choice devices :
  choice_in_range random_choice →
  ev_type <$> config_change_events random_choice devices
  = if existsb (is_type "router") devices then ["config_change"] else [].
Proof.
  intros Hrange. unfold config_change_events.
  destruct (existsb (is_type "router") devices) eqn:Hex.
  - apply existsb_exists in Hex as (d & Hd & Hr).
    apply list_elem_of_In, list_elem_of_lookup in Hd as [i Hi].
    assert (Hin : i ∈ router_positions devices).
    { apply router_positions_elem. by exists d. }
    assert (Hlen : (0 < length (router_positions devices))%nat).
    { destruct (router_positions devices); [by apply elem_of_nil in Hin | simpl; lia]. }
    destruct (lookup_lt_is_Some_2 _ _ (Hrange _ Hlen)) as [j Hj]. rewrite Hj.
    apply list_elem_of_lookup_2, router_positions_elem in Hj as (d' & -> & _). done.
  - destruct (router_positions devices) as [|i l] eqn:Hpos; [done|]. exfalso.
    assert (Hin : i ∈ router_positions devices) by (rewrite Hpos; left).
    apply router_positions_elem in Hin as (d & Hd & Hr).
    apply not_true_iff_false in Hex. apply Hex, existsb_exists. exists d.
    split; [|done]. by eapply list_elem_of_In, list_elem_of_lookup_2.
Qed.

Lemma configuration_changes_appends random_choice s :
  is_Some (ipc_manager s) →
  ∃ s', _simulate_configuration_changes random_choice s = Done () s' ∧
        phase_appends (config_change_events random_choice (devices_of (nodes s))) s s' ∧
        (Forall (λ kn, operational kn.2 = true) (nodes s) →
         Forall (λ kn, operational kn.2 = true) (nodes s')).
Proof.
  intros Hipc.
  assert (Hpos : filter (λ i, default false (of_type "router" (nodes s) !! i) = true)
                        (seq 0 (length (nodes s)))
                 = router_positions (devices_of (nodes s))).
  { unfold router_positions, devices_of, of_type, is_type.
    by rewrite length_fmap, <- list_fmap_compose. }
  destruct (live_appends
              (λ ns ipc evs,
                 let routers :=
                   filter (λ i, default false (of_type "router" ns !! i) = true)
                          (seq 0 (length ns)) in
                 match routers !! random_choice (length routers) with
                 | Some i =>
                     match ns !! i with
                     | Some (key, router) =>
                         let evs1 :=
                           evs ++ [mkEvent "config_change"
                                     ("Configuration change on " ++ name (device router))
                                     (Some (name (device router)))] in
                         let '(router', ipc') := simulate_interface_change router ipc in
                         (<[i := (key, router')]> ns, ipc', evs1)
                     | None => (ns, ipc, evs)
                     end
                 | None => (ns, ipc, evs)
                 end)
              (config_change_events random_choice (devices_of (nodes s))) s Hipc)
    as (s' & Hrun & Happ).
  { intros ipc. cbv zeta. rewrite Hpos. unfold config_change_events.
    destruct (router_positions (devices_of (nodes s)) !! _) as [i|];
      [|exists (nodes s), ipc; by rewrite app_nil_r].
    assert (Hdi : devices_of (nodes s) !! i = (λ kn, device kn.2) <$> (nodes s !! i))
      by apply list_lookup_fmap.
    rewrite Hdi. clear Hdi.
    destruct (nodes s !! i) as [[key router]|] eqn:Hi;
      [|exists (nodes s), ipc; by rewrite app_nil_r].
    pose proof (simulate_interface_change_frame router ipc) as (Hd & _).
    destruct (simulate_interface_change router ipc) as [router' ipc']. simpl in Hd.
    exists (<[i := (key, router')]> (nodes s)), ipc'. split; [done|].
    unfold devices_of. rewrite !list_fmap_insert. simpl. rewrite Hd.
    split; apply list_insert_id; by rewrite list_lookup_fmap, Hi. }
  exists s'. split; [exact Hrun|]. split; [exact Happ|].
  intros Hall. apply (live_Forall (λ n, operational n = true) _ s s' Hrun).
  intros ipc. cbv zeta.
  destruct (_ !! random_choice _) as [i|]; [|done].
  destruct (nodes s !! i) as [[key router]|] eqn:Hi; [|done].
  pose proof (simulate_interface_change_frame router ipc) as (_ & Ho & _).
  destruct (simulate_interface_change router ipc) as [router' ipc']. simpl in *.
  apply Forall_insert; [done|]. simpl. rewrite Ho.
  by apply (proj1 (Forall_lookup _ _) Hall i (key, router)).
Qed.

Section Day2Run.
Variable py_hash : string → Z.
Variable random_sample2 : list string → string * string.
Variable random_choice : nat → nat.
Variable clock : nat → Q.

Lemma phase_start_nodes message s s' :
  phase_start message s = Done () s' → nodes s' = nodes s.
Proof. unfold phase_start. by intros [= <-]. Qed.

Lemma run_day2_scenario_appends s :
  is_Some (ipc_manager s) →
  ∃ s', _run_day2_scenario py_hash random_sample2 random_choice clock s = Done () s' ∧
        phase_appends
          ([mkEvent "network_stable" "Network reached stable state" None]
           ++ [mkEvent "phase_start" "Phase 1: Normal network operation" None]
           ++ [mkEvent "phase_start" "Phase 2: Link failure simulation" None]
           ++ link_failure_events random_sample2 (nodes s).*1
           ++ [mkEvent "phase_start" "Phase 3: Network recovery" None]
           ++ [mkEvent "recovery_start" "Starting network recovery" None;
               mkEvent "recovery_complete" "Network recovery completed" None]
           ++ [mkEvent "phase_start" "Phase 4: Configuration change impact" None]
           ++ config_change_events random_choice (devices_of (nodes s)))
          s s' ∧
        Forall (λ kn, operational kn.2 = true) (nodes s').
Proof.
  intros H0. unfold _run_day2_scenario.
  destruct (network_stabilization_appends s H0) as (s1 & -> & A1 & O1). cbn [bind].
  destruct (phase_start_appends "Phase 1: Normal network operation" s1 (proj1 A1))
    as (s2 & E2 & A2).
  pose proof (phase_start_nodes _ _ _ E2) as N2. rewrite E2. cbn [bind].
  destruct (phase_start_appends "Phase 2: Link failure simulation" s2 (proj1 A2))
    as (s3 & E3 & A3).
  pose proof (phase_start_nodes _ _ _ E3) as N3. rewrite E3. cbn [bind].
  destruct (link_failures_appends py_hash random_sample2 clock s3 (proj1 A3))
    as (s4 & -> & A4 & O4). cbn [bind].
  destruct (phase_start_appends "Phase 3: Network recovery" s4 (proj1 A4))
    as (s5 & E5 & A5).
  pose proof (phase_start_nodes _ _ _ E5) as N5. rewrite E5. cbn [bind].
  destruct (network_recovery_appends py_hash s5 (proj1 A5)) as (s6 & -> & A6 & O6).
  cbn [bind].
  destruct (phase_start_appends "Phase 4: Configuration change impact" s6 (proj1 A6))
    as (s7 & E7 & A7).
  pose proof (phase_start_nodes _ _ _ E7) as N7. rewrite E7. cbn [bind].
  destruct (configuration_changes_appends random_choice s7 (proj1 A7))
    as (s8 & -> & A8 & O8).
  exists s8. split; [done|]. split.
  - assert (K3 : (nodes s3).*1 = (nodes s).*1).
    { rewrite N3, N2. apply A1. }
    assert (D7 : devices_of (nodes s7) = devices_of (nodes s)).
    { rewrite N7. destruct A6 as (_ & _ & -> & _). rewrite N5.
      destruct A4 as (_ & _ & -> & _). rewrite N3, N2. apply A1. }
    rewrite K3 in A4. rewrite D7 in A8.
    eapply phase_appends_trans; [exact A1|].
    eapply phase_appends_trans; [exact A2|].
    eapply phase_appends_trans; [exact A3|].
    eapply phase_appends_trans; [exact A4|].
    eapply phase_appends_trans; [exact A5|].
    eapply phase_appends_trans; [exact A6|].
    eapply phase_appends_trans; [exact A7|]. exact A8.
  - apply O8. rewrite N7. apply O6. rewrite N5. apply O4. by rewrite N3, N2.
Qed.

(** A day2 run over devices with distinct names, on an orchestrator with no
    nodes and an empty log. *)
Lemma run_simulation_day2 topology devices s :
  nodes s = [] → events s = [] → NoDup (name <$> devices) →
  ∃ result s',
    run_simulation py_hash random_sample2 random_choice clock
                   topology devices "day2" s = Done result s' ∧
    res_scenario result = "day2" ∧
    res_events result = day2_events random_sample2 random_choice devices ∧
    (λ kn, (kn.1, st_operational kn.2)) <$> res_node_states result
    = (λ d, (name d, true)) <$> devices ∧
    total_events (res_statistics result) = Z.of_nat (length (res_events result)).
Proof.
  intros Hnodes Hevents Hnd.
  destruct (initialize_simulation_fresh topology devices s Hnodes Hnd)
    as (Hipc & Hns & _ & Hev).
  destruct (run_day2_scenario_appends _ Hipc) as (s2 & Hrun & Happ & Hop).
  unfold run_simulation, run_simulation_try.
  replace (bool_decide ("day2" = "day1")) with false by done.
  replace (bool_decide ("day2" = "day2")) with true by done.
  rewrite Hrun. cbn [bind].
  eexists _, _. split; [reflexivity|].
  cbn [res_scenario res_events res_node_states res_statistics].
  destruct Happ as (_ & Hkeys & Hdevs & _ & Hevs).
  assert (Hd : devices_of (nodes (_initialize_simulation topology devices s)) = devices).
  { rewrite Hns. unfold devices_of. rewrite <- list_fmap_compose.
    rewrite <- (list_fmap_id devices) at 2. apply list_fmap_ext. intros _ d _.
    unfold node_start, NetworkNode_init. reflexivity. }
  assert (Hk : (nodes (_initialize_simulation topology devices s)).*1 = name <$> devices).
  { rewrite Hns, <- list_fmap_compose. reflexivity. }
  split; [done|]. split; [|split; [|done]].
  - rewrite Hevs, Hev, Hevents, Hd, Hk. unfold day2_events.
    rewrite <- !app_assoc. reflexivity.
  - unfold _collect_node_states. rewrite <- list_fmap_compose.
    transitivity ((λ k, (k, true)) <$> (nodes s2).*1).
    + rewrite <- list_fmap_compose. apply Forall_fmap_ext_1.
      eapply Forall_impl; [exact Hop|]. intros [k n] Hn. simpl in *.
      unfold is_operational. by rewrite Hn.
    + rewrite Hkeys, Hk, <- !list_fmap_compose. reflexivity.
Qed.
End Day2Run.

(** X23.  A day2 run over devices with distinct names on a fresh
    orchestrator returns normally.  Its log is: the start of the simulation,
    the stable network, two phase starts, one link failure when there are at
    least two devices, a phase start, start and completion of the recovery,
    a phase start, and one configuration change when there is a router.
    Every device is reported, in the order given, as operational, and
    [total_events] is the length of the log. *)
Theorem day2_run (py_hash : string → Z)
    (random_sample2 : list string → string * string) (random_choice : nat → nat)
    (clock : nat → Q) (topology : NetworkTopology) (devices : list NetworkDevice) :
  NoDup (name <$> devices) →
  choice_in_range random_choice →
  ∃ result s',
    run_simulation py_hash random_sample2 random_choice clock
                   topology devices "day2" NetworkSimulator_init = Done result s' ∧
    res_events result = day2_events random_sample2 random_choice devices ∧
    ev_type <$> res_events result
    = ["simulation_started"; "network_stable"; "phase_start"; "phase_start"]
      ++ (if (2 <=? length devices)%nat then ["link_failure"] else [])
      ++ ["phase_start"; "recovery_start"; "recovery_complete"; "phase_start"]
      ++ (if existsb (is_type "router") devices then ["config_change"] else []) ∧
    (res_node_states result).*1 = name <$> devices ∧
    Forall (λ kn, st_operational kn.2 = true) (res_node_states result) ∧
    total_events (res_statistics result) = Z.of_nat (length (res_events result)).
Proof.
  intros Hnd Hrange.
  destruct (run_simulation_day2 py_hash random_sample2 random_choice clock
              topology devices NetworkSimulator_init eq_refl eq_refl Hnd)
    as (result & s' & Hrun & _ & Hev & Hst & Htotal).
  exists result, s'. split; [exact Hrun|]. split; [exact Hev|].
  split; [|split; [|split; [|exact Htotal]]].
  - rewrite Hev. unfold day2_events.
    rewrite !fmap_app, (config_change_events_kinds _ _ Hrange).
    unfold link_failure_events. rewrite length_fmap.
    by destruct (2 <=? length devices)%nat.
  - apply (f_equal (fmap fst)) in Hst. rewrite <- !list_fmap_compose in Hst.
    exact Hst.
  - apply (f_equal (fmap snd)) in Hst. rewrite <- !list_fmap_compose in Hst.
    apply Forall_fmap with (f := λ kn : string * NodeState, st_operational kn.2)
                           (P := λ b : bool, b = true).
    change (fmap (snd ∘ _) (res_node_states result))
      with ((λ kn : string * NodeState, st_operational kn.2) <$> res_node_states result)
      in Hst.
    rewrite Hst. apply Forall_fmap, Forall_true. done.
Qed.

Lemma day2_run_witness :
  ∃ result s',
    run_simulation hash0 sample0 choice0 clock0
                   full_mesh three_devices "day2" NetworkSimulator_init
    = Done result s' ∧
    ev_type <$> res_events result
    = ["simulation_started"; "network_stable"; "phase_start"; "phase_start";
       "link_failure"; "phase_start"; "recovery_start"; "recovery_complete";
       "phase_start"; "config_change"] ∧
    (res_node_states result).*1 = ["R1"; "S1"; "PC1"].
Proof.
  assert (Hnd : NoDup (name <$> three_devices)).
  { apply (proj2 (NoDup_ListNoDup _)). repeat constructor; simpl; intuition discriminate. }
  assert (Hrange : choice_in_range choice0).
  { intros k Hk. exact Hk. }
  destruct (day2_run hash0 sample0 choice0 clock0 full_mesh three_devices Hnd Hrange)
    as (result & s' & Hrun & _ & Hkinds & Hkeys & _).
  exists result, s'. split; [exact Hrun|]. split; [exact Hkinds | exact Hkeys].
Defined.

(** ** Node states after day1 *)

Lemma shows_same_tables op states routes n n' :
  same_tables n n' → shows op states routes n → shows op states routes n'.
Proof.
  intros (Hd & Ho & _ & Hi & Ha & Hr) (H1 & H2 & H3 & H4).
  unfold shows. by rewrite Hd, Ho, Hi, Ha, Hr.
Qed.

Lemma of_kinds_snoc types t d :
  of_kinds (types ++ [t]) d = of_kinds types d || is_type t d.
Proof. unfold of_kinds. rewrite existsb_app. simpl. by rewrite orb_false_r. Qed.

Lemma of_kinds_other types t d :
  t ∉ types → is_type t d = true → of_kinds types d = false.
Proof.
  intros Hnotin Ht. apply bool_decide_eq_true in Ht.
  apply not_true_iff_false. intros Hex. apply Hnotin.
  apply existsb_exists in Hex as (t' & Hin & Ht').
  apply bool_decide_eq_true in Ht'. apply list_elem_of_In in Hin. congruence.
Qed.

Lemma power_on_shows types t n :
  t ∉ types → is_type t (device n) = true →
  shows (of_kinds types) (states_after types) (λ _, ∅) n →
  shows (of_kinds (types ++ [t])) (states_after (types ++ [t])) (λ _, ∅) (power_on n).
Proof.
  intros Hnotin Ht (Hop & Hst & Hrt & Harp).
  unfold shows, states_after in *.
  rewrite (of_kinds_other types t _ Hnotin Ht) in Hst.
  change (device (power_on n)) with (device n).
  rewrite of_kinds_snoc, Ht, orb_true_r.
  split; [done|]. split; [|done].
  unfold up_states, power_on, init_states in *. simpl. by rewrite Hst.
Qed.

Lemma startup_pass_shows types t ns ipc evs :
  t ∉ types →
  Forall (λ kn, shows (of_kinds types) (states_after types) (λ _, ∅) kn.2) ns →
  Forall (λ kn, shows (of_kinds (types ++ [t])) (states_after (types ++ [t]))
                      (λ _, ∅) kn.2)
         (for_nodes (of_type t ns)
            (λ node ipc'' evs'',
               (power_on node, ipc'',
                evs'' ++ [mkEvent "device_startup"
                            ("Device " ++ name (device node) ++ " starting up")
                            (Some (name (device node)))]))
            ns ipc evs).1.1.
Proof.
  intros Hnotin Hall. rewrite of_type_is_type.
  apply (for_nodes_Forall
           (shows (of_kinds types) (states_after types) (λ _, ∅))
           (shows (of_kinds (types ++ [t])) (states_after (types ++ [t])) (λ _, ∅))
           (is_type t)); [| | done].
  - intros n ipc0 evs0 Hn Ht. simpl. by apply power_on_shows.
  - intros n (Hop & Hst & Hrt & Harp) Ht. unfold shows, states_after in *.
    by rewrite of_kinds_snoc, Ht, orb_false_r.
Qed.

Lemma device_startup_shows s s' :
  _simulate_device_startup s = Done () s' →
  Forall (λ kn, shows (λ _, false) init_states (λ _, ∅) kn.2) (nodes s) →
  Forall (λ kn, shows starts_up (states_after ["router"; "switch"; "firewall"])
                      (λ _, ∅) kn.2) (nodes s').
Proof.
  intros Hrun Hall.
  apply (live_Forall (shows starts_up (states_after ["router"; "switch"; "firewall"])
                            (λ _, ∅)) _ s s' Hrun).
  intros ipc. cbn [foldl].
  pose proof (startup_pass_shows [] "router" (nodes s) ipc (events s)
                ltac:(apply not_elem_of_nil) Hall) as H1.
  destruct (for_nodes (of_type "router" (nodes s)) _ (nodes s) ipc (events s))
    as [[ns1 ipc1] evs1]. simpl in H1.
  pose proof (startup_pass_shows ["router"] "switch" ns1 ipc1 evs1
                ltac:(by intros [?|?%elem_of_nil]%elem_of_cons) H1) as H2.
  destruct (for_nodes (of_type "switch" ns1) _ ns1 ipc1 evs1) as [[ns2 ipc2] evs2].
  simpl in H2.
  exact (startup_pass_shows ["router"; "switch"] "firewall" ns2 ipc2 evs2
           ltac:(by intros [?|[?|?%elem_of_nil]%elem_of_cons]%elem_of_cons) H2).
Qed.

Lemma arp_discovery_shows op states routes s s' :
  _simulate_arp_discovery s = Done () s' →
  Forall (λ kn, shows op states routes kn.2) (nodes s) →
  Forall (λ kn, shows op states routes kn.2) (nodes s').
Proof.
  intros Hrun Hall. apply (live_Forall (shows op states routes) _ s s' Hrun).
  intros ipc. rewrite all_nodes_true.
  apply (for_nodes_Forall (shows op states routes) (shows op states routes)
                          (λ _, true)); [| done | done].
  intros n ipc0 evs0 Hn _.
  pose proof (perform_arp_discovery_same_tables n ipc0) as Hsame.
  destruct (perform_arp_discovery n ipc0) as [n' ipc']. simpl in *.
  by eapply shows_same_tables.
Qed.

Lemma update_routing_table_shows states n :
  is_type "router" (device n) = true →
  shows starts_up states (λ _, ∅) n →
  shows starts_up states routes_after (update_routing_table n).
Proof.
  intros Hr (Hop & Hst & Hrt & Harp).
  destruct (update_routing_table_frame n) as (Hd & Ho & Hi & Ha).
  unfold shows. rewrite Hd, Ho, Hi, Ha. split; [done|]. split; [done|].
  split; [|done].
  assert (Hup : starts_up (device n) = true).
  { unfold starts_up, of_kinds. simpl. by rewrite Hr. }
  unfold update_routing_table, routes_after. rewrite Hr, Hop, Hup.
  unfold is_type in Hr. rewrite Hr. simpl. by rewrite Hrt.
Qed.

Lemma routing_convergence_shows py_hash states s s' :
  _simulate_routing_convergence py_hash s = Done () s' →
  Forall (λ kn, shows starts_up states (λ _, ∅) kn.2) (nodes s) →
  Forall (λ kn, shows starts_up states routes_after kn.2) (nodes s').
Proof.
  intros Hrun Hall.
  apply (live_Forall (shows starts_up states routes_after) _ s s' Hrun).
  intros ipc. cbv zeta.
  assert (H1 : Forall (λ kn, shows starts_up states (λ _, ∅) kn.2)
                 (for_nodes (of_type "router" (nodes s))
                    (λ node ipc' evs',
                       if existsb (λ rp, bool_decide (protocol rp = "ospf"))
                                  (routing_protocols (device node))
                       then
                         let evs'' :=
                           evs' ++ [mkEvent "ospf_hello"
                                      ("Router " ++ name (device node)
                                       ++ " sending OSPF hello packets")
                                      (Some (name (device node)))] in
                         let '(node', ipc'') := send_ospf_hello py_hash node ipc' in
                         (node', ipc'', evs'')
                       else (node, ipc', evs'))
                    (nodes s) ipc (events s)).1.1).
  { rewrite of_type_is_type.
    apply (for_nodes_Forall (shows starts_up states (λ _, ∅))
                            (shows starts_up states (λ _, ∅))
                            (is_type "router")); [| done | done].
    intros n ipc0 evs0 Hn _. destruct (existsb _ _); [|done].
    pose proof (send_ospf_hello_same_tables py_hash n ipc0) as Hsame.
    destruct (send_ospf_hello py_hash n ipc0) as [n' ipc']. simpl in *.
    by eapply shows_same_tables. }
  assert (Hsel : of_type "router" (nodes s)
                 = of_type "router"
                     (for_nodes (of_type "router" (nodes s))
                        (λ node ipc' evs',
                           if existsb (λ rp, bool_decide (protocol rp = "ospf"))
                                      (routing_protocols (device node))
                           then
                             let evs'' :=
                               evs' ++ [mkEvent "ospf_hello"
                                          ("Router " ++ name (device node)
                                           ++ " sending OSPF hello packets")
                                          (Some (name (device node)))] in
                             let '(node', ipc'') := send_ospf_hello py_hash node ipc' in
                             (node', ipc'', evs'')
                           else (node, ipc', evs'))
                        (nodes s) ipc (events s)).1.1).
  { rewrite !of_type_is_type.
    match goal with
    | |- context [for_nodes _ ?body (nodes s) ipc (events s)] =>
        destruct (for_nodes_by_device (is_type "router")
                    (λ d, if has_ospf d then [ev_ospf_hello d] else [])
                    body (nodes s) ipc (events s)) as (ns' & ipc' & -> & _ & Hd)
    end.
    { intros n ipc0 evs0. unfold has_ospf. destruct (existsb _ _).
      - pose proof (send_ospf_hello_device py_hash n ipc0) as Hd.
        destruct (send_ospf_hello py_hash n ipc0) as [n' ipc']. by exists n', ipc'.
      - exists n, ipc0. by rewrite app_nil_r. }
    simpl. unfold devices_of in Hd.
    change ((λ kn : string * NetworkNode, is_type "router" (device kn.2)))
      with (is_type "router" ∘ (λ kn : string * NetworkNode, device kn.2)).
    by rewrite !list_fmap_compose, Hd. }
  destruct (for_nodes (of_type "router" (nodes s)) _ (nodes s) ipc (events s))
    as [[ns1 ipc1] evs1]. simpl in H1, Hsel. rewrite Hsel, of_type_is_type.
  apply (for_nodes_Forall (shows starts_up states (λ _, ∅))
                          (shows starts_up states routes_after)
                          (is_type "router")); [| | done].
  - intros n ipc0 evs0 Hn Hr. simpl. by apply update_routing_table_shows.
  - intros n (Hop & Hst & Hrt & Harp) Hr. unfold shows, routes_after.
    by rewrite Hr.
Qed.

Lemma network_stabilization_shows op states routes s s' :
  _simulate_network_stabilization s = Done () s' →
  Forall (λ kn, shows op states routes kn.2) (nodes s) →
  Forall (λ kn, shows (λ _, true) states routes kn.2) (nodes s').
Proof.
  unfold _simulate_network_stabilization. intros [= <-] Hall. cbn [nodes _log_event].
  apply Forall_fmap. eapply Forall_impl; [exact Hall|].
  intros [k n] (Hop & Hst & Hrt & Harp). by repeat split.
Qed.

Lemma connected_routes_lookup (d : NetworkDevice) (i : string) :
  connected_routes d !! i
  = if decide (i ∈ announced_networks d) then Some "directly_connected" else None.
Proof.
  unfold connected_routes, announced_networks. rewrite foldl_networks_lookup.
  by rewrite lookup_empty.
Qed.

Lemma connected_routes_size (d : NetworkDevice) :
  size (connected_routes d) = length (remove_dups (announced_networks d)).
Proof.
  rewrite <- (size_dom (D := gset string)).
  assert (dom (connected_routes d)
          = (list_to_set (remove_dups (announced_networks d)) : gset string)) as ->.
  { apply set_eq. intros i.
    rewrite elem_of_dom, elem_of_list_to_set, elem_of_remove_dups,
      connected_routes_lookup.
    case_decide; split; try done; by intros [? ?]. }
  apply size_list_to_set, NoDup_remove_dups.
Qed.

Section Day1States.
Variable py_hash : string → Z.
Variable random_sample2 : list string → string * string.
Variable random_choice : nat → nat.
Variable clock : nat → Q.

Lemma run_day1_scenario_shows s :
  is_Some (ipc_manager s) →
  Forall (λ kn, shows (λ _, false) init_states (λ _, ∅) kn.2) (nodes s) →
  ∃ s', _run_day1_scenario py_hash s = Done () s' ∧
        (nodes s').*1 = (nodes s).*1 ∧
        devices_of (nodes s') = devices_of (nodes s) ∧
        Forall (λ kn, shows (λ _, true) (states_after ["router"; "switch"; "firewall"])
                            routes_after kn.2) (nodes s').
Proof.
  intros H0 Hall. unfold _run_day1_scenario.
  destruct (phase_start_appends "Phase 1: Device power-on sequence" s H0)
    as (s1 & E1 & A1).
  pose proof (phase_start_nodes _ _ _ E1) as N1. rewrite E1. cbn [bind].
  destruct (device_startup_appends s1 (proj1 A1)) as (s2 & E2 & A2).
  rewrite <- N1 in Hall. pose proof (device_startup_shows _ _ E2 Hall) as S2.
  rewrite E2. cbn [bind].
  destruct (phase_start_appends "Phase 2: ARP and neighbor discovery" s2 (proj1 A2))
    as (s3 & E3 & A3).
  pose proof (phase_start_nodes _ _ _ E3) as N3. rewrite E3. cbn [bind].
  destruct (arp_discovery_appends s3 (proj1 A3)) as (s4 & E4 & A4).
  rewrite <- N3 in S2. pose proof (arp_discovery_shows _ _ _ _ _ E4 S2) as S4.
  rewrite E4. cbn [bind].
  destruct (phase_start_appends "Phase 3: Routing protocol convergence" s4 (proj1 A4))
    as (s5 & E5 & A5).
  pose proof (phase_start_nodes _ _ _ E5) as N5. rewrite E5. cbn [bind].
  destruct (routing_convergence_appends py_hash s5 (proj1 A5)) as (s6 & E6 & A6).
  rewrite <- N5 in S4. pose proof (routing_convergence_shows _ _ _ _ E6 S4) as S6.
  rewrite E6. cbn [bind].
  destruct (phase_start_appends "Phase 4: Network stabilization" s6 (proj1 A6))
    as (s7 & E7 & A7).
  pose proof (phase_start_nodes _ _ _ E7) as N7. rewrite E7. cbn [bind].
  destruct (network_stabilization_appends s7 (proj1 A7)) as (s8 & E8 & A8 & _).
  rewrite <- N7 in S6. pose proof (network_stabilization_shows _ _ _ _ _ E8 S6) as S8.
  exists s8. split; [exact E8|]. split; [|split; [|exact S8]].
  - destruct A8 as (_ & -> & _). rewrite N7.
    destruct A6 as (_ & -> & _). rewrite N5.
    destruct A4 as (_ & -> & _). rewrite N3.
    destruct A2 as (_ & -> & _). by rewrite N1.
  - destruct A8 as (_ & _ & -> & _). rewrite N7.
    destruct A6 as (_ & _ & -> & _). rewrite N5.
    destruct A4 as (_ & _ & -> & _). rewrite N3.
    destruct A2 as (_ & _ & -> & _). by rewrite N1.
Qed.

Lemma run_simulation_day1_states topology devices s :
  nodes s = [] → NoDup (name <$> devices) →
  ∃ result s',
    run_simulation py_hash random_sample2 random_choice clock
                   topology devices "day1" s = Done result s' ∧
    res_node_states result = (λ d, (name d, day1_node_state d)) <$> devices.
Proof.
  intros Hnodes Hnd.
  destruct (initialize_simulation_fresh topology devices s Hnodes Hnd)
    as (Hipc & Hns & _ & _).
  assert (Hinit : Forall (λ kn, shows (λ _, false) init_states (λ _, ∅) kn.2)
                         (nodes (_initialize_simulation topology devices s))).
  { rewrite Hns. apply Forall_fmap, Forall_true. intros d. by repeat split. }
  destruct (run_day1_scenario_shows _ Hipc Hinit) as (s2 & Hrun & Hkeys & Hdevs & Hall).
  unfold run_simulation, run_simulation_try.
  replace (bool_decide ("day1" = "day1")) with true by done.
  rewrite Hrun. cbn [bind].
  eexists _, _. split; [reflexivity|]. cbn [res_node_states].
  assert (Hd : devices_of (nodes s2) = devices).
  { rewrite Hdevs, Hns. unfold devices_of. rewrite <- list_fmap_compose.
    rewrite <- (list_fmap_id devices) at 2. apply list_fmap_ext. intros _ d _.
    unfold node_start, NetworkNode_init. reflexivity. }
  assert (Hk : Forall (λ kn, kn.1 = name (device kn.2)) (nodes s2)).
  { apply Forall_fmap_ext. change (λ kn : string * NetworkNode, name (device kn.2))
      with (name ∘ (λ kn : string * NetworkNode, device kn.2)).
    rewrite list_fmap_compose. fold (devices_of (nodes s2)).
    rewrite Hd, Hkeys, Hns, <- list_fmap_compose. reflexivity. }
  rewrite <- Hd. unfold devices_of, _collect_node_states.
  rewrite <- list_fmap_compose. apply Forall_fmap_ext_1.
  apply Forall_forall. intros [k n] Hin.
  pose proof (proj1 (Forall_forall _ _) Hk _ Hin) as Hkn.
  pose proof (proj1 (Forall_forall _ _) Hall _ Hin) as (Hop & Hst & Hrt & Harp).
  simpl in *. unfold day1_node_state, is_operational, get_interface_states,
    get_routing_table, get_arp_table.
  rewrite Hkn, Hop, Hst, Hrt, Harp. f_equal. unfold states_after, starts_up, routes_after.
  f_equal. destruct (is_type "router" (device n)); [|done].
  by rewrite connected_routes_size.
Qed.
End Day1States.

(** X24.  What a day1 run over devices with distinct names reports for
    each device, in the order given: the device is operational; its
    interfaces are as after power-on for a router, switch or firewall and as
    configured for any other kind; a router has one route per distinct
    network named by its routing protocols and any other device has none;
    and no device has an address table entry, although every device ran
    its discovery. *)
Theorem day1_node_states (py_hash : string → Z)
    (random_sample2 : list string → string * string) (random_choice : nat → nat)
    (clock : nat → Q) (topology : NetworkTopology) (devices : list NetworkDevice) :
  NoDup (name <$> devices) →
  ∃ result s',
    run_simulation py_hash random_sample2 random_choice clock
                   topology devices "day1" NetworkSimulator_init = Done result s' ∧
    res_node_states result = (λ d, (name d, day1_node_state d)) <$> devices ∧
    Forall (λ kn, st_arp_table_size kn.2 = 0) (res_node_states result).
Proof.
  intros Hnd.
  destruct (run_simulation_day1_states py_hash random_sample2 random_choice clock
              topology devices NetworkSimulator_init eq_refl Hnd)
    as (result & s' & Hrun & Hst).
  exists result, s'. split; [exact Hrun|]. split; [exact Hst|].
  rewrite Hst. apply Forall_fmap, Forall_true. done.
Qed.

Lemma day1_node_states_witness :
  ∃ result s',
    run_simulation hash0 sample0 choice0 clock0
                   full_mesh three_devices "day1" NetworkSimulator_init
    = Done result s' ∧
    (λ kn, (kn.1, st_routing_table_size kn.2, st_arp_table_size kn.2))
      <$> res_node_states result
    = [("R1", 1, 0); ("S1", 0, 0); ("PC1", 0, 0)].
Proof.
  assert (Hnd : NoDup (name <$> three_devices)).
  { apply (proj2 (NoDup_ListNoDup _)). repeat constructor; simpl; intuition discriminate. }
  destruct (day1_node_states hash0 sample0 choice0 clock0 full_mesh three_devices Hnd)
    as (result & s' & Hrun & Hst & _).
  exists result, s'. split; [exact Hrun|]. rewrite Hst. reflexivity.
Defined.

(** ** Teardown and reuse *)

Lemma initialize_simulation_same topology devices s1 s2 :
  nodes s1 = nodes s2 → events s1 = events s2 →
  simulation_paused s1 = simulation_paused s2 →
  _initialize_simulation topology devices s1 = _initialize_simulation topology devices s2.
Proof. unfold _initialize_simulation. by intros -> -> ->. Qed.

Lemma initialize_simulation_registry topology devices s :
  is_Some (ipc_manager (_initialize_simulation topology devices s)) ∧
  simulation_paused (_initialize_simulation topology devices s) = simulation_paused s.
Proof. by split. Qed.

Lemma cleanup_simulation_spec s :
  is_Some (ipc_manager s) →
  let s' := _cleanup_simulation s in
  nodes s' = [] ∧ events s' = [] ∧ simulation_running s' = false ∧
  simulation_paused s' = simulation_paused s ∧
  ∃ ipc, ipc_manager s' = Some ipc ∧ running ipc = false ∧ connections ipc = [] ∧
         node_queues ipc = [] ∧ message_queue ipc = [].
Proof.
  intros [ipc Hipc]. unfold _cleanup_simulation. rewrite Hipc. simpl.
  do 4 (split; [done|]). by eexists.
Qed.

(** X25.  [run_simulation] returns a result exactly for the scenarios day1
    and day2 and raises for every other name; on either exit the
    orchestrator is left torn down: no nodes, an empty log, not running, its
    pause flag as before, and a stopped registry without connections or
    queued messages.  A later run on the same orchestrator therefore goes as
    on a new one with that pause flag, whatever was run before. *)
Theorem run_simulation_teardown (py_hash : string → Z)
    (random_sample2 random_sample2' : list string → string * string)
    (random_choice random_choice' : nat → nat) (clock clock' : nat → Q)
    (topology topology' : NetworkTopology) (devices devices' : list NetworkDevice)
    (scenario scenario' : string) (s : NetworkSimulator) :
  let o := run_simulation py_hash random_sample2 random_choice clock
                          topology devices scenario s in
  ((∃ result s', o = Done result s') ↔ scenario = "day1" ∨ scenario = "day2") ∧
  nodes (state_of o) = [] ∧ events (state_of o) = [] ∧
  simulation_running (state_of o) = false ∧
  simulation_paused (state_of o) = simulation_paused s ∧
  (∃ ipc, ipc_manager (state_of o) = Some ipc ∧ running ipc = false ∧
          connections ipc = [] ∧ node_queues ipc = [] ∧ message_queue ipc = []) ∧
  run_simulation py_hash random_sample2' random_choice' clock'
                 topology' devices' scenario' (state_of o)
  = run_simulation py_hash random_sample2' random_choice' clock'
                   topology' devices' scenario'
                   (mkSim [] None false (simulation_paused s) []).
Proof.
  intros o.
  destruct (initialize_simulation_registry topology devices s) as [Hipc Hpaused].
  assert (Hcases :
    ∃ s2, is_Some (ipc_manager s2) ∧ simulation_paused s2 = simulation_paused s ∧
          ((∃ result, o = Done result (_cleanup_simulation s2)) ∧
           (scenario = "day1" ∨ scenario = "day2")
           ∨ (∃ e, o = Raised e (_cleanup_simulation s2)) ∧
             scenario ≠ "day1" ∧ scenario ≠ "day2")).
  { unfold o, run_simulation, run_simulation_try.
    destruct (decide (scenario = "day1")) as [->|H1];
      [|destruct (decide (scenario = "day2")) as [->|H2]].
    - replace (bool_decide ("day1" = "day1")) with true by done.
      destruct (run_day1_scenario_appends py_hash _ Hipc)
        as (s2 & -> & (Hi & _ & _ & Hp & _) & _).
      cbn [bind]. exists s2. split; [done|]. split; [congruence|].
      left. split; [by eexists | by left].
    - replace (bool_decide ("day2" = "day1")) with false by done.
      replace (bool_decide ("day2" = "day2")) with true by done.
      destruct (run_day2_scenario_appends py_hash random_sample2 random_choice clock
                  _ Hipc) as (s2 & -> & (Hi & _ & _ & Hp & _) & _).
      cbn [bind]. exists s2. split; [done|]. split; [congruence|].
      left. split; [by eexists | by right].
    - rewrite !bool_decide_false by done. cbn [bind].
      exists (_initialize_simulation topology devices s).
      split; [done|]. split; [done|]. right. split; [by eexists | done]. }
  destruct Hcases as (s2 & Hi2 & Hp2 & Hcase).
  destruct (cleanup_simulation_spec s2 Hi2) as (Hn & He & Hr & Hp & Hreg).
  assert (Hstate : state_of o = _cleanup_simulation s2).
  { destruct Hcase as [[[result ->] _] | [[e ->] _]]; done. }
  rewrite Hstate. split; [|split; [done|split; [done|split; [done|split;
    [congruence|split; [done|]]]]]].
  - split.
    + intros (result & s' & Ho).
      destruct Hcase as [[_ Hsc] | [[e He'] _]]; [done | congruence].
    + intros Hsc. destruct Hcase as [[[result Ho] _] | [_ [H1 H2]]];
        [by eexists _, _ | by destruct Hsc].
  - unfold run_simulation, run_simulation_try.
    rewrite (initialize_simulation_same topology' devices' (_cleanup_simulation s2)
               (mkSim [] None false (simulation_paused s) [])); [done|done|done|].
    simpl. congruence.
Qed.

(** * Connection properties *)

Lemma apply_props_idempotent p c : apply_props p (apply_props p c) = apply_props p c.
Proof.
  unfold apply_props. destruct c, (p_latency p), (p_packet_loss p), (p_bandwidth p); done.
Qed.

(** X26.  On any registry reached from a fresh one,
    [set_connection_properties a b] changes the connection between [a] and
    [b], seen from either side, by exactly the given properties, although
    the loop visits the shared object once per direction; every other
    connection, every enabled flag, the counters and the queues stay as
    they were. *)
Theorem set_connection_properties_spec (steps : list TrafficStep) (a b x y : string)
    (p : ConnProps) :
  let m := run_traffic steps IPCManager_init in
  let m' := set_connection_properties a b p m in
  get_connection_info x y m'
  = (if decide ((x, y) = (a, b) ∨ (x, y) = (b, a))
     then apply_props p <$> get_connection_info x y m
     else get_connection_info x y m) ∧
  connection_enabled x y m' = connection_enabled x y m ∧
  connections m' = connections m ∧ message_stats m' = message_stats m ∧
  message_queue m' = message_queue m ∧ node_queues m' = node_queues m.
Proof.
  intros m m'.
  pose proof (registry_wf_run_traffic steps) as Hwf. change (registry_wf m) in Hwf.
  destruct Hwf as ((Hsym & _) & _ & Hsep & _).
  set (m1 := update_at_key (apply_props p) (a, b) m).
  assert (Hm' : m' = update_at_key (apply_props p) (b, a) m1) by done.
  assert (Hc1 : connections m1 = connections m) by apply update_at_key_connections.
  assert (Hsep1 : refs_separate m1).
  { unfold refs_separate. by rewrite Hc1. }
  assert (Hinfo : get_connection_info x y m'
                  = if decide ((x, y) = (a, b) ∨ (x, y) = (b, a))
                    then apply_props p <$> get_connection_info x y m
                    else get_connection_info x y m).
  { case_decide as Hxy.
    - assert (Hkey : dict_get (connections m) (x, y) = dict_get (connections m) (a, b)).
      { destruct Hxy as [-> | ->]; [done | apply Hsym]. }
      rewrite Hm', update_at_key_info, Hc1, <- (Hsym a b).
      unfold m1. rewrite update_at_key_info, Hkey.
      destruct (dict_get (connections m) (a, b)) as [r|] eqn:Hr.
      + rewrite !decide_True by done.
        destruct (get_connection_info x y m) as [c|]; [|done]. simpl.
        by rewrite apply_props_idempotent.
      + unfold get_connection_info. by rewrite Hkey.
    - rewrite Hm'. rewrite update_at_key_info_other; [| done | tauto | simpl; tauto].
      unfold m1. by rewrite update_at_key_info_other; [| done | tauto | simpl; tauto]. }
  split; [exact Hinfo|]. split.
  - rewrite !connection_enabled_info, Hinfo. case_decide; [|done].
    destruct (get_connection_info x y m) as [c|]; [|done]. simpl.
    apply apply_props_enabled.
  - rewrite Hm'. unfold m1, update_at_key.
    destruct (dict_get (connections m) (a, b)); simpl;
      destruct (dict_get (connections m) (b, a)); done.
Qed.

(** * Recovery *)

Lemma for_nodes_registry (R : IPCManager → Prop) sel body ns ipc evs :
  (∀ n ipc evs, R ipc → R (body n ipc evs).1.2) →
  R ipc → R (for_nodes sel body ns ipc evs).1.2.
Proof.
  intros Hbody. revert sel ipc evs.
  induction ns as [|[k n] ns IH]; intros sel ipc evs HR; [by destruct sel|].
  destruct sel as [|b sel]; [done|]. cbn [for_nodes].
  destruct b.
  - specialize (Hbody n ipc evs HR).
    destruct (body n ipc evs) as [[n' ipc'] evs']. simpl in Hbody.
    specialize (IH sel ipc' evs' Hbody).
    by destruct (for_nodes sel body ns ipc' evs') as [[ns'' ipc''] evs''].
  - specialize (IH sel ipc evs HR).
    by destruct (for_nodes sel body ns ipc evs) as [[ns'' ipc''] evs''].
Qed.

Lemma send_ospf_hello_registry_frame py_hash n ipc :
  heap (send_ospf_hello py_hash n ipc).2 = heap ipc ∧
  connections (send_ospf_hello py_hash n ipc).2 = connections ipc.
Proof.
  unfold send_ospf_hello. destruct (_ || _); [done|].
  generalize (filter (λ rp, protocol rp = "ospf") (routing_protocols (device n))).
  intros rps. revert n ipc.
  induction rps as [|rp rps IH]; intros n ipc; cbn [foldl]; [done|].
  unfold _broadcast_message.
  match goal with
  | |- context [foldl _ (?n1, broadcast_from_node ?src ?msg ipc) rps] =>
      destruct (IH n1 (broadcast_from_node src msg ipc)) as [Hh Hc];
      destruct (foldl_send_frame src msg (get_neighbors src ipc) ipc) as (Hh1 & Hc1 & _);
      fold (broadcast_from_node src msg ipc) in Hh1, Hc1
  end.
  split; (etransitivity; [|eassumption]); [exact Hh | exact Hc].
Qed.

Lemma update_routing_table_lookup n i :
  operational n = true → device_type (device n) = "router" →
  routing_table (update_routing_table n) !! i
  = if decide (i ∈ announced_networks (device n))
    then Some "directly_connected" else routing_table n !! i.
Proof.
  intros Hop Hty. unfold update_routing_table.
  rewrite Hop, bool_decide_true by done. simpl. apply foldl_networks_lookup.
Qed.

(** X27.  [_simulate_network_recovery] on an orchestrator whose registry
    was reached from a fresh one: afterwards every entry of the connection
    table is enabled, whatever was disabled before and by whom, the table
    itself is unchanged, and every operational router has a route, marked
    directly connected, to each network its routing protocols name. *)
Theorem network_recovery_spec (py_hash : string → Z) (steps : list TrafficStep)
    (s : NetworkSimulator) :
  ipc_manager s = Some (run_traffic steps IPCManager_init) →
  ∃ s' ipc',
    _simulate_network_recovery py_hash s = Done () s' ∧
    ipc_manager s' = Some ipc' ∧
    connections ipc' = connections (run_traffic steps IPCManager_init) ∧
    (∀ x y, connection_enabled x y ipc' = dict_mem (connections ipc') (x, y)) ∧
    Forall (λ kn, is_type "router" (device kn.2) = true → operational kn.2 = true →
                  ∀ network, network ∈ announced_networks (device kn.2) →
                             routing_table kn.2 !! network = Some "directly_connected")
           (nodes s').
Proof.
  intros Hipc. set (ipc := run_traffic steps IPCManager_init) in *.
  pose proof (registry_wf_run_traffic steps) as (Hinv & _). fold ipc in Hinv.
  set (body := λ (node : NetworkNode) (ipc' : IPCManager) (evs' : list Event),
                 let '(node', ipc'') := reconverge_routing py_hash node ipc' in
                 (node', ipc'', evs')).
  set (s1 := _log_event "recovery_start" "Starting network recovery" None s).
  set (r := for_nodes (of_type "router" (nodes s1)) body (nodes s1)
                      (enable_all_connections ipc) (events s1)).
  assert (Hrun : _simulate_network_recovery py_hash s
                 = Done () (_log_event "recovery_complete" "Network recovery completed"
                              None
                              (mkSim r.1.1 (Some r.1.2) (simulation_running s1)
                                     (simulation_paused s1) r.2))).
  { unfold _simulate_network_recovery, live. fold s1.
    assert (ipc_manager s1 = Some ipc) as -> by done.
    fold body. fold r. by destruct r as [[ns' ipc'] evs']. }
  assert (Hreg : heap r.1.2 = heap (enable_all_connections ipc) ∧
                 connections r.1.2 = connections ipc).
  { apply (for_nodes_registry
             (λ m, heap m = heap (enable_all_connections ipc) ∧
                   connections m = connections ipc)); [|done].
    intros n ipc0 evs0 [Hh Hc]. unfold body, reconverge_routing.
    destruct (negb _); [done|].
    destruct (send_ospf_hello_registry_frame py_hash n ipc0) as [Hh1 Hc1].
    destruct (send_ospf_hello py_hash n ipc0) as [n1 ipc1]. simpl in *.
    split; congruence. }
  destruct Hreg as [Hh Hc].
  assert (Hnodes : Forall (λ kn, is_type "router" (device kn.2) = true →
                                 operational kn.2 = true →
                                 ∀ network, network ∈ announced_networks (device kn.2) →
                                   routing_table kn.2 !! network
                                   = Some "directly_connected") r.1.1).
  { unfold r. rewrite of_type_is_type.
    apply (for_nodes_Forall (λ _, True)
             (λ n, is_type "router" (device n) = true → operational n = true →
                   ∀ network, network ∈ announced_networks (device n) →
                     routing_table n !! network = Some "directly_connected")
             (is_type "router")).
    - intros n ipc0 evs0 _ Hr. unfold body, reconverge_routing.
      unfold is_type in Hr. rewrite Hr. simpl.
      destruct (send_ospf_hello_same_tables py_hash n ipc0) as (Hd & Ho & _).
      destruct (send_ospf_hello py_hash n ipc0) as [n1 ipc1]. simpl in *.
      destruct (update_routing_table_frame n1) as (Hd1 & Ho1 & _).
      intros _ Hop network Hin. rewrite Hd1 in Hin. rewrite Ho1 in Hop.
      rewrite update_routing_table_lookup; [by rewrite decide_True | done |].
      rewrite Hd. by apply bool_decide_eq_true in Hr.
    - intros n _ Hr Hr'. congruence.
    - apply Forall_true. done. }
  eexists _, r.1.2. split; [exact Hrun|]. cbn [_log_event ipc_manager nodes].
  split; [done|]. split; [done|]. split; [|done].
  intros x y. rewrite (connection_enabled_same x y (enable_all_connections ipc))
    by (by rewrite ?Hh, ?Hc).
  rewrite Hc.
  assert (Hinv' : registry_inv (enable_all_connections ipc)).
  { eapply registry_inv_same_table; [| |exact Hinv];
      [done | apply update_all_heap_length]. }
  destruct (dict_mem (connections ipc) (x, y)) eqn:Hmem.
  - destruct (registry_inv_info (enable_all_connections ipc) x y Hinv' Hmem)
      as (r0 & c & _ & _ & _ & Hinfo & _).
    rewrite connection_enabled_info, Hinfo. simpl.
    by apply (update_all_info (set_enabled true) (λ c0, enabled c0 = true) x y ipc c).
  - apply dict_mem_false in Hmem.
    unfold connection_enabled, get_connection_info, enable_all_connections.
    by rewrite update_all_connections, Hmem.
Qed.

(** * Hardware addresses *)

Lemma hex_digit_value_digit (d : Z) : 0 <= d < 16 → hex_digit_value (hex_digit d) = d.
Proof.
  intros Hd.
  assert (d = 0 ∨ d = 1 ∨ d = 2 ∨ d = 3 ∨ d = 4 ∨ d = 5 ∨ d = 6 ∨ d = 7 ∨ d = 8 ∨
          d = 9 ∨ d = 10 ∨ d = 11 ∨ d = 12 ∨ d = 13 ∨ d = 14 ∨ d = 15) as Hcases by lia.
  repeat destruct Hcases as [-> | Hcases]; try reflexivity. by subst d.
Qed.

Lemma string_length_app (s1 s2 : string) :
  String.length (s1 +:+ s2) = (String.length s1 + String.length s2)%nat.
Proof. induction s1 as [|c s1 IH]; simpl; [done | by rewrite IH]. Qed.

Lemma hex_value_from_snoc (acc : Z) (s : string) (c : ascii) :
  hex_value_from acc (s +:+ String c "")
  = 16 * hex_value_from acc s + hex_digit_value c.
Proof. revert acc. induction s as [|c' s IH]; intros acc; simpl; [done | apply IH]. Qed.

Lemma hex_of_value (fuel : nat) (z : Z) :
  0 <= z < 16 ^ Z.of_nat fuel → hex_value (hex_of fuel z) = z.
Proof.
  unfold hex_value. revert z. induction fuel as [|fuel IH]; intros z Hz.
  - change (16 ^ Z.of_nat 0) with 1 in Hz. simpl. lia.
  - cbn [hex_of]. destruct (z <? 16)%Z eqn:Hlt.
    + apply Z.ltb_lt in Hlt. simpl. rewrite hex_digit_value_digit by lia. lia.
    + apply Z.ltb_ge in Hlt. rewrite hex_value_from_snoc, IH.
      * rewrite hex_digit_value_digit by (apply Z.mod_pos_bound; lia).
        pose proof (Z.div_mod z 16). lia.
      * rewrite Nat2Z.inj_succ, Z.pow_succ_r in Hz by lia.
        split; [apply Z.div_pos; lia | apply Z.div_lt_upper_bound; lia].
Qed.

Lemma hex_of_length (fuel k : nat) (z : Z) :
  0 <= z < 16 ^ Z.of_nat k → (0 < k)%nat → (String.length (hex_of fuel z) ≤ k)%nat.
Proof.
  revert k z. induction fuel as [|fuel IH]; intros k z Hz Hk; [simpl; lia|].
  cbn [hex_of]. destruct (z <? 16)%Z eqn:Hlt; [simpl; lia|].
  apply Z.ltb_ge in Hlt. rewrite string_length_app. simpl.
  destruct k as [|[|k]]; [lia | simpl in Hz; lia |].
  assert (String.length (hex_of fuel (z `div` 16)) ≤ S k)%nat; [|lia].
  apply IH; [|lia].
  rewrite (Nat2Z.inj_succ (S k)), Z.pow_succ_r in Hz by lia.
  split; [apply Z.div_pos; lia | apply Z.div_lt_upper_bound; lia].
Qed.

Lemma zeros_length (k : nat) : String.length (zeros k) = k.
Proof. induction k as [|k IH]; simpl; [done | by rewrite IH]. Qed.

Lemma hex_value_zeros (k : nat) (s : string) : hex_value (zeros k +:+ s) = hex_value s.
Proof. unfold hex_value. induction k as [|k IH]; simpl; [done | exact IH]. Qed.

Lemma format_06x_spec (z : Z) :
  0 <= z < 16 ^ 6 →
  String.length (format_06x z) = 6%nat ∧ hex_value (format_06x z) = z.
Proof.
  intros Hz. unfold format_06x. rewrite (proj2 (Z.ltb_ge z 0)) by lia.
  unfold zfill, py_hex.
  pose proof (hex_of_length (S (Z.to_nat (Z.log2 z))) 6 z Hz ltac:(lia)) as Hlen.
  split.
  - rewrite string_length_app, zeros_length. lia.
  - rewrite hex_value_zeros. apply hex_of_value. split; [lia|].
    destruct (decide (z = 0)) as [->|Hnz]; [simpl; lia|].
    pose proof (Z.log2_nonneg z) as Hlog.
    rewrite Nat2Z.inj_succ, Z2Nat.id by done.
    pose proof (proj2 (Z.log2_spec z ltac:(lia))) as Hup.
    eapply Z.lt_le_trans; [exact Hup|].
    apply Z.pow_le_mono_l. lia.
Qed.

(** X28.  The address [_get_interface_mac] gives an interface of a device
    has 17 characters: the prefix 00:50:56: and three colon-separated groups
    of two lower-case hexadecimal digits.  Read as one number the groups are
    the hash of device and interface name modulo 0xFFFFFF, so that two
    interfaces get the same address exactly when their hashes agree modulo
    0xFFFFFF. *)
Theorem get_interface_mac_spec (py_hash : string → Z) (interface_name : string)
    (n : NetworkNode) (interface_name' : string) (n' : NetworkNode) :
  let residue := λ i m, py_hash (name (device m) +:+ ":" +:+ i) `mod` 16777215 in
  let mac := _get_interface_mac py_hash interface_name n in
  String.length mac = 17%nat ∧
  substring 0 9 mac = "00:50:56:" ∧
  substring 11 1 mac = ":" ∧ substring 14 1 mac = ":" ∧
  mac_value mac = residue interface_name n ∧
  (mac = _get_interface_mac py_hash interface_name' n'
   ↔ residue interface_name n = residue interface_name' n').
Proof.
  intros residue mac.
  assert (Hgen : ∀ i m,
            String.length (_get_interface_mac py_hash i m) = 17%nat ∧
            substring 0 9 (_get_interface_mac py_hash i m) = "00:50:56:" ∧
            substring 11 1 (_get_interface_mac py_hash i m) = ":" ∧
            substring 14 1 (_get_interface_mac py_hash i m) = ":" ∧
            mac_value (_get_interface_mac py_hash i m) = residue i m).
  { intros i m. unfold _get_interface_mac. fold (residue i m).
    assert (Hz : 0 <= residue i m < 16 ^ 6).
    { unfold residue.
      pose proof (Z.mod_pos_bound (py_hash (name (device m) +:+ ":" +:+ i)) 16777215
                    ltac:(lia)).
      change (16 ^ 6) with 16777216. lia. }
    destruct (format_06x_spec (residue i m) Hz) as [Hlen Hval].
    destruct (format_06x (residue i m))
      as [|c0 [|c1 [|c2 [|c3 [|c4 [|c5 [|c6 rest]]]]]]]; try discriminate.
    rewrite <- Hval. by repeat split. }
  destruct (Hgen interface_name n) as (H1 & H2 & H3 & H4 & H5).
  do 5 (split; [done|]). split.
  - intros Heq. destruct (Hgen interface_name' n') as (_ & _ & _ & _ & H5').
    rewrite <- H5, <- H5'. by rewrite <- Heq.
  - intros Heq. unfold mac, _get_interface_mac. fold (residue interface_name n).
    fold (residue interface_name' n'). by rewrite Heq.
Qed.

(** * Delivery to nodes *)

(** X29.  [k] iterations of the delivery thread of a registered node on a
    running registry move the first [k] messages of the node's inbound
    queue, or all of them if there are fewer, to the end of the node's own
    queue in the same order, and leave the later ones in the inbound queue;
    the counters, the connections and the queues of other nodes are not
    touched. *)
Theorem node_message_delivery_fifo (k : nat) (node_name : string) (n : NetworkNode)
    (m : IPCManager) (q : list Message) :
  running m = true →
  dict_get (node_queues m) node_name = Some q →
  let r := deliver_to_node_n k node_name n m in
  node_message_queue r.1 = node_message_queue n ++ take k q ∧
  dict_get (node_queues r.2) node_name = Some (drop k q) ∧
  (∀ other, other ≠ node_name →
            dict_get (node_queues r.2) other = dict_get (node_queues m) other) ∧
  message_stats r.2 = message_stats m ∧ message_queue r.2 = message_queue m ∧
  connections r.2 = connections m ∧ heap r.2 = heap m ∧
  same_tables n r.1.
Proof.
  revert n m q. induction k as [|k IH]; intros n m q Hrun Hq.
  - simpl. rewrite app_nil_r. by repeat split.
  - cbn [deliver_to_node_n]. unfold deliver_to_node, _node_message_delivery_step.
    rewrite Hrun, Hq. cbn [negb]. destruct q as [|message rest].
    + destruct (IH n m [] Hrun Hq) as (H1 & H2 & H3 & H4 & H5 & H6 & H7 & H8).
      rewrite take_nil in *. rewrite drop_nil in *. by split_and!.
    + set (m1 := with_node_queues (dict_set (node_queues m) node_name rest) m).
      assert (Hq1 : dict_get (node_queues m1) node_name = Some rest).
      { apply dict_get_set_eq. }
      destruct (IH (receive_message message n) m1 rest Hrun Hq1)
        as (H1 & H2 & H3 & H4 & H5 & H6 & H7 & H8).
      split_and!; try done.
      * rewrite H1. cbn [receive_message node_message_queue take].
        by rewrite <- app_assoc.
      * intros other Hne. rewrite (H3 other Hne). unfold m1. simpl.
        by apply dict_get_set_ne.
Qed.

Lemma node_message_delivery_fifo_witness :
  let r := deliver_to_node_n 1 "B" (NetworkNode_init pc_PC1) registry_AB_two_delivered in
  node_message_queue r.1 = [[("type", VStr "ping")]] ∧
  dict_get (node_queues r.2) "B" = Some [[("type", VStr "ospf_hello")]].
Proof.
  destruct (node_message_delivery_fifo 1 "B" (NetworkNode_init pc_PC1)
              registry_AB_two_delivered
              [[("type", VStr "ping")]; [("type", VStr "ospf_hello")]]
              eq_refl eq_refl) as (H1 & H2 & _).
  split; [exact H1 | exact H2].
Defined.

(** ** Instance of the recovery property *)

Lemma network_recovery_witness :
  connection_enabled "R1" "S1"
    (run_traffic (full_mesh_steps ++ [StepRegistry (OpDisable "R1" "S1")])
                 IPCManager_init) = false ∧
  ∃ s' ipc',
    _simulate_network_recovery hash0 sim_three_link_down = Done () s' ∧
    ipc_manager s' = Some ipc' ∧
    connection_enabled "R1" "S1" ipc' = true ∧
    connection_enabled "S1" "R1" ipc' = true.
Proof.
  split; [reflexivity|].
  destruct (network_recovery_spec hash0
              (full_mesh_steps ++ [StepRegistry (OpDisable "R1" "S1")])
              sim_three_link_down eq_refl)
    as (s' & ipc' & Hrun & Hipc & Hc & Hen & _).
  exists s', ipc'. split; [exact Hrun|]. split; [exact Hipc|].
  rewrite !Hen, Hc. split; reflexivity.
Defined.

(** * The link failure phase *)

Lemma at_node_get key body ns ipc k :
  dict_get (at_node key body ns ipc).1 k
  = if decide (key = k) then (λ n, (body n ipc).1) <$> dict_get ns key
    else dict_get ns k.
Proof.
  unfold at_node. destruct (dict_get ns key) as [node|] eqn:Hget.
  - destruct (body node ipc) as [node' ipc'] eqn:Hb. simpl.
    rewrite dict_get_set. case_decide; [by rewrite Hb | done].
  - simpl. case_decide as Hk; [by rewrite <- Hk, Hget | done].
Qed.

Lemma handle_link_failure_registry_frame py_hash now neighbor n ipc :
  heap (handle_link_failure py_hash now neighbor n ipc).2 = heap ipc ∧
  connections (handle_link_failure py_hash now neighbor n ipc).2 = connections ipc.
Proof.
  destruct (handle_link_failure_effect py_hash now neighbor n ipc)
    as (_ & _ & _ & _ & _ & ->).
  destruct (bool_decide _); [|done].
  destruct (foldl_send_frame (name (device n))
              (lsa_for (name (device n)) (_get_router_id py_hash n) now)
              (get_neighbors (name (device n)) ipc) ipc) as (Hh & Hc & _).
  by split.
Qed.

Lemma at_node_registry_frame key body ns ipc :
  (∀ n ipc, heap (body n ipc).2 = heap ipc ∧ connections (body n ipc).2 = connections ipc) →
  heap (at_node key body ns ipc).2 = heap ipc ∧
  connections (at_node key body ns ipc).2 = connections ipc.
Proof.
  intros Hbody. unfold at_node. destruct (dict_get ns key) as [node|]; [|done].
  specialize (Hbody node ipc). by destruct (body node ipc) as [node' ipc'].
Qed.

Lemma handle_link_failure_routes py_hash now neighbor n ipc x :
  x = neighbor ∨ (∀ network, routing_table n !! network ≠ Some x) →
  ∀ network,
    routing_table (handle_link_failure py_hash now neighbor n ipc).1 !! network ≠ Some x.
Proof.
  intros Hx network.
  destruct (handle_link_failure_effect py_hash now neighbor n ipc)
    as (_ & _ & _ & _ & Hrt & _).
  rewrite Hrt. case_decide as Hnb; [done|].
  destruct Hx as [-> | Hx]; [done | apply Hx].
Qed.

(** X30.  [_simulate_link_failures] with at least two nodes and a registry
    reached from a fresh one, for the pair of names the sample gives: the
    connection between the two is disabled in both directions and no other
    connection changes its state; the node registered under either name
    ends without a route through the other; every node registered under
    another name is left as it was. *)
Theorem simulate_link_failures_spec (py_hash : string → Z)
    (random_sample2 : list string → string * string) (clock : nat → Q)
    (steps : list TrafficStep) (s : NetworkSimulator) (a b : string) :
  ipc_manager s = Some (run_traffic steps IPCManager_init) →
  (2 ≤ length (nodes s))%nat →
  random_sample2 (dict_keys (nodes s)) = (a, b) →
  ∃ s' ipc',
    _simulate_link_failures py_hash random_sample2 clock s = Done () s' ∧
    ipc_manager s' = Some ipc' ∧
    connection_enabled a b ipc' = false ∧ connection_enabled b a ipc' = false ∧
    (∀ x y, (x, y) ≠ (a, b) → (x, y) ≠ (b, a) →
            connection_enabled x y ipc'
            = connection_enabled x y (run_traffic steps IPCManager_init)) ∧
    (∀ node', dict_get (nodes s') a = Some node' →
              ∀ network, routing_table node' !! network ≠ Some b) ∧
    (∀ node', dict_get (nodes s') b = Some node' →
              ∀ network, routing_table node' !! network ≠ Some a) ∧
    (∀ other, other ≠ a → other ≠ b →
              dict_get (nodes s') other = dict_get (nodes s) other).
Proof.
  intros Hipc Hlen Hpair. set (ipc := run_traffic steps IPCManager_init) in *.
  pose proof (registry_wf_run_traffic steps) as (_ & _ & Hsep & _). fold ipc in Hsep.
  set (ipc1 := disable_connection a b ipc).
  set (r2 := at_node a (handle_link_failure py_hash (clock 0%nat) b) (nodes s) ipc1).
  set (r3 := at_node b (handle_link_failure py_hash (clock 1%nat) a) r2.1 r2.2).
  assert (Hrun : _simulate_link_failures py_hash random_sample2 clock s
                 = Done () (mkSim r3.1 (Some r3.2) (simulation_running s)
                                  (simulation_paused s)
                                  (events s ++ [ev_link_failure (a, b)]))).
  { unfold _simulate_link_failures, live. rewrite Hipc. cbv zeta.
    unfold dict_keys in *. rewrite length_fmap, (proj2 (Nat.leb_le 2 _) Hlen), Hpair.
    fold ipc1. fold r2. destruct r2 as [ns2 ipc2] eqn:H2. simpl in r3. fold r3.
    by destruct r3 as [ns3 ipc3]. }
  assert (Hframe : ∀ now nb n ipc0,
            heap (handle_link_failure py_hash now nb n ipc0).2 = heap ipc0 ∧
            connections (handle_link_failure py_hash now nb n ipc0).2
            = connections ipc0).
  { intros. apply handle_link_failure_registry_frame. }
  destruct (at_node_registry_frame a _ (nodes s) ipc1 (Hframe (clock 0%nat) b))
    as [Hh2 Hc2]. fold r2 in Hh2, Hc2.
  destruct (at_node_registry_frame b _ r2.1 r2.2 (Hframe (clock 1%nat) a))
    as [Hh3 Hc3]. fold r3 in Hh3, Hc3.
  assert (Hen : ∀ x y, connection_enabled x y r3.2 = connection_enabled x y ipc1).
  { intros x y. apply connection_enabled_same; congruence. }
  destruct (disable_connection_off a b ipc) as [Hoff1 Hoff2]. fold ipc1 in Hoff1, Hoff2.
  assert (Hget3 : ∀ k, dict_get r3.1 k
                       = if decide (b = k)
                         then (λ n, (handle_link_failure py_hash (clock 1%nat) a n r2.2).1)
                                <$> dict_get r2.1 b
                         else dict_get r2.1 k).
  { intros k. apply at_node_get. }
  assert (Hget2 : ∀ k, dict_get r2.1 k
                       = if decide (a = k)
                         then (λ n, (handle_link_failure py_hash (clock 0%nat) b n ipc1).1)
                                <$> dict_get (nodes s) a
                         else dict_get (nodes s) k).
  { intros k. apply at_node_get. }
  eexists _, r3.2. split; [exact Hrun|]. cbn [ipc_manager nodes].
  split; [done|]. split; [by rewrite Hen|]. split; [by rewrite Hen|].
  split; [|split; [|split]].
  - intros x y H1 H2. rewrite Hen. unfold ipc1.
    by rewrite !connection_enabled_info, disable_connection_info_other.
  - intros node'. rewrite Hget3.
    assert (Ha : ∀ n2, dict_get r2.1 a = Some n2 →
                       ∀ network, routing_table n2 !! network ≠ Some b).
    { intros n2. rewrite Hget2, decide_True by done.
      destruct (dict_get (nodes s) a) as [na|]; [|done]. simpl. intros [= <-].
      apply handle_link_failure_routes. by left. }
    case_decide as Hba.
    + subst b. destruct (dict_get r2.1 a) as [n2|] eqn:Hn2; [|done]. simpl.
      intros [= <-]. apply handle_link_failure_routes. by left.
    + apply Ha.
  - intros node'. rewrite Hget3, decide_True by done.
    destruct (dict_get r2.1 b) as [n2|]; [|done]. simpl. intros [= <-].
    apply handle_link_failure_routes. by left.
  - intros other Ha Hb. rewrite Hget3, decide_False by done.
    by rewrite Hget2, decide_False.
Qed.

Lemma simulate_link_failures_witness :
  ∃ s' ipc',
    _simulate_link_failures hash0 sample0 clock0 sim_three = Done () s' ∧
    ipc_manager s' = Some ipc' ∧
    connection_enabled "R1" "S1" ipc' = false ∧
    connection_enabled "S1" "R1" ipc' = false ∧
    connection_enabled "R1" "PC1" ipc' = true ∧
    dict_get (nodes s') "PC1" = dict_get (nodes sim_three) "PC1".
Proof.
  destruct (simulate_link_failures_spec hash0 sample0 clock0 full_mesh_steps sim_three
              "R1" "S1" eq_refl ltac:(simpl; lia) eq_refl)
    as (s' & ipc' & Hrun & Hipc & H1 & H2 & Hother & _ & _ & Hnodes).
  exists s', ipc'. split; [exact Hrun|]. split; [exact Hipc|].
  split; [exact H1|]. split; [exact H2|]. split.
  - rewrite Hother by discriminate. reflexivity.
  - apply Hnodes; discriminate.
Defined.
